(** * convoy/fleet.py: pool construction, validation and coordination

    A shallow embedding of the parts of [convoy/fleet.py] that decide the
    subnet address-space plan, the GlusterFS primary/backup selection, the
    pool-creation validation, the pool-add request, and the multi-instance
    coordination runs, followed by the properties proved about them.

    Python integers are [Z], strings are [string], [None]-able values are
    [option].  Calls into the cloud services and into the sibling modules
    ([settings], [util], [storage], [batch], ...) are recorded, in program
    order, in a trace of events; what those calls answer is given by a
    [World].  Exceptions are values of [exn]. *)

From Stdlib Require Import ZArith List String Ascii Bool Lia DecimalString.
From Stdlib Require Import SpecFloat.
Import ListNotations.
Local Open Scope string_scope.
Local Open Scope Z_scope.

(* ================================================================== *)
(** * Part I: definitions *)
(* ================================================================== *)

(** ** Python values and built-ins *)

Inductive exn : Type :=
| RuntimeError (msg : string)
| ValueError (msg : string)
| KeyError (msg : string)
| IndexError (msg : string)
| TypeError (msg : string)
| AttributeError (msg : string)
| OverflowError (msg : string)
| NameError (msg : string)
| UnboundLocalError (msg : string)
| NotImplementedError (msg : string)
| BatchErrorException (msg : string).

Module Py.

(** The one-character string holding a double quote. *)
Definition dquote : string :=
  String (Ascii false true false false false true false false) EmptyString.

(** ['{}'.format(n)] for an integer. *)
Definition str (n : Z) : string := NilZero.string_of_int (Z.to_int n).

(** ['{}'.format(b)] for a boolean. *)
Definition str_bool (b : bool) : string := if b then "True" else "False".

(** [sep.join(l)]. *)
Definition join (sep : string) (l : list string) : string :=
  String.concat sep l.

(** [s.split(c)] for a one-character separator: the result is never
    empty, and has one more element than [s] has separators. *)
Fixpoint split (c : ascii) (s : string) : list string :=
  match s with
  | EmptyString => [EmptyString]
  | String a rest =>
      if Ascii.eqb a c then EmptyString :: split c rest
      else match split c rest with
           | [] => [String a EmptyString]
           | hd :: tl => String a hd :: tl
           end
  end.

(** [l[i]] on a list, [IndexError] out of range (non-negative [i]). *)
Definition index {A} (l : list A) (i : nat) : exn + A :=
  match nth_error l i with
  | Some x => inr x
  | None => inl (IndexError "list index out of range")
  end.

(** [s.startswith(p)]. *)
Definition startswith (s p : string) : bool := String.prefix p s.

(** ASCII [str.lower()]. *)
Definition lower_ascii (c : ascii) : ascii :=
  let n := nat_of_ascii c in
  if ((65 <=? n) && (n <=? 90))%nat then ascii_of_nat (n + 32) else c.

Fixpoint lower (s : string) : string :=
  match s with
  | EmptyString => EmptyString
  | String a rest => String (lower_ascii a) (lower rest)
  end.

(** The ASCII characters [str.strip()] and [int()] treat as blanks. *)
Definition is_space (c : ascii) : bool :=
  let n := nat_of_ascii c in
  (((9 <=? n) && (n <=? 13)) || ((28 <=? n) && (n <=? 32)))%nat.

Fixpoint lstrip (s : string) : string :=
  match s with
  | String a rest => if is_space a then lstrip rest else s
  | EmptyString => EmptyString
  end.

Definition digit_of (c : ascii) : option Z :=
  let n := nat_of_ascii c in
  if ((48 <=? n) && (n <=? 57))%nat then Some (Z.of_nat (n - 48)) else None.

(** The digits of an [int()] literal after its sign: decimal digits,
    single underscores between digits, then only trailing blanks.
    [acc] is the value read so far, [after_digit] tells whether the last
    character read was a digit. *)
Fixpoint int_digits (s : string) (acc : Z) (after_digit : bool) : option Z :=
  match s with
  | EmptyString => if after_digit then Some acc else None
  | String a rest =>
      match digit_of a with
      | Some d => int_digits rest (10 * acc + d) true
      | None =>
          if Ascii.eqb a "_" then
            if after_digit then int_digits rest acc false else None
          else if is_space a then
            if after_digit then
              match lstrip rest with
              | EmptyString => Some acc
              | String _ _ => None
              end
            else None
          else None
      end
  end.

(** [int(s)] for an ASCII string; [None] stands for [ValueError]. *)
Definition int_of_str (s : string) : option Z :=
  match lstrip s with
  | String "-" rest => option_map Z.opp (int_digits rest 0 false)
  | String "+" rest => int_digits rest 0 false
  | t => int_digits t 0 false
  end.

(** *** Floating point: IEEE 754 binary64, as CPython's [float] *)

Definition prec : Z := 53.
Definition emax : Z := 1024.

(** [float(n)] for an integer: correctly rounded, to nearest even. *)
Definition float_of_int (n : Z) : spec_float :=
  binary_normalize prec emax n 0 false.

(** The literal [0.9]: the double nearest to nine tenths,
    [0x1.ccccccccccccdp-1]. *)
Definition float_0_9 : spec_float :=
  S754_finite false 8106479329266893 (-53).

Definition float_mul (x y : spec_float) : spec_float :=
  SFmul prec emax x y.

(** [int(x)] for a float: truncation toward zero; infinities and NaN
    raise. *)
Definition int_of_float (x : spec_float) : exn + Z :=
  match x with
  | S754_zero _ => inr 0
  | S754_finite s m e =>
      let mag := if 0 <=? e then Z.pos m * 2 ^ e
                 else Z.pos m / 2 ^ (- e) in
      inr (if s then - mag else mag)
  | S754_infinity _ =>
      inl (OverflowError "cannot convert float infinity to integer")
  | S754_nan => inl (ValueError "cannot convert float NaN to integer")
  end.

(** [n * 0.9] with [n] an integer: [n] is converted first, which raises
    when it is too large for a double. *)
Definition int_mul_0_9 (n : Z) : exn + spec_float :=
  match float_of_int n with
  | S754_infinity _ =>
      inl (OverflowError "int too large to convert to float")
  | f => inr (float_mul f float_0_9)
  end.

(** [1 << k]. *)
Definition shl1 (k : Z) : exn + Z :=
  if k <? 0 then inl (ValueError "negative shift count")
  else inr (Z.shiftl 1 k).

End Py.

(** ** The Batch service's request and response objects
    ([azure.batch.models], imported as [batchmodels]) *)

Definition timedelta : Type := Z.

Module batchmodels.

Inductive TaskState : Type := active | preparing | running | completed.

(** [batch._RUN_ELEVATED]. *)
Inductive UserIdentity : Type := RUN_ELEVATED.

Definition TaskState_eqb (a b : TaskState) : bool :=
  match a, b with
  | active, active | preparing, preparing
  | running, running | completed, completed => true
  | _, _ => false
  end.

Record TaskExecutionInformation : Type := {
  exit_code : option Z
}.

Record CloudTask : Type := {
  task_id : string;
  state : TaskState;
  execution_info : option TaskExecutionInformation
}.

Record MetadataItem : Type := {
  md_name : string;
  md_value : string
}.

Record CloudPool : Type := {
  pool_id : string;
  current_dedicated_nodes : Z;
  current_low_priority_nodes : Z;
  pool_target_dedicated_nodes : Z;
  pool_target_low_priority_nodes : Z;
  pool_enable_inter_node_communication : bool;
  pool_metadata : option (list MetadataItem)
}.

Record ComputeNode : Type := {
  node_id : string;
  ip_address : string
}.

Record ResourceFile : Type := {
  file_path : string;
  blob_source : string;
  file_mode : option string
}.

Record EnvironmentSetting : Type := {
  env_name : string;
  env_value : string
}.

Record MultiInstanceSettings : Type := {
  number_of_instances : Z;
  coordination_command_line : string;
  common_resource_files : list ResourceFile
}.

Record TaskAddParameter : Type := {
  tap_id : string;
  tap_command_line : string;
  tap_environment_settings : list EnvironmentSetting;
  tap_user_identity : UserIdentity;
  tap_multi_instance_settings : option MultiInstanceSettings
}.

Record JobAddParameter : Type := {
  job_id : string;
  job_pool_id : string
}.

Record ImageReference : Type := {
  ir_publisher : option string;
  ir_offer : option string;
  ir_sku : option string;
  ir_version : option string;
  virtual_machine_image_id : option string
}.

Record ContainerConfiguration : Type := {
  container_image_names : list string;
  container_registries : list string
}.

Record VirtualMachineConfiguration : Type := {
  image_reference : ImageReference;
  node_agent_sku_id : option string;
  container_configuration : option ContainerConfiguration
}.

Inductive CertificateVisibility : Type := vis_start_task | vis_task.

Record CertificateReference : Type := {
  thumbprint : string;
  thumbprint_algorithm : string;
  visibility : list CertificateVisibility
}.

Record StartTask : Type := {
  command_line : string;
  user_identity : UserIdentity;
  wait_for_success : bool;
  environment_settings : list EnvironmentSetting;
  resource_files : list ResourceFile
}.

(** [PoolAddParameter]: the pool-creation request. *)
Record PoolAddParameter : Type := {
  id : string;
  virtual_machine_configuration : VirtualMachineConfiguration;
  vm_size : string;
  target_dedicated_nodes : option Z;
  target_low_priority_nodes : option Z;
  resize_timeout : option timedelta;
  max_tasks_per_node : Z;
  enable_inter_node_communication : bool;
  start_task : StartTask;
  enable_auto_scale : bool;
  auto_scale_formula : option string;
  auto_scale_evaluation_interval : option timedelta;
  metadata : list MetadataItem;
  task_scheduling_policy : option string;
  certificate_references : list CertificateReference;
  network_configuration : option string
}.

End batchmodels.

(** ** The configuration, as the [settings] accessors present it

    The [settings] and [util] modules are separate source files; the
    configuration dictionary is modelled by the record of what the accessors
    used in [fleet.py] read from it, and the setters by record updates. *)

Module util.

Definition is_none_or_empty (o : option string) : bool :=
  match o with
  | None => true
  | Some s => String.eqb s ""
  end.

Definition is_not_empty (o : option string) : bool :=
  negb (is_none_or_empty o).

Definition list_is_none_or_empty {A} (o : option (list A)) : bool :=
  match o with
  | None | Some [] => true
  | Some (_ :: _) => false
  end.

Definition list_is_not_empty {A} (l : list A) : bool :=
  match l with
  | [] => false
  | _ :: _ => true
  end.

End util.

Module settings.

Record VmCountSettings : Type := {
  dedicated : Z;
  low_priority : Z
}.

Record PoolAutoscaleSettings : Type := {
  evaluation_interval : option timedelta;
  formula : option string;
  scenario : option string
}.

Record VirtualNetworkSettings : Type := {
  arm_subnet_id : option string;
  vnet_name : option string;
  vnet_resource_group : option string;
  address_space : string;
  subnet_name : string;
  subnet_address_prefix : string
}.

Record SSHSettings : Type := {
  username : option string;
  hpn_server_swap : bool
}.

Record VmConfiguration : Type := {
  publisher : option string;
  offer : option string;
  sku : option string;
  version : option string;
  arm_image_id : option string;
  node_agent : option string
}.

Record ResourceFileSettings : Type := {
  rfs_file_path : string;
  rfs_blob_source : string;
  rfs_file_mode : option string
}.

Record PoolSettings : Type := {
  id : string;
  vm_size : string;
  vm_count : VmCountSettings;
  resize_timeout : option timedelta;
  max_tasks_per_node : Z;
  inter_node_communication_enabled : bool;
  vm_configuration : VmConfiguration;
  autoscale : PoolAutoscaleSettings;
  node_fill_type : option string;
  ssh : SSHSettings;
  gpu_driver : option string;
  additional_node_prep_commands : list string;
  virtual_network : VirtualNetworkSettings;
  block_until_all_global_resources_loaded : bool;
  transfer_files_on_pool_creation : bool;
  attempt_recovery_on_unusable : bool;
  resource_files : list ResourceFileSettings
}.

Record BatchShipyardSettings : Type := {
  use_shipyard_docker_image : bool;
  store_timing_metrics : bool;
  storage_entity_prefix : string
}.

Record PeerToPeerSettings : Type := {
  enabled : bool;
  compression : bool;
  direct_download_seed_bias : Z
}.

Record DataReplicationSettings : Type := {
  peer_to_peer : PeerToPeerSettings;
  concurrent_source_downloads : Z
}.

Record AADSettings : Type := {
  directory_id : option string
}.

Record BatchCredentialsSettings : Type := {
  aad : AADSettings;
  bc_resource_group : string;
  location : string
}.

(** Modelled from the spec: a shared data volume is a tagged variant over
    blob mount, file-share mount, cluster-filesystem mount and on-compute
    replicated volume; [fleet.py] also names the case of an unknown
    driver.  The [settings] module that reads the tag is a separate
    source file. *)
Inductive VolumeDriver : Type :=
| azurefile
| azureblob
| glusterfs_on_compute
| storage_cluster
| unknown_driver (name : string).

Record SharedDataVolume : Type := {
  volume_driver : VolumeDriver;
  volume_type : option string;
  volume_options : option (list string);
  mount_options : list string
}.

Definition SharedDataVolumes : Type := list (string * SharedDataVolume).

Record FileServerSettings : Type := {
  fs_type : string;
  mountpoint : string
}.

Record StorageClusterSettings : Type := {
  sc_id : string;
  sc_resource_group : string;
  sc_virtual_network_name : string;
  sc_virtual_network_resource_group : string;
  sc_vm_count : Z;
  file_server : FileServerSettings
}.

(** The configuration dictionary. *)
Record Config : Type := {
  pool_specification : PoolSettings;
  pool_publisher_raw : option string;
  pool_offer_raw : option string;
  pool_sku_raw : option string;
  pool_custom_image_node_agent : option string;
  batch_shipyard : BatchShipyardSettings;
  data_replication : option DataReplicationSettings;
  docker_images : list string;
  singularity_images : list string;
  shared_data_volumes : option SharedDataVolumes;
  encryption_enabled : bool;
  batch_credentials : BatchCredentialsSettings;
  is_verbose : bool;
  remotefs : list (string * StorageClusterSettings)
}.

(** [settings.pool_settings(config)] and [settings.pool_id(config)]. *)
Definition pool_settings (config : Config) : PoolSettings :=
  pool_specification config.

Definition pool_id (config : Config) : string :=
  id (pool_specification config).

(** [settings.pool_publisher(config, lower=True)] and its siblings. *)
Definition pool_publisher (config : Config) : option string :=
  option_map Py.lower (pool_publisher_raw config).

Definition pool_offer (config : Config) : option string :=
  option_map Py.lower (pool_offer_raw config).

Definition pool_sku (config : Config) : option string :=
  option_map Py.lower (pool_sku_raw config).

(** [settings.global_resources_shared_data_volumes(config)]: [KeyError]
    when the configuration declares none. *)
Definition global_resources_shared_data_volumes (config : Config)
  : exn + SharedDataVolumes :=
  match shared_data_volumes config with
  | Some sdv => inr sdv
  | None => inl (KeyError "shared_data_volumes")
  end.

(** [settings.data_replication_settings(config)]. *)
Definition data_replication_settings (config : Config)
  : exn + DataReplicationSettings :=
  match data_replication config with
  | Some dr => inr dr
  | None => inl (KeyError "data_replication")
  end.

Definition is_shared_data_volume_azure_file (v : SharedDataVolume) : bool :=
  match volume_driver v with azurefile => true | _ => false end.

Definition is_shared_data_volume_azure_blob (v : SharedDataVolume) : bool :=
  match volume_driver v with azureblob => true | _ => false end.

Definition is_shared_data_volume_gluster_on_compute
  (v : SharedDataVolume) : bool :=
  match volume_driver v with glusterfs_on_compute => true | _ => false end.

Definition is_shared_data_volume_storage_cluster
  (v : SharedDataVolume) : bool :=
  match volume_driver v with storage_cluster => true | _ => false end.

Definition shared_data_volume_driver (v : SharedDataVolume) : string :=
  match volume_driver v with
  | azurefile => "azurefile"
  | azureblob => "azureblob"
  | glusterfs_on_compute => "glusterfs_on_compute"
  | storage_cluster => "storage_cluster"
  | unknown_driver name => name
  end.

(** The setters: [settings.set_use_shipyard_docker_image(config, flag)]
    and the like write one key of the dictionary. *)
Definition with_pool_specification (config : Config) (p : PoolSettings)
  : Config :=
  {| pool_specification := p;
     pool_publisher_raw := pool_publisher_raw config;
     pool_offer_raw := pool_offer_raw config;
     pool_sku_raw := pool_sku_raw config;
     pool_custom_image_node_agent := pool_custom_image_node_agent config;
     batch_shipyard := batch_shipyard config;
     data_replication := data_replication config;
     docker_images := docker_images config;
     singularity_images := singularity_images config;
     shared_data_volumes := shared_data_volumes config;
     encryption_enabled := encryption_enabled config;
     batch_credentials := batch_credentials config;
     is_verbose := is_verbose config;
     remotefs := remotefs config |}.

Definition set_use_shipyard_docker_image (config : Config) (flag : bool)
  : Config :=
  {| pool_specification := pool_specification config;
     pool_publisher_raw := pool_publisher_raw config;
     pool_offer_raw := pool_offer_raw config;
     pool_sku_raw := pool_sku_raw config;
     pool_custom_image_node_agent := pool_custom_image_node_agent config;
     batch_shipyard :=
       {| use_shipyard_docker_image := flag;
          store_timing_metrics :=
            store_timing_metrics (batch_shipyard config);
          storage_entity_prefix :=
            storage_entity_prefix (batch_shipyard config) |};
     data_replication := data_replication config;
     docker_images := docker_images config;
     singularity_images := singularity_images config;
     shared_data_volumes := shared_data_volumes config;
     encryption_enabled := encryption_enabled config;
     batch_credentials := batch_credentials config;
     is_verbose := is_verbose config;
     remotefs := remotefs config |}.

Definition update_pool (p : PoolSettings)
  (inc : bool) (swap : bool) (block : bool) (recovery : bool)
  : PoolSettings :=
  {| id := id p;
     vm_size := vm_size p;
     vm_count := vm_count p;
     resize_timeout := resize_timeout p;
     max_tasks_per_node := max_tasks_per_node p;
     inter_node_communication_enabled := inc;
     vm_configuration := vm_configuration p;
     autoscale := autoscale p;
     node_fill_type := node_fill_type p;
     ssh := {| username := username (ssh p); hpn_server_swap := swap |};
     gpu_driver := gpu_driver p;
     additional_node_prep_commands := additional_node_prep_commands p;
     virtual_network := virtual_network p;
     block_until_all_global_resources_loaded := block;
     transfer_files_on_pool_creation := transfer_files_on_pool_creation p;
     attempt_recovery_on_unusable := recovery;
     resource_files := resource_files p |}.

Definition set_inter_node_communication_enabled
  (config : Config) (flag : bool) : Config :=
  let p := pool_specification config in
  with_pool_specification config
    (update_pool p flag (hpn_server_swap (ssh p))
       (block_until_all_global_resources_loaded p)
       (attempt_recovery_on_unusable p)).

Definition set_hpn_server_swap (config : Config) (flag : bool) : Config :=
  let p := pool_specification config in
  with_pool_specification config
    (update_pool p (inter_node_communication_enabled p) flag
       (block_until_all_global_resources_loaded p)
       (attempt_recovery_on_unusable p)).

Definition set_block_until_all_global_resources_loaded
  (config : Config) (flag : bool) : Config :=
  let p := pool_specification config in
  with_pool_specification config
    (update_pool p (inter_node_communication_enabled p)
       (hpn_server_swap (ssh p)) flag
       (attempt_recovery_on_unusable p)).

Definition set_attempt_recovery_on_unusable
  (config : Config) (flag : bool) : Config :=
  let p := pool_specification config in
  with_pool_specification config
    (update_pool p (inter_node_communication_enabled p)
       (hpn_server_swap (ssh p))
       (block_until_all_global_resources_loaded p) flag).

(** The predicates and derived values of [settings] (and of [autoscale])
    whose definitions are not in [fleet.py]: what they answer is a
    parameter of the development. *)
Class Api : Type := {
  is_windows_pool : Config -> bool;
  is_native_docker_pool : Config -> bool;
  is_platform_image : Config -> bool;
  (** [is_pool_autoscale_enabled(config, pas=...)]: [fleet.py] always
      passes the autoscale settings to look at. *)
  is_pool_autoscale_enabled : PoolAutoscaleSettings -> bool;
  gpu_configuration_check : Config -> string -> bool;
  is_rdma_pool : string -> bool;
  is_gpu_pool : string -> bool;
  is_gpu_visualization_pool : string -> bool;
  get_gpu_type_from_vm_size : string -> string;
  can_tune_tcp : string -> bool;
  gluster_volume_type : SharedDataVolume -> exn + option string;
  gluster_volume_options : SharedDataVolume -> exn + option (list string);
  get_gluster_default_volume_name : string;
  get_file_server_glusterfs_volume_name : StorageClusterSettings -> string;
  generate_virtual_machine_name : StorageClusterSettings -> Z -> string;
  get_host_mounts_path : bool -> string;
  temp_disk_mountpoint : Config -> string;
  get_metadata_version_name : string;
  get_singularity_tmpdir : Config -> string;
  get_singularity_cachedir : Config -> string;
  docker_registries : Config -> list string;
  autoscale_get_formula : PoolSettings -> option string;
  singularity_image_name_on_disk : string -> string;
  shipyard_version : string;
  blobxfer_version : string
}.

End settings.

(** ** Effects: the trace of external calls, and the world that answers *)

Inductive log_level : Type := DEBUG | INFO | WARNING | ERROR | EXCEPTION.

(** Objects of the management clients that [fleet.py] reads. *)
Record Subnet : Type := {
  subnet_id : string;
  subnet_name : string;
  address_prefix : string
}.

Record VirtualMachine : Type := {
  vm_name : string;
  platform_update_domain : option Z;
  platform_fault_domain : option Z
}.

Record NetworkInterface : Type := {
  private_ip_addresses : list (option string)
}.

(** One entry per call that leaves [fleet.py], in program order. *)
Inductive event : Type :=
| Log (level : log_level) (msg : string)
  (* util, time, uuid *)
| ConfirmAction (msg : string)
| Sleep (seconds : Z)
| Uuid4
  (* batch_client *)
| PoolExists (pool_id : string)
| PoolGet (pool_id : string)
| JobAdd (job : batchmodels.JobAddParameter)
| TaskAdd (job_id : string) (task : batchmodels.TaskAddParameter)
| TaskGet (job_id task_id : string)
| ComputeNodeList (pool_id : string)
| FileGetPropertiesFromComputeNode (pool_id node_id path : string)
| JobDelete (job_id : string)
  (* batch *)
| BatchGetBatchAccount
| BatchAddCertificateToAccount
| BatchCreatePool (pool : batchmodels.PoolAddParameter)
| BatchAddRdpUser
| BatchAddSshUser
| BatchGetRemoteLoginSettings
| BatchGenerateDockerLoginSettings (for_ssh : bool)
| BatchStreamFileAndWaitForTask (spec : string)
  (* storage *)
| StorageCreateStorageContainers
| StorageClearStorageContainers
| StoragePopulateGlobalResourceBlobs
| StorageUploadResourceFiles (names : list string)
  (* data, crypto *)
| DataIngressData (kind : string)
| DataProcessInputData
| DataWaitForStorageThreads
| CryptoGetEncryptionPfxSettings
| CryptoEncryptString
  (* network and compute management clients, resource *)
| SubnetsGet (resource_group vnet subnet : string)
| ResourceCreateVirtualNetworkAndSubnet (resource_group location : string)
| VirtualMachinesGet (resource_group vm_name : string)
| ResourceGetNicFromVirtualMachine (resource_group vm_name : string)
  (* helpers of fleet.py that only prepare files and images *)
| SetupAzureblobMounts
| SetupAzurefileMounts
| SetupNvidiaDriverPackage (vm_size : string)
| PickNodeAgentForVm
| Unlink (path : string)
| UpdateContainerImagesOverSsh (pool_id : string) (cmd : list string).

(** What the world answers.  The answers to service calls are total: the
    one service failure [fleet.py] handles, the [BatchErrorException] of a
    file that is absent on a node, is the [false] of [file_on_node]; the
    calls wrapped in [try ... except Exception] answer an [exn + _]. *)
Class World : Type := {
  confirm_action : settings.Config -> string -> bool;
  uuid4 : string;
  pool_exists : string -> bool;
  pool_get : string -> batchmodels.CloudPool;
  (** [task_get n job task]: the answer to the poll that [n] polls
      preceded. *)
  task_get : nat -> string -> string -> batchmodels.CloudTask;
  compute_node_list : string -> list batchmodels.ComputeNode;
  file_on_node : string -> string -> string -> bool;
  batch_account_id : string;
  create_pool :
    batchmodels.PoolAddParameter -> option (list batchmodels.ComputeNode);
  add_rdp_user : exn + unit;
  add_ssh_user : exn + unit;
  remote_login_settings : option (list string);
  generate_docker_login_settings :
    settings.Config -> bool ->
    list batchmodels.EnvironmentSetting * list string;
  upload_resource_files : list string -> list (string * string);
  process_input_data : settings.Config -> option string;
  encryption_pfx_sha1 : settings.Config -> string;
  encrypt_string : bool -> string -> string;
  storage_env : string;
  subnets_get : string -> string -> string -> Subnet;
  create_virtual_network_and_subnet :
    string -> string -> settings.VirtualNetworkSettings -> Subnet;
  virtual_machines_get : string -> string -> VirtualMachine;
  get_nic_from_virtual_machine : string -> VirtualMachine -> NetworkInterface;
  setup_azureblob_mounts : exn + string;
  setup_azurefile_mounts : bool -> exn + string;
  setup_nvidia_driver_package : string -> exn + string;
  pick_node_agent_for_vm :
    settings.PoolSettings -> exn + (batchmodels.ImageReference * string);
  update_container_images_over_ssh : string -> list string -> exn + unit;
  (** [util.wrap_commands_in_shell(commands, windows=..., wait=...)];
      [None] for a keyword that is not passed. *)
  wrap_commands_in_shell : list string -> option bool -> option bool -> string
}.

Record state : Type := mkState {
  config : settings.Config;
  trace : list event;
  task_polls : nat
}.

Inductive outcome (A : Type) : Type :=
| Returned (a : A)
| Raised (e : exn)
| Diverged.
Arguments Returned {A} a.
Arguments Raised {A} e.
Arguments Diverged {A}.

(** A computation reads and writes the state and returns, raises, or is
    still polling when its fuel runs out. *)
Definition M (A : Type) : Type := state -> outcome A * state.

Definition ret {A} (a : A) : M A := fun s => (Returned a, s).

Definition bind {A B} (c : M A) (k : A -> M B) : M B :=
  fun s =>
    match c s with
    | (Returned a, s') => k a s'
    | (Raised e, s') => (Raised e, s')
    | (Diverged, s') => (Diverged, s')
    end.

Definition raise {A} (e : exn) : M A := fun s => (Raised e, s).

Definition diverge {A} : M A := fun s => (Diverged, s).

Declare Scope monad_scope.
Delimit Scope monad_scope with monad.
Notation "x <- c1 ;; c2" := (bind c1 (fun x => c2))
  (at level 61, c1 at next level, right associativity) : monad_scope.
Notation "' pat <- c1 ;; c2" :=
  (bind c1 (fun x => match x with pat => c2 end))
  (at level 61, pat pattern, c1 at next level, right associativity)
  : monad_scope.
Notation "c1 ;; c2" := (bind c1 (fun _ => c2))
  (at level 61, right associativity) : monad_scope.
Local Open Scope monad_scope.

(** Record one external call. *)
Definition emit (e : event) : M unit :=
  fun s => (Returned tt,
            {| config := config s;
               trace := trace s ++ [e];
               task_polls := task_polls s |}).

Definition get_config : M settings.Config :=
  fun s => (Returned (config s), s).

Definition set_config (c : settings.Config) : M unit :=
  fun s => (Returned tt,
            {| config := c; trace := trace s; task_polls := task_polls s |}).

(** A pure step that can raise. *)
Definition lift {A} (r : exn + A) : M A :=
  match r with
  | inr a => ret a
  | inl e => raise e
  end.

(** [try: c except KeyError: h]. *)
Definition try_except_KeyError {A} (c : M A) (h : M A) : M A :=
  fun s =>
    match c s with
    | (Raised (KeyError _), s') => h s'
    | r => r
    end.

(** [try: c except Exception as e: h e]. *)
Definition try_except_Exception {A} (c : M A) (h : exn -> M A) : M A :=
  fun s =>
    match c s with
    | (Raised e, s') => h e s'
    | r => r
    end.

Definition when (b : bool) (c : M unit) : M unit :=
  if b then c else ret tt.

(** [for x in l: body x], stopping at the first exception. *)
Fixpoint for_each {A} (l : list A) (body : A -> M unit) : M unit :=
  match l with
  | [] => ret tt
  | x :: rest => body x ;; for_each rest body
  end.

Definition logger (level : log_level) (msg : string) : M unit :=
  emit (Log level msg).

(** A management or service client object; the functions only test it
    against [None]. *)
Inductive client : Type := Client.

(** [util.confirm_action(config, msg)]: the user's (or the configuration's)
    answer to a yes/no question. *)
Definition util_confirm_action `{World} (msg : string) : M bool :=
  cfg <- get_config ;;
  emit (ConfirmAction msg) ;;
  ret (confirm_action cfg msg).

(** ** SubnetPlanner *)

Section SubnetPlanner.
Context {api : settings.Api} {world : World}.

(** [_explode_arm_subnet_id]: the components of
    [/subscriptions/<subid>/resourceGroups/<rg>/providers/<provider>/
     virtualNetworks/<vnet>/subnets/<subnet>]. *)
Definition _explode_arm_subnet_id (arm_subnet_id : string)
  : M (string * string * string * string * string) :=
  let tmp := Py.split "/" arm_subnet_id in
  subid <- lift (Py.index tmp 2) ;;
  rg <- lift (Py.index tmp 4) ;;
  provider <- lift (Py.index tmp 6) ;;
  vnet <- lift (Py.index tmp 8) ;;
  subnet <- lift (Py.index tmp 10) ;;
  ret (subid, rg, provider, vnet, subnet).

(** [allowable_addresses = (1 << (32 - mask)) - 5]. *)
Definition allowable_addresses (mask : Z) : exn + Z :=
  match Py.shl1 (32 - mask) with
  | inr p => inr (p - 5)
  | inl e => inl e
  end.

(** [int(allowable_addresses * 0.9)]. *)
Definition tolerance (allowable : Z) : exn + Z :=
  match Py.int_mul_0_9 allowable with
  | inr f => Py.int_of_float f
  | inl e => inl e
  end.

Definition address_space_msg (sn : Subnet) (mask allowable total : Z)
  : string :=
  "subnet " ++ subnet_name sn ++ " mask is " ++ Py.str mask ++
  " and allows " ++ Py.str allowable ++
  " addresses but desired pool vm_count is " ++ Py.str total.

(** The tail of [_pool_virtual_network_subnet_address_space_check],
    from "ensure address prefix for subnet is valid" on. *)
Definition address_space_check
  (pool_settings : settings.PoolSettings) (subnet_id : string)
  (_subnet : Subnet) : M (option string) :=
  let tmp := Py.split "/" (address_prefix _subnet) in
  if (Z.of_nat (List.length tmp) <=? 1) then
    raise (RuntimeError
             ("subnet address_prefix is invalid for Batch pools: " ++
              address_prefix _subnet))
  else
    mask <- match Py.int_of_str (List.last tmp "") with
            | Some m => ret m
            | None =>
                (* the piece is shown as its [repr], which puts a piece
                   of plain characters between single quotes *)
                raise (ValueError
                         ("invalid literal for int() with base 10: '" ++
                          List.last tmp "" ++ "'"))
            end ;;
    allowable <- lift (allowable_addresses mask) ;;
    logger DEBUG
      ("subnet " ++ subnet_name _subnet ++ " mask is " ++ Py.str mask ++
       " and allows " ++ Py.str allowable ++ " addresses") ;;
    let pool_total_vm_count :=
      settings.dedicated (settings.vm_count pool_settings) +
      settings.low_priority (settings.vm_count pool_settings) in
    (if allowable <? pool_total_vm_count then
       raise (RuntimeError
                (address_space_msg _subnet mask allowable
                   pool_total_vm_count))
     else
       tol <- lift (tolerance allowable) ;;
       if tol <=? pool_total_vm_count then
         (* if within 90% tolerance, warn user due to potential address
            shortage if other compute resources are in this subnet *)
         ok <- util_confirm_action
                 (address_space_msg _subnet mask allowable
                    pool_total_vm_count ++ ", proceed?") ;;
         if negb ok then
           raise (RuntimeError "Pool deployment rejected by user")
         else ret tt
       else ret tt) ;;
    logger INFO ("using virtual network subnet id: " ++ subnet_id) ;;
    ret (Some subnet_id).

Definition _pool_virtual_network_subnet_address_space_check
  (network_client : option client)
  (pool_settings : settings.PoolSettings)
  (bc : settings.BatchCredentialsSettings) : M (option string) :=
  let vn := settings.virtual_network pool_settings in
  if util.is_none_or_empty (settings.arm_subnet_id vn) &&
     util.is_none_or_empty (settings.vnet_name vn) then
    logger DEBUG "no virtual network settings specified" ;;
    ret None
  else if util.is_none_or_empty
            (settings.directory_id (settings.aad bc)) then
    (* check if AAD is enabled *)
    raise (RuntimeError
             ("cannot allocate a pool with a virtual network without AAD " ++
              "credentials"))
  else
    let create :=
      let _vnet_rg :=
        match settings.vnet_resource_group vn with
        | Some rg => if String.eqb rg "" then settings.bc_resource_group bc
                     else rg
        | None => settings.bc_resource_group bc
        end in
      emit (ResourceCreateVirtualNetworkAndSubnet _vnet_rg
              (settings.location bc)) ;;
      let _subnet :=
        create_virtual_network_and_subnet _vnet_rg (settings.location bc)
          vn in
      address_space_check pool_settings (subnet_id _subnet) _subnet in
    match settings.arm_subnet_id vn with
    | None => create
    | Some arm =>
        if String.eqb arm "" then create
        else
          '(subid, rg, provider, vnet, subnet) <-
             _explode_arm_subnet_id arm ;;
          logger DEBUG
            ("arm subnet id breakdown: subid=" ++ subid ++ " rg=" ++ rg ++
             " provider=" ++ provider ++ " vnet=" ++ vnet ++
             " subnet=" ++ subnet) ;;
          match network_client with
          | None =>
              logger INFO ("using virtual network subnet id: " ++ arm) ;;
              logger WARNING
                ("cannot perform IP space validation without a valid " ++
                 "network_client, please specify management AAD " ++
                 "credentials to allow pre-validation") ;;
              ret (Some arm)
          | Some _ =>
              (* retrieve address prefix for subnet *)
              emit (SubnetsGet rg vnet subnet) ;;
              address_space_check pool_settings arm
                (subnets_get rg vnet subnet)
          end
    end.

End SubnetPlanner.

(** ** MountPlanner: storage-cluster mount arguments *)

(** What the GlusterFS branch reads of one cluster node. *)
Record node_info : Type := {
  remote_ip : option string;
  ud : option Z;
  fd : option Z
}.

(** The six locals [primary_ip], ..., [backup_fd]. *)
Record selection : Type := {
  primary_ip : option string;
  primary_ud : option Z;
  primary_fd : option Z;
  backup_ip : option string;
  backup_ud : option Z;
  backup_fd : option Z
}.

Definition option_eqb {A} (eqb : A -> A -> bool) (x y : option A) : bool :=
  match x, y with
  | None, None => true
  | Some a, Some b => eqb a b
  | _, _ => false
  end.

Definition is_None {A} (x : option A) : bool :=
  match x with None => true | Some _ => false end.

Definition no_selection : selection :=
  {| primary_ip := None; primary_ud := None; primary_fd := None;
     backup_ip := None; backup_ud := None; backup_fd := None |}.

Definition set_primary (sel : selection) (n : node_info) : selection :=
  {| primary_ip := remote_ip n; primary_ud := ud n; primary_fd := fd n;
     backup_ip := backup_ip sel; backup_ud := backup_ud sel;
     backup_fd := backup_fd sel |}.

Definition set_backup (sel : selection) (n : node_info) : selection :=
  {| primary_ip := primary_ip sel; primary_ud := primary_ud sel;
     primary_fd := primary_fd sel;
     backup_ip := remote_ip n; backup_ud := ud n; backup_fd := fd n |}.

(** The body of the first pass, for one node. *)
Definition first_pass_step (sel : selection) (n : node_info) : selection :=
  let sel := if is_None (primary_ip sel) then set_primary sel n else sel in
  if is_None (backup_ip sel) then
    if option_eqb String.eqb (primary_ip sel) (backup_ip sel) ||
       option_eqb Z.eqb (primary_ud sel) (ud n) ||
       option_eqb Z.eqb (primary_fd sel) (fd n)
    then sel (* continue *)
    else set_backup sel n
  else sel.

(** The second pass: the first node whose update domain is not the
    primary's, then [break]. *)
Fixpoint second_pass (sel : selection) (nodes : list node_info) : selection :=
  match nodes with
  | [] => sel
  | n :: rest =>
      if negb (option_eqb Z.eqb (primary_ud sel) (ud n))
      then set_backup sel n
      else second_pass sel rest
  end.

(** Node [n] is in another update domain than [p], and in another fault
    domain as well. *)
Definition other_ud (p n : node_info) : bool :=
  negb (option_eqb Z.eqb (ud p) (ud n)).

Definition other_ud_and_fd (p n : node_info) : bool :=
  negb (option_eqb Z.eqb (ud p) (ud n)) &&
  negb (option_eqb Z.eqb (fd p) (fd n)).

(** The selection with primary [p] and backup [b]. *)
Definition primary_and_backup (p b : node_info) : selection :=
  set_backup (set_primary no_selection p) b.

Definition str_opt (o : option string) : string :=
  match o with Some s => s | None => "None" end.

(** [repr] of a tuple [(ip, ud, fd)], for the debug log. *)
Definition repr_triple (ip : option string) (u f : option Z) : string :=
  let repr_int o := match o with Some n => Py.str n | None => "None" end in
  let repr_str o := match o with
                    | Some s => "'" ++ s ++ "'"
                    | None => "None"
                    end in
  "(" ++ repr_str ip ++ ", " ++ repr_int u ++ ", " ++ repr_int f ++ ")".

Fixpoint assoc {A} (key : string) (l : list (string * A)) : option A :=
  match l with
  | [] => None
  | (k, v) :: rest => if String.eqb k key then Some v else assoc key rest
  end.

Section MountPlanner.
Context {api : settings.Api} {world : World}.

(** [nic.ip_configurations[0].private_ip_address] and the instance view
    of one queried virtual machine. *)
Definition node_info_of (vm : VirtualMachine) (nic : NetworkInterface)
  : exn + node_info :=
  match Py.index (private_ip_addresses nic) 0 with
  | inr ip => inr {| remote_ip := ip;
                     ud := platform_update_domain vm;
                     fd := platform_fault_domain vm |}
  | inl e => inl e
  end.

(** One query of the compute and network clients for node [i]. *)
Definition query_node (sc : settings.StorageClusterSettings) (i : Z)
  : M (VirtualMachine * NetworkInterface) :=
  let rg := settings.sc_resource_group sc in
  let name := settings.generate_virtual_machine_name sc i in
  emit (VirtualMachinesGet rg name) ;;
  let vm := virtual_machines_get rg name in
  emit (ResourceGetNicFromVirtualMachine rg name) ;;
  ret (vm, get_nic_from_virtual_machine rg vm).

(** [range(n)]. *)
Definition range (n : Z) : list Z :=
  map Z.of_nat (seq 0 (Z.to_nat n)).

(** First pass: "attempt to populate all ip, ud/fd". *)
Fixpoint first_pass (sc : settings.StorageClusterSettings) (idx : list Z)
  (sel : selection) (vms : list node_info)
  : M (selection * list node_info) :=
  match idx with
  | [] => ret (sel, vms)
  | i :: rest =>
      '(vm, nic) <- query_node sc i ;;
      n <- lift (node_info_of vm nic) ;;
      first_pass sc rest (first_pass_step sel n) (vms ++ [n])
  end.

(** Lines 559-611: "walk vms and find non-overlapping ud/fds". *)
Definition glusterfs_select (sc : settings.StorageClusterSettings)
  : M selection :=
  '(sel, vms) <- first_pass sc (range (settings.sc_vm_count sc))
                   no_selection [] ;;
  (* second pass, fill in with at least non-overlapping update domains *)
  let sel := if is_None (backup_ip sel) then second_pass sel vms
             else sel in
  if is_None (primary_ip sel) || is_None (backup_ip sel) then
    raise (RuntimeError
             ("Could not find either a primary ip " ++
              str_opt (primary_ip sel) ++ " or backup ip " ++
              str_opt (backup_ip sel) ++ " for glusterfs client mount"))
  else
    logger DEBUG
      ("primary ip/ud/fd=" ++
       repr_triple (primary_ip sel) (primary_ud sel) (primary_fd sel) ++
       " backup ip/ud/fd=" ++
       repr_triple (backup_ip sel) (backup_ud sel) (backup_fd sel)) ;;
    ret sel.

(** What the first pass reads of node [i] of the cluster. *)
Definition cluster_node (sc : settings.StorageClusterSettings) (i : Z)
  : exn + node_info :=
  let rg := settings.sc_resource_group sc in
  let vm := virtual_machines_get rg
              (settings.generate_virtual_machine_name sc i) in
  node_info_of vm (get_nic_from_virtual_machine rg vm).

Definition any_startswith (p : string) (l : list string) : bool :=
  existsb (fun x => Py.startswith x p) l.

Definition fstab_line (remote srcpath scid fstype mo : string) : string :=
  remote ++ ":" ++ srcpath ++ " " ++
  settings.get_host_mounts_path false ++ "/" ++ scid ++ " " ++
  fstype ++ " " ++ mo ++ " 0 2".

Definition _create_storage_cluster_mount_args
  (sc_id : string) (bc : settings.BatchCredentialsSettings)
  (subnet_id : option string) : M (string * string) :=
  cfg <- get_config ;;
  emit BatchGetBatchAccount ;;
  let ba_id := batch_account_id in
  (* check for vnet/subnet presence *)
  if util.is_none_or_empty subnet_id then
    raise (RuntimeError
             ("cannot mount a storage cluster without a valid virtual " ++
              "network or subnet"))
  else
  (* get remotefs settings *)
  sc <- match assoc sc_id (settings.remotefs cfg) with
        | Some sc => ret sc
        | None => raise (KeyError sc_id)
        end ;;
  sdv <- lift (settings.global_resources_shared_data_volumes cfg) ;;
  match assoc sc_id sdv with
  | None =>
      raise (RuntimeError
               ("No storage cluster " ++ sc_id ++ " found in configuration"))
  | Some vol =>
  if negb (settings.is_shared_data_volume_storage_cluster vol) then
    raise (RuntimeError
             ("No storage cluster " ++ sc_id ++ " found in configuration"))
  else
  '(vnet_subid, vnet_rg, _, vnet_name, subnet_name) <-
     _explode_arm_subnet_id (str_opt subnet_id) ;;
  (* check for same vnet name *)
  if negb (String.eqb (Py.lower vnet_name)
             (Py.lower (settings.sc_virtual_network_name sc))) then
    raise (RuntimeError
             ("cannot link storage cluster " ++ sc_id ++
              " on virtual network " ++
              settings.sc_virtual_network_name sc ++
              " with pool virtual network " ++ vnet_name))
  (* cross check vnet resource group *)
  else if negb (String.eqb (Py.lower vnet_rg)
                  (Py.lower (settings.sc_virtual_network_resource_group sc)))
  then
    raise (RuntimeError
             ("cannot link storage cluster " ++ sc_id ++
              " virtual network in resource group " ++
              settings.sc_virtual_network_resource_group sc ++
              " with pool virtual network in resource group " ++ vnet_rg))
  else
  (* cross check vnet subscription id *)
  ba_subid <- lift (Py.index (Py.split "/" (Py.lower ba_id)) 2) ;;
  if negb (String.eqb (Py.lower vnet_subid) ba_subid) then
    raise (RuntimeError
             ("cannot link storage cluster " ++ sc_id ++
              " virtual network in subscription " ++ vnet_subid ++
              " with pool virtual network in subscription " ++ ba_subid))
  (* get vm count *)
  else if settings.sc_vm_count sc <? 1 then
    raise (RuntimeError
             ("storage cluster " ++ sc_id ++ " vm_count " ++
              Py.str (settings.sc_vm_count sc) ++ " is invalid"))
  else
  let fstype := settings.fs_type (settings.file_server sc) in
  let amo := settings.mount_options vol in
  fstab_mount <-
    (if String.eqb fstype "nfs" then
       (* query first vm for info *)
       '(vm, nic) <- query_node sc 0 ;;
       n <- lift (node_info_of vm nic) ;;
       let mo := "_netdev,auto,nfsvers=4,intr" in
       (* the test ['udp' in mo] is on the constant above: never true *)
       mo <- (if util.list_is_not_empty amo then
                if any_startswith "nfsvers=" amo then
                  raise (RuntimeError
                           ("nfsvers cannot be specified as a mount " ++
                            "option for storage cluster " ++ sc_id))
                else if any_startswith "port=" amo then
                  raise (RuntimeError
                           ("port cannot be specified as a mount option " ++
                            "for storage cluster " ++ sc_id))
                else ret (Py.join "," [mo; Py.join "," amo])
              else ret mo) ;;
       ret (fstab_line (str_opt (remote_ip n))
              (settings.mountpoint (settings.file_server sc))
              sc_id fstype mo)
     else if String.eqb fstype "glusterfs" then
       sel <- glusterfs_select sc ;;
       let mo := "_netdev,auto,transport=tcp,backupvolfile-server=" ++
                 str_opt (backup_ip sel) in
       mo <- (if util.list_is_not_empty amo then
                if any_startswith "backupvolfile-server=" amo then
                  raise (RuntimeError
                           ("backupvolfile-server cannot be specified " ++
                            "as a mount option for storage cluster " ++
                            sc_id))
                else if any_startswith "transport=" amo then
                  raise (RuntimeError
                           ("transport cannot be specified as a mount " ++
                            "option for storage cluster " ++ sc_id))
                else ret (Py.join "," [mo; Py.join "," amo])
              else ret mo) ;;
       ret (fstab_line (str_opt (primary_ip sel))
              ("/" ++ settings.get_file_server_glusterfs_volume_name sc)
              sc_id fstype mo)
     else
       raise (NotImplementedError
                ("cannot handle file_server type " ++ fstype ++
                 " for storage cluster " ++ sc_id))) ;;
  if String.eqb fstab_mount "" then
    raise (RuntimeError
             ("Could not construct an fstab mount entry for storage " ++
              "cluster " ++ sc_id))
  else
  (* construct sc_arg *)
  let sc_arg := fstype ++ ":" ++ sc_id in
  when (settings.is_verbose cfg)
    (logger DEBUG ("storage cluster " ++ sc_id ++ " fstab mount: " ++
                   fstab_mount)) ;;
  ret (fstab_mount, sc_arg)
  end.

End MountPlanner.

(** ** ConfigValidator: [_adjust_settings_for_pool_creation] *)

(** Comparisons and methods on a value that may be [None]. *)
Definition eq_str (o : option string) (s : string) : bool :=
  option_eqb String.eqb o (Some s).

Definition startswith_opt (o : option string) (p : string) : exn + bool :=
  match o with
  | Some s => inr (Py.startswith s p)
  | None =>
      inl (AttributeError "'NoneType' object has no attribute 'startswith'")
  end.

(** [o >= s] and [o < s] on strings: by code point, lexicographically. *)
Definition ge_str (o : option string) (s : string) : exn + bool :=
  match o with
  | Some x => inr (String.leb s x)
  | None => inl (TypeError
                 ("'>=' not supported between instances of " ++
                  "'NoneType' and 'str'"))
  end.

Definition lt_str (o : option string) (s : string) : exn + bool :=
  match o with
  | Some x => inr (String.ltb x s)
  | None => inl (TypeError
                 ("'<' not supported between instances of " ++
                  "'NoneType' and 'str'"))
  end.

Section ConfigValidator.
Context {api : settings.Api} {world : World}.

(** "enforce publisher/offer/sku restrictions": the pair
    [(allowed, shipyard_container_required)]. *)
Definition platform_image_allowed (publisher offer sku : option string)
  : M (bool * bool) :=
  if eq_str publisher "canonical" then
    if eq_str offer "ubuntuserver" then
      b14 <- lift (startswith_opt sku "14.04") ;;
      if b14 then ret (true, true)
      else
        b16 <- lift (startswith_opt sku "16.04") ;;
        if b16 then ret (true, false) else ret (false, true)
    else ret (false, true)
  else if eq_str publisher "credativ" then
    if eq_str offer "debian" then
      b <- lift (ge_str sku "8") ;; ret (b, true)
    else ret (false, true)
  else if eq_str publisher "openlogic" then
    c <- lift (startswith_opt offer "centos") ;;
    if c then b <- lift (ge_str sku "7") ;; ret (b, true)
    else ret (false, true)
  else if eq_str publisher "redhat" then
    if eq_str offer "rhel" then
      b <- lift (ge_str sku "7") ;; ret (b, true)
    else ret (false, true)
  else if eq_str publisher "suse" then
    c <- lift (startswith_opt offer "sles") ;;
    if c then b <- lift (ge_str sku "12-sp1") ;; ret (b, true)
    else if eq_str offer "opensuse-leap" then
      b <- lift (ge_str sku "42") ;; ret (b, true)
    else ret (false, true)
  else if eq_str publisher "microsoftwindowsserver" then
    if eq_str offer "windowsserver" then
      ret (eq_str sku "2016-datacenter-with-containers", true)
    else ret (false, true)
  else ret (false, true).

Definition unsupported_blob_msg (publisher offer sku : option string)
  : string :=
  "azure blob mounting is not supported on publisher=" ++
  str_opt publisher ++ " offer=" ++ str_opt offer ++
  " sku=" ++ str_opt sku.

(** The body of "for sdvkey in sdv", for one volume; returns the new
    [num_gluster]. *)
Definition check_shared_data_volume
  (is_windows native : bool) (pool : settings.PoolSettings)
  (publisher offer sku : option string)
  (num_gluster : Z) (vol : settings.SharedDataVolume) : M Z :=
  if settings.is_shared_data_volume_gluster_on_compute vol then
    if is_windows then
      raise (ValueError "glusterfs on compute is not supported on windows")
    else if settings.is_pool_autoscale_enabled (settings.autoscale pool)
    then
      raise (ValueError
               ("glusterfs on compute cannot be installed on an " ++
                "autoscale-enabled pool"))
    else if negb (settings.inter_node_communication_enabled pool) then
      (* do not modify value and proceed since this interplays with p2p
         settings, simply raise exception and force user to
         reconfigure *)
      raise (ValueError
               ("inter node communication in pool configuration " ++
                "must be enabled for glusterfs on compute"))
    else if settings.low_priority (settings.vm_count pool) >? 0 then
      raise (ValueError
               ("glusterfs on compute cannot be installed on pools " ++
                "with low priority nodes"))
    else if settings.dedicated (settings.vm_count pool) <=? 1 then
      raise (ValueError
               ("vm_count dedicated should exceed 1 for glusterfs " ++
                "on compute"))
    else if settings.max_tasks_per_node pool >? 1 then
      raise (ValueError
               ("max_tasks_per_node cannot exceed 1 for glusterfs " ++
                "on compute"))
    else
      let num_gluster := num_gluster + 1 in
      try_except_KeyError
        (vt <- lift (settings.gluster_volume_type vol) ;;
         if negb (eq_str vt "replica") then
           raise (ValueError
                    ("only replicated GlusterFS volumes are " ++
                     "currently supported"))
         else ret tt)
        (ret tt) ;;
      ret num_gluster
  else if settings.is_shared_data_volume_storage_cluster vol then
    if is_windows then
      raise (ValueError
               "storage cluster mounting is not supported on windows")
    else ret num_gluster
  else if settings.is_shared_data_volume_azure_blob vol then
    if is_windows then
      raise (ValueError "azure blob mounting is not supported on windows")
    else if native then
      raise (ValueError
               ("azure blob mounting is not supported on native " ++
                "container pools"))
    else if eq_str offer "ubuntuserver" then
      old <- lift (lt_str sku "16.04-lts") ;;
      if old then raise (ValueError (unsupported_blob_msg publisher offer sku))
      else ret num_gluster
    else
      c <- lift (startswith_opt offer "centos") ;;
      if negb c then
        raise (ValueError (unsupported_blob_msg publisher offer sku))
      else ret num_gluster
  else ret num_gluster.

Fixpoint check_shared_data_volumes
  (is_windows native : bool) (pool : settings.PoolSettings)
  (publisher offer sku : option string)
  (num_gluster : Z) (sdv : settings.SharedDataVolumes) : M Z :=
  match sdv with
  | [] => ret num_gluster
  | (_, vol) :: rest =>
      n <- check_shared_data_volume is_windows native pool
             publisher offer sku num_gluster vol ;;
      check_shared_data_volumes is_windows native pool
        publisher offer sku n rest
  end.

Definition _adjust_settings_for_pool_creation : M unit :=
  (* get settings *)
  config0 <- get_config ;;
  let pool := settings.pool_settings config0 in
  let publisher := settings.pool_publisher config0 in
  let offer := settings.pool_offer config0 in
  let sku := settings.pool_sku config0 in
  let node_agent := settings.pool_custom_image_node_agent config0 in
  if util.is_not_empty node_agent && util.is_not_empty sku then
    raise (ValueError
             ("cannot specify both a platform_image and a custom_image " ++
              "in the pool specification"))
  else
  let is_windows := settings.is_windows_pool config0 in
  let bs := settings.batch_shipyard config0 in
  (* enforce publisher/offer/sku restrictions *)
  '(allowed, shipyard_container_required) <-
     platform_image_allowed publisher offer sku ;;
  (* check if allowed for gpu (if gpu vm size) *)
  let allowed :=
    if allowed
    then settings.gpu_configuration_check config0 (settings.vm_size pool)
    else allowed in
  if negb allowed && util.is_none_or_empty node_agent then
    raise (ValueError
             ("unsupported Docker (and/or GPU) Host VM Config, publisher=" ++
              str_opt publisher ++ " offer=" ++ str_opt offer ++
              " sku=" ++ str_opt sku ++
              " vm_size=" ++ settings.vm_size pool))
  (* ensure HPC offers are matched with RDMA sizes *)
  else if negb is_windows &&
          ((eq_str offer "centos-hpc" || eq_str offer "sles-hpc") &&
           negb (settings.is_rdma_pool (settings.vm_size pool))) then
    raise (ValueError
             ("cannot allocate an HPC VM config of publisher=" ++
              str_opt publisher ++ " offer=" ++ str_opt offer ++
              " sku=" ++ str_opt sku ++
              " with a non-RDMA vm_size=" ++ settings.vm_size pool))
  else
  (* compute total vm count *)
  let pool_total_vm_count :=
    settings.dedicated (settings.vm_count pool) +
    settings.low_priority (settings.vm_count pool) in
  (* adjust for shipyard container requirement *)
  when (negb (settings.use_shipyard_docker_image bs) &&
        (shipyard_container_required || util.is_not_empty node_agent))
    (set_config (settings.set_use_shipyard_docker_image config0 true) ;;
     logger DEBUG
       ("forcing shipyard docker image to be used due to " ++
        "VM config, publisher=" ++ str_opt publisher ++ " offer=" ++
        str_opt offer ++ " sku=" ++ str_opt sku)) ;;
  (* re-read pool and data replication settings *)
  config1 <- get_config ;;
  let pool := settings.pool_settings config1 in
  dr <- lift (settings.data_replication_settings config1) ;;
  let native := settings.is_native_docker_pool config1 in
  (* ensure singularity images are not specified for native pools *)
  if native && util.list_is_not_empty (settings.singularity_images config1)
  then
    raise (ValueError
             ("cannot specify a native container pool with Singularity " ++
              "images as global resources"))
  else
  (* ensure settings p2p/as/internode settings are compatible *)
  (if settings.enabled (settings.peer_to_peer dr) then
     if native then
       raise (ValueError
                "cannot enable peer-to-peer and native container pools")
     else if settings.is_pool_autoscale_enabled (settings.autoscale pool)
     then raise (ValueError "cannot enable peer-to-peer and autoscale")
     else
       when (settings.inter_node_communication_enabled pool)
         (logger WARNING
            ("force enabling inter-node communication due to " ++
             "peer-to-peer transfer") ;;
          c <- get_config ;;
          set_config (settings.set_inter_node_communication_enabled c true))
   else ret tt) ;;
  (* hpn-ssh can only be used for Ubuntu currently *)
  when (settings.hpn_server_swap (settings.ssh pool) &&
        ((negb (eq_str publisher "canonical") &&
          negb (eq_str offer "ubuntuserver")) ||
         util.is_not_empty node_agent))
    (logger WARNING
       ("cannot enable HPN SSH swap on " ++ str_opt publisher ++ " " ++
        str_opt offer ++ " " ++ str_opt sku) ;;
     c <- get_config ;;
     set_config (settings.set_hpn_server_swap c false)) ;;
  (* force disable block for global resources if ingressing data *)
  when (settings.transfer_files_on_pool_creation pool &&
        settings.block_until_all_global_resources_loaded pool)
    (logger WARNING
       ("disabling block until all global resources loaded with " ++
        "transfer files on pool creation enabled") ;;
     c <- get_config ;;
     set_config
       (settings.set_block_until_all_global_resources_loaded c false)) ;;
  (* re-read pool settings *)
  config2 <- get_config ;;
  let pool := settings.pool_settings config2 in
  (* ensure internode is not enabled for mix node pools *)
  if settings.inter_node_communication_enabled pool &&
     (settings.dedicated (settings.vm_count pool) >? 0) &&
     (settings.low_priority (settings.vm_count pool) >? 0) then
    raise (ValueError
             ("inter node communication cannot be enabled with both " ++
              "dedicated and low priority nodes"))
  else
  (* check shared data volume settings *)
  try_except_KeyError
    (sdv <- lift (settings.global_resources_shared_data_volumes config2) ;;
     num_gluster <- check_shared_data_volumes is_windows native pool
                      publisher offer sku 0 sdv ;;
     if num_gluster >? 1 then
       raise (ValueError
                ("cannot create more than one GlusterFS on compute " ++
                 "volume per pool"))
     else ret tt)
    (ret tt) ;;
  (* check data ingress on pool creation on windows *)
  if is_windows && settings.transfer_files_on_pool_creation pool then
    raise (ValueError
             ("cannot transfer files on pool creation to windows " ++
              "compute nodes"))
  (* check singularity images are not present for windows *)
  else if is_windows &&
          util.list_is_not_empty (settings.singularity_images config2) then
    raise (ValueError "cannot deploy Singularity images on windows pools")
  else
  (* check pool count of 0 and remote login *)
  when ((pool_total_vm_count =? 0) && negb is_windows &&
        util.is_not_empty (settings.username (settings.ssh pool)))
    (logger WARNING "cannot add SSH user with zero target nodes") ;;
  (* ensure unusable recovery is not enabled for custom image *)
  when (settings.attempt_recovery_on_unusable pool &&
        negb (settings.is_platform_image config2))
    (logger WARNING
       "override attempt recovery on unusable due to custom image" ;;
     c <- get_config ;;
     set_config (settings.set_attempt_recovery_on_unusable c false)) ;;
  (* TODO temporarily disable credential encryption with windows *)
  if is_windows && settings.encryption_enabled config2 then
    raise (ValueError
             "cannot enable credential encryption with windows pools")
  else ret tt.

End ConfigValidator.

(** ** PoolRequestBuilder: [_construct_pool_object] *)

(** The resource files: [(name, path)] pairs, paths relative to the
    installation root. *)
Definition _CASCADE_FILE := ("cascade.py", "cascade/cascade.py").
Definition _PERF_FILE := ("perf.py", "cascade/perf.py").
Definition _NODEPREP_FILE :=
  ("shipyard_nodeprep.sh", "scripts/shipyard_nodeprep.sh").
Definition _NODEPREP_CUSTOMIMAGE_FILE :=
  ("shipyard_nodeprep_customimage.sh",
   "scripts/shipyard_nodeprep_customimage.sh").
Definition _NODEPREP_NATIVEDOCKER_FILE :=
  ("shipyard_nodeprep_nativedocker.sh",
   "scripts/shipyard_nodeprep_nativedocker.sh").
Definition _NODEPREP_WINDOWS_FILE :=
  ("shipyard_nodeprep_nativedocker.ps1",
   "scripts/windows/shipyard_nodeprep_nativedocker.ps1").
Definition _GLUSTERPREP_FILE :=
  ("shipyard_glusterfs_on_compute.sh",
   "scripts/shipyard_glusterfs_on_compute.sh").
Definition _GLUSTERRESIZE_FILE :=
  ("shipyard_glusterfs_on_compute_resize.sh",
   "scripts/shipyard_glusterfs_on_compute_resize.sh").
Definition _HPNSSH_FILE := ("shipyard_hpnssh.sh", "scripts/shipyard_hpnssh.sh").
Definition _IMAGE_BLOCK_FILE :=
  ("wait_for_images.sh", "scripts/wait_for_images.sh").
Definition _REGISTRY_LOGIN_FILE :=
  ("registry_login.sh", "scripts/registry_login.sh").
Definition _REGISTRY_LOGIN_WINDOWS_FILE :=
  ("registry_login.ps1", "scripts/windows/registry_login.ps1").
Definition _BLOBXFER_FILE :=
  ("shipyard_blobxfer.sh", "scripts/shipyard_blobxfer.sh").
Definition _BLOBXFER_WINDOWS_FILE :=
  ("shipyard_blobxfer.ps1", "scripts/windows/shipyard_blobxfer.ps1").

(** [_NVIDIA_DRIVER[gpu_type]['target']]. *)
Definition nvidia_driver_target (gpu_type : string) : exn + string :=
  if String.eqb gpu_type "compute" then inr "nvidia-driver.run"
  else if String.eqb gpu_type "visualization" then inr "nvidia-driver-grid.run"
  else if String.eqb gpu_type "license" then
    inl (TypeError "string indices must be integers")
  else inl (KeyError gpu_type).

(** What the walk over the shared data volumes collects. *)
Record volume_flags : Type := {
  azureblob_vd : bool;
  azurefile_vd : bool;
  gluster_on_compute : bool;
  storage_cluster_mounts : list string
}.

Definition no_volumes : volume_flags :=
  {| azureblob_vd := false; azurefile_vd := false;
     gluster_on_compute := false; storage_cluster_mounts := [] |}.

(** [s if b else ''], the optional fragments of the start-task line. *)
Definition flag (b : bool) (s : string) : string := if b then s else "".

(** The autoscale part of the request: [(asenable, asformula, asei)]. *)
Record autoscale_request : Type := {
  asenable : bool;
  asformula : option string;
  asei : option timedelta
}.

Section PoolRequestBuilder.
Context {api : settings.Api} {world : World}.

(** "check shared data volume mounts before proceeding to allocate":
    one volume. *)
Definition scan_volume (f : volume_flags) (sdvkey : string)
  (vol : settings.SharedDataVolume) : exn + volume_flags :=
  if settings.is_shared_data_volume_azure_file vol then
    inr {| azureblob_vd := azureblob_vd f; azurefile_vd := true;
           gluster_on_compute := gluster_on_compute f;
           storage_cluster_mounts := storage_cluster_mounts f |}
  else if settings.is_shared_data_volume_azure_blob vol then
    inr {| azureblob_vd := true; azurefile_vd := azurefile_vd f;
           gluster_on_compute := gluster_on_compute f;
           storage_cluster_mounts := storage_cluster_mounts f |}
  else if settings.is_shared_data_volume_gluster_on_compute vol then
    if gluster_on_compute f then
      inl (ValueError "only one glusterfs on compute can be created")
    else
      inr {| azureblob_vd := azureblob_vd f; azurefile_vd := azurefile_vd f;
             gluster_on_compute := true;
             storage_cluster_mounts := storage_cluster_mounts f |}
  else if settings.is_shared_data_volume_storage_cluster vol then
    inr {| azureblob_vd := azureblob_vd f; azurefile_vd := azurefile_vd f;
           gluster_on_compute := gluster_on_compute f;
           storage_cluster_mounts := storage_cluster_mounts f ++ [sdvkey] |}
  else
    inl (ValueError ("Unknown shared data volume: " ++
                     settings.shared_data_volume_driver vol)).

Fixpoint scan_volumes (f : volume_flags) (sdv : settings.SharedDataVolumes)
  : exn + volume_flags :=
  match sdv with
  | [] => inr f
  | (sdvkey, vol) :: rest =>
      match scan_volume f sdvkey vol with
      | inr f' => scan_volumes f' rest
      | inl e => inl e
      end
  end.

(** The [try ... except KeyError: pass] around the walk: without a
    shared-data-volumes section nothing is collected. *)
Definition scan_shared_data_volumes (cfg : settings.Config)
  : exn + volume_flags :=
  match settings.global_resources_shared_data_volumes cfg with
  | inl (KeyError _) => inr no_volumes
  | inl e => inl e
  | inr sdv => scan_volumes no_volumes sdv
  end.

(** "get autoscale settings" (lines 860-872). *)
Definition autoscale_settings (pool_settings : settings.PoolSettings)
  : M autoscale_request :=
  r <- (if settings.is_pool_autoscale_enabled
             (settings.autoscale pool_settings) then
          when (negb (is_None (settings.resize_timeout pool_settings)))
            (logger WARNING
               "ignoring resize timeout for autoscale-enabled pool") ;;
          ret {| asenable := true;
                 asformula := settings.autoscale_get_formula pool_settings;
                 asei := settings.evaluation_interval
                           (settings.autoscale pool_settings) |}
        else
          ret {| asenable := false; asformula := None; asei := None |}) ;;
  logger DEBUG ("autoscale enabled: " ++ Py.str_bool (asenable r)) ;;
  ret r.

(** "construct fstab mounts for storage clusters". *)
Fixpoint storage_cluster_mount_args (ids : list string)
  (bc : settings.BatchCredentialsSettings) (subnet_id : option string)
  : M (list string * list string) :=
  match ids with
  | [] => ret ([], [])
  | sc_id :: rest =>
      '(fm, sca) <- _create_storage_cluster_mount_args sc_id bc subnet_id ;;
      '(fms, scas) <- storage_cluster_mount_args rest bc subnet_id ;;
      ret (fm :: fms, sca :: scas)
  end.

(** "construct block list". *)
Definition block_list (cfg : settings.Config)
  (pool_settings : settings.PoolSettings) (native : bool)
  : M (option string) :=
  if settings.block_until_all_global_resources_loaded pool_settings then
    let block_for_gr_docker := Py.join "," (settings.docker_images cfg) in
    let block_for_gr_singularity :=
      Py.join ","
        (map settings.singularity_image_name_on_disk
           (settings.singularity_images cfg)) in
    when (String.eqb block_for_gr_docker "" &&
          String.eqb block_for_gr_singularity "")
      (logger WARNING
         ("no Docker and Singularity images specified in global " ++
          "resources")) ;;
    (* native pools will auto preload *)
    let block_for_gr_docker := if native then "" else block_for_gr_docker in
    ret (Some (block_for_gr_docker ++ "#" ++ block_for_gr_singularity))
  else ret None.

(** The resource-file list before the mounts and drivers are added. *)
Definition base_rflist (is_windows native : bool)
  (bs : settings.BatchShipyardSettings)
  (pool_settings : settings.PoolSettings) : list (string * string) :=
  (if is_windows
   then [_REGISTRY_LOGIN_WINDOWS_FILE; _BLOBXFER_WINDOWS_FILE]
   else [_REGISTRY_LOGIN_FILE; _BLOBXFER_FILE]) ++
  (if negb native && negb is_windows then
     _IMAGE_BLOCK_FILE ::
     (if negb (settings.use_shipyard_docker_image bs) then
        _CASCADE_FILE ::
        (if settings.store_timing_metrics bs then [_PERF_FILE] else [])
      else [])
   else []) ++
  (if settings.hpn_server_swap (settings.ssh pool_settings)
   then [_HPNSSH_FILE] else []).

(** "gpu settings": the extra resource file, [gpu_env], and the name of
    the driver file when the local [gpu_driver] got bound. *)
Definition gpu_settings (native : bool)
  (pool_settings : settings.PoolSettings) (custom_image_na : option string)
  : M (list (string * string) * option string * option string) :=
  let vm_size := settings.vm_size pool_settings in
  if negb native && settings.is_gpu_pool vm_size &&
     util.is_none_or_empty custom_image_na then
    '(rf, name) <-
      match settings.gpu_driver pool_settings with
      | None =>
          emit (SetupNvidiaDriverPackage vm_size) ;;
          name <- lift (setup_nvidia_driver_package vm_size) ;;
          ret ([(name, name)], name)
      | Some _ =>
          let gpu_type := settings.get_gpu_type_from_vm_size vm_size in
          name <- lift (nvidia_driver_target gpu_type) ;;
          ret ([], name)
      end ;;
    ret (rf,
         Some (Py.str_bool (settings.is_gpu_visualization_pool vm_size) ++
               ":" ++ name),
         Some name)
  else ret ([], None, None).


(** "set vm configuration": the node-preparation file added to the
    resource files, the virtual machine configuration and the first
    start-task command. *)
Definition vm_configuration_and_start_task
  (cfg : settings.Config) (pool_settings : settings.PoolSettings)
  (native is_windows encrypt : bool) (f : volume_flags)
  (bc : settings.BatchCredentialsSettings)
  (block_for_gr gpu_env custom_image_na : option string)
  (sc_args : list string) (torrentflags sha1 : string)
  : M ((string * string) * batchmodels.VirtualMachineConfiguration *
       list string) :=
  let bs := settings.batch_shipyard cfg in
  let vmc := settings.vm_configuration pool_settings in
  let a := flag (azurefile_vd f) " -a" in
  let b := flag (util.is_not_empty block_for_gr) " -b" in
  let c := flag (azureblob_vd f) " -c" in
  let d := flag (settings.use_shipyard_docker_image bs) " -d" in
  let e := flag encrypt (" -e " ++ sha1) in
  let ff := flag (gluster_on_compute f) " -f" in
  let g := match gpu_env with Some ge => " -g " ++ ge | None => "" end in
  let m := flag (util.list_is_not_empty sc_args)
             (" -m " ++ Py.join "," sc_args) in
  let n := flag (settings.can_tune_tcp (settings.vm_size pool_settings))
             " -n" in
  let o := " -o " ++ str_opt (settings.offer vmc) in
  let p := flag (negb (String.eqb (settings.storage_entity_prefix bs) ""))
             (" -p " ++ settings.storage_entity_prefix bs) in
  let s := " -s " ++ str_opt (settings.sku vmc) in
  let t := " -t " ++ torrentflags in
  let v := " -v " ++ settings.shipyard_version in
  let w := flag (settings.hpn_server_swap (settings.ssh pool_settings))
             " -w" in
  let x := " -x " ++ settings.blobxfer_version in
  let containers :=
    {| batchmodels.container_image_names := settings.docker_images cfg;
       batchmodels.container_registries := settings.docker_registries cfg |}
  in
  if util.is_not_empty custom_image_na then
    (* check if AAD is enabled *)
    if util.is_none_or_empty (settings.directory_id (settings.aad bc)) then
      raise (RuntimeError
               ("cannot allocate a pool with a custom image without AAD " ++
                "credentials"))
    else
      logger DEBUG
        ("deploying custom image: " ++ str_opt (settings.arm_image_id vmc) ++
         " node agent: " ++ str_opt (settings.node_agent vmc)) ;;
      ret (_NODEPREP_CUSTOMIMAGE_FILE,
           {| batchmodels.image_reference :=
                {| batchmodels.ir_publisher := None;
                   batchmodels.ir_offer := None;
                   batchmodels.ir_sku := None;
                   batchmodels.ir_version := None;
                   batchmodels.virtual_machine_image_id :=
                     settings.arm_image_id vmc |};
              batchmodels.node_agent_sku_id := settings.node_agent vmc;
              batchmodels.container_configuration :=
                if native then Some containers else None |},
           [fst _NODEPREP_CUSTOMIMAGE_FILE ++
            a ++ b ++ c ++ e ++ ff ++ m ++ n ++ p ++ t ++ v ++ x])
  else if native then
    emit PickNodeAgentForVm ;;
    '(image_ref, na_ref) <- lift (pick_node_agent_for_vm pool_settings) ;;
    let vmconfig :=
      {| batchmodels.image_reference := image_ref;
         batchmodels.node_agent_sku_id := Some na_ref;
         batchmodels.container_configuration := Some containers |} in
    if is_windows then
      ret (_NODEPREP_WINDOWS_FILE, vmconfig,
           ["powershell -ExecutionPolicy Unrestricted -command " ++
            fst _NODEPREP_WINDOWS_FILE ++ a ++ e ++ v ++ x])
    else
      ret (_NODEPREP_NATIVEDOCKER_FILE, vmconfig,
           [fst _NODEPREP_NATIVEDOCKER_FILE ++
            a ++ c ++ e ++ ff ++ m ++ n ++ v ++ x])
  else
    emit PickNodeAgentForVm ;;
    '(image_ref, na_ref) <- lift (pick_node_agent_for_vm pool_settings) ;;
    (* create start task commandline *)
    ret (_NODEPREP_FILE,
         {| batchmodels.image_reference := image_ref;
            batchmodels.node_agent_sku_id := Some na_ref;
            batchmodels.container_configuration := None |},
         [fst _NODEPREP_FILE ++
          a ++ b ++ c ++ d ++ e ++ ff ++ g ++ m ++ n ++ o ++ p ++ s ++
          t ++ v ++ w ++ x]).

(** "create pool param" (lines 1121-1155). *)
Definition pool_add_parameter
  (pool_settings : settings.PoolSettings)
  (vmconfig : batchmodels.VirtualMachineConfiguration)
  (start_task : list string) (is_windows : bool)
  (autoscale : autoscale_request)
  (task_scheduling_policy : option string)
  : batchmodels.PoolAddParameter :=
  {| batchmodels.id := settings.id pool_settings;
     batchmodels.virtual_machine_configuration := vmconfig;
     batchmodels.vm_size := settings.vm_size pool_settings;
     batchmodels.target_dedicated_nodes :=
       if negb (asenable autoscale)
       then Some (settings.dedicated (settings.vm_count pool_settings))
       else None;
     batchmodels.target_low_priority_nodes :=
       if negb (asenable autoscale)
       then Some (settings.low_priority (settings.vm_count pool_settings))
       else None;
     batchmodels.resize_timeout :=
       if negb (asenable autoscale)
       then settings.resize_timeout pool_settings
       else None;
     batchmodels.max_tasks_per_node :=
       settings.max_tasks_per_node pool_settings;
     batchmodels.enable_inter_node_communication :=
       settings.inter_node_communication_enabled pool_settings;
     batchmodels.start_task :=
       {| batchmodels.command_line :=
            wrap_commands_in_shell start_task (Some is_windows) (Some false);
          batchmodels.user_identity := batchmodels.RUN_ELEVATED;
          batchmodels.wait_for_success := true;
          batchmodels.environment_settings :=
            [ {| batchmodels.env_name := "LC_ALL";
                 batchmodels.env_value := "en_US.UTF-8" |} ];
          batchmodels.resource_files := [] |};
     batchmodels.enable_auto_scale := asenable autoscale;
     batchmodels.auto_scale_formula := asformula autoscale;
     batchmodels.auto_scale_evaluation_interval := asei autoscale;
     batchmodels.metadata :=
       [ {| batchmodels.md_name := settings.get_metadata_version_name;
            batchmodels.md_value := settings.shipyard_version |} ];
     batchmodels.task_scheduling_policy := task_scheduling_policy;
     batchmodels.certificate_references := [];
     batchmodels.network_configuration := None |}.


(** The assignments and [append]s made on the request after it is
    created: certificate references, network configuration, and the
    start task's environment settings and resource files. *)
Definition amend_pool (pool : batchmodels.PoolAddParameter)
  (certs : list batchmodels.CertificateReference)
  (network : option string)
  (env : list batchmodels.EnvironmentSetting)
  (files : list batchmodels.ResourceFile) : batchmodels.PoolAddParameter :=
  let st := batchmodels.start_task pool in
  {| batchmodels.id := batchmodels.id pool;
     batchmodels.virtual_machine_configuration :=
       batchmodels.virtual_machine_configuration pool;
     batchmodels.vm_size := batchmodels.vm_size pool;
     batchmodels.target_dedicated_nodes :=
       batchmodels.target_dedicated_nodes pool;
     batchmodels.target_low_priority_nodes :=
       batchmodels.target_low_priority_nodes pool;
     batchmodels.resize_timeout := batchmodels.resize_timeout pool;
     batchmodels.max_tasks_per_node := batchmodels.max_tasks_per_node pool;
     batchmodels.enable_inter_node_communication :=
       batchmodels.enable_inter_node_communication pool;
     batchmodels.start_task :=
       {| batchmodels.command_line := batchmodels.command_line st;
          batchmodels.user_identity := batchmodels.user_identity st;
          batchmodels.wait_for_success := batchmodels.wait_for_success st;
          batchmodels.environment_settings :=
            batchmodels.environment_settings st ++ env;
          batchmodels.resource_files :=
            batchmodels.resource_files st ++ files |};
     batchmodels.enable_auto_scale := batchmodels.enable_auto_scale pool;
     batchmodels.auto_scale_formula := batchmodels.auto_scale_formula pool;
     batchmodels.auto_scale_evaluation_interval :=
       batchmodels.auto_scale_evaluation_interval pool;
     batchmodels.metadata := batchmodels.metadata pool;
     batchmodels.task_scheduling_policy :=
       batchmodels.task_scheduling_policy pool;
     batchmodels.certificate_references := certs;
     batchmodels.network_configuration := network |}.

Definition env_setting (name value : string)
  : batchmodels.EnvironmentSetting :=
  {| batchmodels.env_name := name; batchmodels.env_value := value |}.

(** [repr] of a list of strings, for the debug log. *)
Definition repr_list (l : list string) : string :=
  "[" ++ Py.join ", " (map (fun x => "'" ++ x ++ "'") l) ++ "]".

Definition _construct_pool_object (network_client : option client)
  : M (settings.PoolSettings * bool * batchmodels.PoolAddParameter) :=
  cfg <- get_config ;;
  (* check shared data volume mounts before proceeding to allocate *)
  f <- lift (scan_shared_data_volumes cfg) ;;
  (* retrieve settings *)
  let pool_settings := settings.pool_settings cfg in
  let native := settings.is_native_docker_pool cfg in
  let is_windows := settings.is_windows_pool cfg in
  (* get autoscale settings *)
  autoscale <- autoscale_settings pool_settings ;;
  (* task scheduling policy settings *)
  let task_scheduling_policy :=
    if util.is_not_empty (settings.node_fill_type pool_settings)
    then settings.node_fill_type pool_settings else None in
  (* custom image settings *)
  let custom_image_na := settings.pool_custom_image_node_agent cfg in
  (* check for virtual network settings *)
  let bc := settings.batch_credentials cfg in
  subnet_id <- _pool_virtual_network_subnet_address_space_check
                 network_client pool_settings bc ;;
  (* construct fstab mounts for storage clusters *)
  '(fstab_mounts, sc_args) <-
    (if util.list_is_not_empty (storage_cluster_mounts f) then
       r <- storage_cluster_mount_args (storage_cluster_mounts f)
              bc subnet_id ;;
       when (settings.is_verbose cfg)
         (logger DEBUG ("storage cluster args: " ++ repr_list (snd r))) ;;
       ret r
     else ret ([], [])) ;;
  (* add encryption cert to account if specified *)
  let encrypt := settings.encryption_enabled cfg in
  sha1 <- (if encrypt then
             emit CryptoGetEncryptionPfxSettings ;;
             emit BatchAddCertificateToAccount ;;
             ret (encryption_pfx_sha1 cfg)
           else ret "") ;;
  (* construct block list *)
  block_for_gr <- block_list cfg pool_settings native ;;
  (* shipyard settings *)
  let bs := settings.batch_shipyard cfg in
  (* data replication and peer-to-peer settings *)
  dr <- lift (settings.data_replication_settings cfg) ;;
  (* create torrent flags *)
  let p2p := settings.peer_to_peer dr in
  let torrentflags :=
    Py.str_bool (settings.enabled p2p) ++ ":" ++
    Py.str (settings.concurrent_source_downloads dr) ++ ":" ++
    Py.str (settings.direct_download_seed_bias p2p) ++ ":" ++
    Py.str_bool (settings.compression p2p) in
  (* create resource files list *)
  let _rflist := base_rflist is_windows native bs pool_settings in
  (* handle azure mounts *)
  abms <- (if azureblob_vd f then
             emit SetupAzureblobMounts ;;
             path <- lift setup_azureblob_mounts ;;
             ret [("azureblob-mount.sh", path)]
           else ret []) ;;
  afms <- (if azurefile_vd f then
             emit SetupAzurefileMounts ;;
             path <- lift (setup_azurefile_mounts is_windows) ;;
             ret [("azurefile-mount." ++
                   (if is_windows then "cmd" else "sh"), path)]
           else ret []) ;;
  (* gpu settings *)
  '(gpu_rf, gpu_env, gpu_driver_name) <-
     gpu_settings native pool_settings custom_image_na ;;
  (* set vm configuration *)
  '(npf, vmconfig, start_task) <-
     vm_configuration_and_start_task cfg pool_settings native is_windows
       encrypt f bc block_for_gr gpu_env custom_image_na sc_args
       torrentflags sha1 ;;
  let _rflist := (_rflist ++ abms ++ afms ++ gpu_rf ++ [npf])%list in
  (* upload resource files *)
  emit (StorageUploadResourceFiles (map fst _rflist)) ;;
  let sas_urls := upload_resource_files (map fst _rflist) in
  (* remove temporary az mount files created *)
  for_each (abms ++ afms)%list (fun rf => emit (Unlink (snd rf))) ;;
  (* digest any input data *)
  emit DataProcessInputData ;;
  let addlcmds := process_input_data cfg in
  let start_task :=
    (start_task ++
     match addlcmds with Some cmd => [cmd] | None => [] end ++
     (* add additional start task commands, these should always be the
        last start task commands *)
     settings.additional_node_prep_commands pool_settings)%list in
  (* create pool param *)
  let pool := pool_add_parameter pool_settings vmconfig start_task
                is_windows autoscale task_scheduling_policy in
  let certs :=
    if encrypt then
      [ {| batchmodels.thumbprint := sha1;
           batchmodels.thumbprint_algorithm := "sha1";
           batchmodels.visibility :=
             if is_windows
             then [batchmodels.vis_start_task; batchmodels.vis_task]
             else [batchmodels.vis_start_task] |} ]
    else [] in
  let sas_files :=
    map (fun rf => {| batchmodels.file_path := fst rf;
                      batchmodels.blob_source := snd rf;
                      batchmodels.file_mode := None |}) sas_urls in
  storage_part <-
    (if negb native then
       emit CryptoEncryptString ;;
       let env := [env_setting "SHIPYARD_STORAGE_ENV"
                     (encrypt_string encrypt storage_env)] in
       if util.is_not_empty (settings.gpu_driver pool_settings) &&
          util.is_none_or_empty custom_image_na then
         match gpu_driver_name with
         | Some name =>
             ret (env,
                  [ {| batchmodels.file_path := name;
                       batchmodels.blob_source :=
                         str_opt (settings.gpu_driver pool_settings);
                       batchmodels.file_mode := Some "0755" |} ])
         | None =>
             raise (UnboundLocalError
                      ("local variable 'gpu_driver' referenced before " ++
                       "assignment"))
         end
       else ret (env, [])
     else ret ([], [])) ;;
  (* add any additional specified resource files *)
  let extra_files :=
    map (fun rf => {| batchmodels.file_path := settings.rfs_file_path rf;
                      batchmodels.blob_source := settings.rfs_blob_source rf;
                      batchmodels.file_mode := settings.rfs_file_mode rf |})
      (settings.resource_files pool_settings) in
  (* storage cluster settings *)
  let fstab_env :=
    if util.list_is_not_empty fstab_mounts
    then [env_setting "SHIPYARD_STORAGE_CLUSTER_FSTAB"
            (Py.join "#" fstab_mounts)]
    else [] in
  (* add optional environment variables *)
  let timing_env :=
    if negb native && settings.store_timing_metrics bs
    then [env_setting "SHIPYARD_TIMING" "1"] else [] in
  (* add docker login settings *)
  emit (BatchGenerateDockerLoginSettings false) ;;
  let login_env := fst (generate_docker_login_settings cfg false) in
  (* image preload setting *)
  let preload_env :=
    if util.is_not_empty block_for_gr
    then [env_setting "SHIPYARD_CONTAINER_IMAGES_PRELOAD"
            (str_opt block_for_gr)]
    else [] in
  (* singularity env vars *)
  let singularity_env :=
    if negb is_windows
    then [env_setting "SINGULARITY_TMPDIR"
            (settings.get_singularity_tmpdir cfg);
          env_setting "SINGULARITY_CACHEDIR"
            (settings.get_singularity_cachedir cfg)]
    else [] in
  ret (pool_settings, gluster_on_compute f,
       amend_pool pool certs
         (* virtual network settings *) subnet_id
         (fst storage_part ++ fstab_env ++ timing_env ++ login_env ++
          preload_env ++ singularity_env)
         (sas_files ++ snd storage_part ++ extra_files)).

End PoolRequestBuilder.

(** ** DistributedBootstrapCoordinator *)

Section Coordinator.
Context {api : settings.Api} {world : World}.

(** [batch_client.task.get(job_id, task_id)]. *)
Definition batch_client_task_get (job_id task_id : string)
  : M batchmodels.CloudTask :=
  fun s =>
    (Returned (task_get (task_polls s) job_id task_id),
     {| config := config s;
        trace := trace s ++ [TaskGet job_id task_id];
        task_polls := S (task_polls s) |}).

(** [while True: batchtask = task.get(...); if completed: break;
    time.sleep(1)].  The loop has no bound of its own: [fuel] bounds the
    number of polls the model follows. *)
Fixpoint wait_for_task (fuel : nat) (job_id task_id : string)
  : M batchmodels.CloudTask :=
  match fuel with
  | O => diverge
  | S fuel' =>
      batchtask <- batch_client_task_get job_id task_id ;;
      if batchmodels.TaskState_eqb (batchmodels.state batchtask)
           batchmodels.completed
      then ret batchtask
      else
        emit (Sleep 1) ;;
        wait_for_task fuel' job_id (batchmodels.task_id batchtask)
  end.

(** [for node in nodes: try: get_properties_from_compute_node(...)
    except BatchErrorException: logger.error(...); success = False;
    break].  Returns [success]. *)
Fixpoint check_success_file (pool_id path absent : string)
  (nodes : list batchmodels.ComputeNode) : M bool :=
  match nodes with
  | [] => ret true
  | node :: rest =>
      let nid := batchmodels.node_id node in
      emit (FileGetPropertiesFromComputeNode pool_id nid path) ;;
      if file_on_node pool_id nid path then
        check_success_file pool_id path absent rest
      else
        logger ERROR (absent ++ nid) ;;
        ret false
  end.

(** "get volume type/options" (lines 1415-1425): the loop stops at the
    first on-compute volume whose type and options can both be read; a
    [KeyError] is swallowed and the loop goes on, keeping the type when
    it was the read of the options that failed. *)
Fixpoint gluster_volume (sdv : settings.SharedDataVolumes)
  (voltype : option string) (volopts : option (list string))
  : M (option string * option (list string)) :=
  match sdv with
  | [] => ret (voltype, volopts)
  | (_, vol) :: rest =>
      if settings.is_shared_data_volume_gluster_on_compute vol then
        match settings.gluster_volume_type vol with
        | inr voltype' =>
            match settings.gluster_volume_options vol with
            | inr volopts' => ret (voltype', volopts')
            | inl (KeyError _) => gluster_volume rest voltype' volopts
            | inl e => raise e
            end
        | inl (KeyError _) => gluster_volume rest voltype volopts
        | inl e => raise e
        end
      else gluster_volume rest voltype volopts
  end.

(** [_setup_glusterfs], up to the end of the polling loop (lines
    1414-1479): returns [pool_id], [job_id] and the completed task. *)
Definition glusterfs_submit_and_wait (fuel : nat)
  (shell_script : string * string) (cmdline : option string)
  : M (string * string * batchmodels.CloudTask) :=
  cfg <- get_config ;;
  (* get volume type/options *)
  sdv <- lift (settings.global_resources_shared_data_volumes cfg) ;;
  '(voltype, volopts) <- gluster_volume sdv None None ;;
  match voltype with
  | None => raise (RuntimeError "glusterfs volume not defined")
  | Some voltype =>
  let pool_id := settings.pool_id cfg in
  emit Uuid4 ;;
  let job_id := "shipyard-glusterfs-" ++ uuid4 in
  let job := {| batchmodels.job_id := job_id;
                batchmodels.job_pool_id := pool_id |} in
  (* create coordination command line *)
  let cmdline :=
    match cmdline with
    | Some c => c
    | None =>
        wrap_commands_in_shell
          ["$AZ_BATCH_TASK_DIR/" ++ fst shell_script ++ " " ++
           Py.lower voltype ++ " " ++ settings.temp_disk_mountpoint cfg]
          None None
    end in
  (* create application command line *)
  let set_option (vo : string) : string :=
    "gluster volume set " ++ settings.get_gluster_default_volume_name ++
    " " ++ vo in
  let appcmd : list string :=
    "[[ -f $AZ_BATCH_TASK_WORKING_DIR/.glusterfs_success ]] || exit 1" ::
    match volopts with
    | Some vos => map set_option vos
    | None => []
    end in
  (* upload script *)
  emit (StorageUploadResourceFiles [fst shell_script]) ;;
  let sas_urls := upload_resource_files [fst shell_script] in
  (* get pool current dedicated *)
  emit (PoolGet pool_id) ;;
  let pool := pool_get pool_id in
  sas <- match assoc (fst shell_script) sas_urls with
         | Some u => ret u
         | None => raise (KeyError (fst shell_script))
         end ;;
  let batchtask :=
    {| batchmodels.tap_id := "gluster-setup";
       batchmodels.tap_command_line :=
         wrap_commands_in_shell appcmd None None;
       batchmodels.tap_environment_settings := [];
       batchmodels.tap_user_identity := batchmodels.RUN_ELEVATED;
       batchmodels.tap_multi_instance_settings :=
         Some {| batchmodels.number_of_instances :=
                   batchmodels.current_dedicated_nodes pool;
                 batchmodels.coordination_command_line := cmdline;
                 batchmodels.common_resource_files :=
                   [ {| batchmodels.file_path := fst shell_script;
                        batchmodels.blob_source := sas;
                        batchmodels.file_mode := Some "0755" |} ] |} |} in
  (* add job and task *)
  emit (JobAdd job) ;;
  emit (TaskAdd job_id batchtask) ;;
  logger DEBUG
    ("waiting for glusterfs setup task " ++ batchmodels.tap_id batchtask ++
     " in job " ++ job_id ++ " to complete") ;;
  (* wait for gluster fs setup task to complete *)
  batchtask <- wait_for_task fuel job_id (batchmodels.tap_id batchtask) ;;
  ret (pool_id, job_id, batchtask)
  end.

(** [_setup_glusterfs], from the verification on (lines 1480-1501). *)
Definition glusterfs_verify_and_delete (pool_id job_id : string)
  (batchtask : batchmodels.CloudTask)
  (nodes : option (list batchmodels.ComputeNode)) : M unit :=
  (* ensure all nodes have glusterfs success file *)
  nodes <- match nodes with
           | Some l => ret l
           | None =>
               emit (ComputeNodeList pool_id) ;;
               ret (compute_node_list pool_id)
           end ;;
  success <- check_success_file pool_id
               ("workitems/" ++ job_id ++
                "/job-1/gluster-setup/wd/.glusterfs_success")
               "gluster success file absent on node " nodes ;;
  (* delete job *)
  emit (JobDelete job_id) ;;
  if negb success then raise (RuntimeError "glusterfs setup failed")
  else
    logger INFO
      ("glusterfs setup task " ++ batchmodels.task_id batchtask ++
       " in job " ++ job_id ++ " completed").

Definition _setup_glusterfs (fuel : nat)
  (nodes : option (list batchmodels.ComputeNode))
  (shell_script : string * string) (cmdline : option string) : M unit :=
  '(pool_id, job_id, batchtask) <-
     glusterfs_submit_and_wait fuel shell_script cmdline ;;
  glusterfs_verify_and_delete pool_id job_id batchtask nodes.


(** "check pool metadata version". *)
Fixpoint check_metadata_version (mds : list batchmodels.MetadataItem)
  : M unit :=
  match mds with
  | [] => ret tt
  | md :: rest =>
      if String.eqb (batchmodels.md_name md)
           settings.get_metadata_version_name &&
         negb (String.eqb (batchmodels.md_value md)
                 settings.shipyard_version)
      then
        logger WARNING
          ("pool version metadata mismatch: pool=" ++
           batchmodels.md_value md ++ " cli=" ++ settings.shipyard_version)
      else check_metadata_version rest
  end.

(** What the verification of an image update needs of the submission:
    the pool id, the job id, the completed task, the pool's current
    dedicated node count and whether the pool runs Windows. *)
Record update_run : Type := {
  ur_pool_id : string;
  ur_job_id : string;
  ur_batchtask : batchmodels.CloudTask;
  ur_dedicated : Z;
  ur_is_windows : bool
}.

(** [_update_container_images], up to the end of the polling loop (lines
    1578-1749).  [None] when the function has returned before submitting
    a job: nothing to update, an empty pool, or the update over SSH. *)
Definition update_images_submit_and_wait (fuel : nat)
  (docker_image docker_image_digest singularity_image : option string)
  (force_ssh : bool) : M (option update_run) :=
  cfg <- get_config ;;
  (* first check that peer-to-peer is disabled for pool *)
  let pool_id := settings.pool_id cfg in
  try_except_KeyError
    (dr <- lift (settings.data_replication_settings cfg) ;;
     if settings.enabled (settings.peer_to_peer dr) then
       raise (RuntimeError
                ("cannot update container images for a pool with " ++
                 "peer-to-peer image distribution"))
     else ret tt)
    (ret tt) ;;
  let native := settings.is_native_docker_pool cfg in
  if native then
    raise (RuntimeError
             ("cannot update container images for native container " ++
              "support pools"))
  else
  (* if image is not specified use images from global config *)
  docker_images <-
    (if util.is_none_or_empty docker_image then
       ret (settings.docker_images cfg)
     else
       let image := str_opt docker_image in
       (* log warning if it doesn't exist in global resources *)
       when (negb (existsb (String.eqb image) (settings.docker_images cfg)))
         (logger WARNING
            ("docker image " ++ image ++
             " is not specified as a global resource for pool " ++
             pool_id)) ;;
       match docker_image_digest with
       | None => ret [image]
       | Some digest => ret [image ++ "@" ++ digest]
       end) ;;
  singularity_images <-
    (if util.is_none_or_empty singularity_image then
       ret (settings.singularity_images cfg)
     else
       let image := str_opt singularity_image in
       when (negb (existsb (String.eqb image)
                     (settings.singularity_images cfg)))
         (logger WARNING
            ("singularity image " ++ image ++
             " is not specified as a global resource for pool " ++
             pool_id)) ;;
       ret [image]) ;;
  if negb (util.list_is_not_empty docker_images) &&
     negb (util.list_is_not_empty singularity_images) then
    logger ERROR "no images detected or specified to update" ;;
    ret None
  else
  (* get pool current dedicated *)
  emit (PoolGet pool_id) ;;
  let pool := pool_get pool_id in
  let dedicated := batchmodels.current_dedicated_nodes pool in
  let low_priority := batchmodels.current_low_priority_nodes pool in
  (* check pool current vms is > 0 *)
  if (dedicated =? 0) && (low_priority =? 0) then
    logger WARNING
      ("not executing updateimages command as the current number of " ++
       "compute nodes is zero for pool " ++ pool_id) ;;
    ret None
  else
  (* force ssh on some paths *)
  force_ssh <-
    (if negb force_ssh then
       ssh1 <- (if low_priority >? 0 then
                  logger DEBUG
                    "forcing update via SSH due to low priority nodes" ;;
                  ret true
                else ret force_ssh) ;;
       if (dedicated >? 1) &&
          negb (batchmodels.pool_enable_inter_node_communication pool) then
         logger DEBUG
           ("forcing update via SSH due to non-internode communicaton " ++
            "enabled pool") ;;
         ret true
       else ret ssh1
     else ret force_ssh) ;;
  (* check pool metadata version *)
  (if util.list_is_none_or_empty (batchmodels.pool_metadata pool) then
     logger WARNING "pool version metadata not present"
   else
     check_metadata_version
       (match batchmodels.pool_metadata pool with
        | Some mds => mds
        | None => []
        end)) ;;
  (* perform windows compat checks *)
  let is_windows := settings.is_windows_pool cfg in
  if is_windows && force_ssh then
    raise (RuntimeError "cannot update images via SSH on windows")
  else if is_windows && util.list_is_not_empty singularity_images then
    raise (RuntimeError
             "invalid configuration: windows pool with singularity images")
  else
  (* create coordination command line *)
  emit (BatchGenerateDockerLoginSettings force_ssh) ;;
  let '(taskenv, coordcmd) := generate_docker_login_settings cfg force_ssh in
  let docker_cmds : list string :=
    if util.list_is_not_empty docker_images then
      app (map (fun x => "docker pull " ++ x) docker_images)
        ["docker images --filter dangling=true -q --no-trunc | " ++
         "xargs --no-run-if-empty docker rmi"]
    else [] in
  let singularity_cmds : list string :=
    if util.list_is_not_empty singularity_images then
      app ["export SINGULARITY_TMPDIR=" ++
           settings.get_singularity_tmpdir cfg;
           "export SINGULARITY_CACHEDIR=" ++
           settings.get_singularity_cachedir cfg]
        (app (map (fun x => "singularity pull -F " ++ x)
                singularity_images)
           ["chown -R _azbatch:_azbatchgrp " ++
            settings.get_singularity_cachedir cfg])
    else [] in
  let coordcmd := app coordcmd (app docker_cmds singularity_cmds) in
  if force_ssh then
    emit (UpdateContainerImagesOverSsh pool_id coordcmd) ;;
    lift (update_container_images_over_ssh pool_id coordcmd) ;;
    ret None
  else
  let coordcmd :=
    app coordcmd
      [if is_windows then "copy /y nul .update_images_success"
       else "touch .update_images_success"] in
  let taskenv :=
    if is_windows then taskenv
    else
      (* update taskenv for Singularity *)
      app taskenv
        [env_setting "SINGULARITY_TMPDIR"
           (settings.get_singularity_tmpdir cfg);
         env_setting "SINGULARITY_CACHEDIR"
           (settings.get_singularity_cachedir cfg)] in
  let coordcmd := wrap_commands_in_shell coordcmd (Some is_windows) None in
  (* create job for update *)
  emit Uuid4 ;;
  let job_id := "shipyard-updateimages-" ++ uuid4 in
  let job := {| batchmodels.job_id := job_id;
                batchmodels.job_pool_id := pool_id |} in
  (* create task; create multi-instance task for pools with more than
     1 node *)
  let appcmd :=
    wrap_commands_in_shell
      [if is_windows then
         "if not exist %AZ_BATCH_TASK_WORKING_DIR%\" ++
         ".update_images_success exit 1"
       else
         "[[ -f $AZ_BATCH_TASK_WORKING_DIR/.update_images_success ]] " ++
         "|| exit 1"]
      (Some is_windows) None in
  let batchtask :=
    {| batchmodels.tap_id := "update-container-images";
       batchmodels.tap_command_line :=
         if dedicated >? 1 then appcmd else coordcmd;
       batchmodels.tap_environment_settings := taskenv;
       batchmodels.tap_user_identity := batchmodels.RUN_ELEVATED;
       batchmodels.tap_multi_instance_settings :=
         if dedicated >? 1 then
           Some {| batchmodels.number_of_instances := dedicated;
                   batchmodels.coordination_command_line := coordcmd;
                   batchmodels.common_resource_files := [] |}
         else None |} in
  (* add job and task *)
  emit (JobAdd job) ;;
  emit (TaskAdd job_id batchtask) ;;
  logger DEBUG
    ("waiting for update container images task " ++
     batchmodels.tap_id batchtask ++ " in job " ++ job_id ++
     " to complete") ;;
  (* wait for task to complete *)
  batchtask <- wait_for_task fuel job_id (batchmodels.tap_id batchtask) ;;
  ret (Some {| ur_pool_id := pool_id; ur_job_id := job_id;
               ur_batchtask := batchtask; ur_dedicated := dedicated;
               ur_is_windows := is_windows |}).

(** [_update_container_images], from the verification on (lines
    1750-1786). *)
Definition update_images_verify_and_delete (r : update_run) : M unit :=
  let pool_id := ur_pool_id r in
  let job_id := ur_job_id r in
  let batchtask := ur_batchtask r in
  let dedicated := ur_dedicated r in
  let is_windows := ur_is_windows r in
  (* ensure all nodes have success file if multi-instance *)
  success <-
    (if dedicated >? 1 then
       let sep := if is_windows then "\" else "/" in
       let uis_file :=
         Py.join sep ["workitems"; job_id; "job-1";
                      batchmodels.task_id batchtask; "wd";
                      ".update_images_success"] in
       emit (ComputeNodeList pool_id) ;;
       check_success_file pool_id uis_file
         "update images success file absent on node "
         (compute_node_list pool_id)
     else
       task <- batch_client_task_get job_id
                 (batchmodels.task_id batchtask) ;;
       let failed :=
         match batchmodels.execution_info task with
         | None => true
         | Some info =>
             negb (option_eqb Z.eqb (batchmodels.exit_code info) (Some 0))
         end in
       if failed then
         (* stream stderr to console *)
         emit (BatchStreamFileAndWaitForTask
                 (batchmodels.task_id batchtask ++ "," ++ job_id ++
                  ",stderr.txt")) ;;
         ret false
       else ret true) ;;
  (* delete job *)
  emit (JobDelete job_id) ;;
  if negb success then
    raise (RuntimeError "update container images job failed")
  else
    logger INFO
      ("update container images task " ++ batchmodels.task_id batchtask ++
       " in job " ++ job_id ++ " completed").

Definition _update_container_images (fuel : nat)
  (docker_image docker_image_digest singularity_image : option string)
  (force_ssh : bool) : M unit :=
  r <- update_images_submit_and_wait fuel docker_image docker_image_digest
         singularity_image force_ssh ;;
  match r with
  | Some run => update_images_verify_and_delete run
  | None => ret tt
  end.

(** [_check_batch_client]. *)
Definition _check_batch_client (batch_client : option client) : M unit :=
  match batch_client with
  | None =>
      raise (RuntimeError
               ("batch client is invalid, ensure you have specified " ++
                "proper " ++ Py.dquote ++ "batch" ++ Py.dquote ++
                " credentials"))
  | Some _ => ret tt
  end.

Definition action_pool_images_update (fuel : nat)
  (batch_client : option client)
  (docker_image docker_image_digest singularity_image : option string)
  (ssh : bool) : M unit :=
  _check_batch_client batch_client ;;
  if negb (is_None docker_image_digest) && is_None docker_image then
    raise (ValueError
             "cannot specify a digest to update to without the image")
  else
    _update_container_images fuel docker_image docker_image_digest
      singularity_image ssh.

End Coordinator.

(** ** Pool add *)

Section PoolAdd.
Context {api : settings.Api} {world : World}.

Definition _add_pool (fuel : nat) (network_client : option client)
  : M unit :=
  (* upload resource files and construct pool add parameter object *)
  '(pool_settings, gluster_on_compute, pool) <-
     _construct_pool_object network_client ;;
  (* ingress data to Azure Blob Storage if specified *)
  when (settings.transfer_files_on_pool_creation pool_settings)
    (emit (DataIngressData "storage")) ;;
  (* create pool *)
  emit (BatchCreatePool pool) ;;
  let nodes := create_pool pool in
  emit (PoolGet (batchmodels.id pool)) ;;
  let _pool := pool_get (batchmodels.id pool) in
  let pool_current_vm_count :=
    batchmodels.current_dedicated_nodes _pool +
    batchmodels.current_low_priority_nodes _pool in
  let pool_target_vm_count :=
    batchmodels.pool_target_dedicated_nodes _pool +
    batchmodels.pool_target_low_priority_nodes _pool in
  if util.list_is_none_or_empty nodes && (pool_target_vm_count >? 0) then
    raise (RuntimeError
             ("No nodes could be allocated for pool: " ++
              batchmodels.id pool ++
              ". If the pool is comprised entirely of low priority " ++
              "nodes, then there may not have been enough available " ++
              "capacity in the region to satisfy your request. Please " ++
              "inspect the pool for resize errors and issue pool resize " ++
              "to try again."))
  else
  (* set up gluster on compute if specified *)
  (if gluster_on_compute && (pool_current_vm_count >? 0) then
     _setup_glusterfs fuel nodes _GLUSTERPREP_FILE None
   else ret tt) ;;
  (* create admin user on each node if requested *)
  (if pool_current_vm_count >? 0 then
     emit BatchAddRdpUser ;;
     match add_rdp_user with
     | inl _ => logger EXCEPTION "add_rdp_user"
     | inr _ => ret tt
     end ;;
     emit BatchAddSshUser ;;
     match add_ssh_user with
     | inl _ =>
         logger EXCEPTION "add_ssh_user" ;;
         logger ERROR
           ("Could not add SSH users to nodes. Please ensure ssh-keygen " ++
            "is available in your PATH or cwd. Skipping data ingress if " ++
            "specified.")
     | inr _ =>
         (* ingress data to shared fs if specified *)
         rls <- (if settings.transfer_files_on_pool_creation pool_settings
                 then
                   emit BatchGetRemoteLoginSettings ;;
                   emit (DataIngressData "shared") ;;
                   ret remote_login_settings
                 else ret None) ;;
         (* log remote login settings *)
         if negb (is_None rls) then ret tt
         else if pool_current_vm_count <=? 16 then
           emit BatchGetRemoteLoginSettings
         else
           logger INFO
             ("Not listing remote login settings due to VM count. " ++
              "If you need a list of remote login settings for all " ++
              "nodes in the pool, issue the " ++ Py.dquote ++
              "pool nodes grls" ++ Py.dquote ++ " command.")
     end
   else ret tt) ;;
  (* wait for storage ingress processes *)
  emit DataWaitForStorageThreads.

Definition action_pool_add (fuel : nat)
  (batch_client network_client : option client) : M unit :=
  _check_batch_client batch_client ;;
  (* first check if pool exists to prevent accidential metadata clear *)
  cfg <- get_config ;;
  emit (PoolExists (settings.pool_id cfg)) ;;
  if pool_exists (settings.pool_id cfg) then
    raise (RuntimeError
             ("attempting to create a pool that already exists: " ++
              settings.pool_id cfg))
  else
    _adjust_settings_for_pool_creation ;;
    emit StorageCreateStorageContainers ;;
    emit StorageClearStorageContainers ;;
    cfg <- get_config ;;
    when (negb (settings.is_native_docker_pool cfg))
      (emit StoragePopulateGlobalResourceBlobs) ;;
    _add_pool fuel network_client.

End PoolAdd.

(** ** Running a computation *)

Definition initial (cfg : settings.Config) : state :=
  {| config := cfg; trace := []; task_polls := 0 |}.

Definition run {A} (c : M A) (cfg : settings.Config) : outcome A * state :=
  c (initial cfg).

Definition result {A} (c : M A) (cfg : settings.Config) : outcome A :=
  fst (run c cfg).

Definition calls {A} (c : M A) (cfg : settings.Config) : list event :=
  trace (snd (run c cfg)).

Definition is_Raised {A} (o : outcome A) : bool :=
  match o with Raised _ => true | _ => false end.

(** ** The nodes a verification pass looks at *)

(** The nodes [check_success_file] probes: those before the first node
    that lacks the file, and that node. *)
Fixpoint probed (present : string -> bool)
  (nodes : list batchmodels.ComputeNode) : list batchmodels.ComputeNode :=
  match nodes with
  | [] => []
  | node :: rest =>
      if present (batchmodels.node_id node)
      then node :: probed present rest
      else [node]
  end.

(** The first node that lacks the file. *)
Definition first_absent (present : string -> bool)
  (nodes : list batchmodels.ComputeNode) : option batchmodels.ComputeNode :=
  find (fun node => negb (present (batchmodels.node_id node))) nodes.

Definition all_present (present : string -> bool)
  (nodes : list batchmodels.ComputeNode) : bool :=
  forallb (fun node => present (batchmodels.node_id node)) nodes.

Definition is_ConfirmAction (e : event) : bool :=
  match e with ConfirmAction _ => true | _ => false end.

Definition is_storage_call (e : event) : bool :=
  match e with
  | StorageCreateStorageContainers | StorageClearStorageContainers
  | StoragePopulateGlobalResourceBlobs | StorageUploadResourceFiles _ => true
  | _ => false
  end.

(** ** A concrete fleet, for the examples *)

Module Example.

Definition api : settings.Api :=
  {| settings.is_windows_pool := fun _ => false;
     settings.is_native_docker_pool := fun _ => false;
     settings.is_platform_image := fun _ => true;
     settings.is_pool_autoscale_enabled :=
       fun pas => negb (is_None (settings.formula pas)) ||
                  negb (is_None (settings.scenario pas));
     settings.gpu_configuration_check := fun _ _ => true;
     settings.is_rdma_pool := fun _ => false;
     settings.is_gpu_pool := fun _ => false;
     settings.is_gpu_visualization_pool := fun _ => false;
     settings.get_gpu_type_from_vm_size := fun _ => "compute";
     settings.can_tune_tcp := fun _ => true;
     settings.gluster_volume_type := fun v => inr (settings.volume_type v);
     settings.gluster_volume_options := fun v => inr (settings.volume_options v);
     settings.get_gluster_default_volume_name := "gv0";
     settings.get_file_server_glusterfs_volume_name := fun _ => "gv0";
     settings.generate_virtual_machine_name :=
       fun sc i => settings.sc_id sc ++ "-vm" ++ Py.str i;
     settings.get_host_mounts_path := fun _ => "/mnt/batch/tasks/mounts";
     settings.temp_disk_mountpoint := fun _ => "/mnt/resource";
     settings.get_metadata_version_name := "batch_shipyard_version";
     settings.get_singularity_tmpdir := fun _ => "/mnt/singularity/tmp";
     settings.get_singularity_cachedir := fun _ => "/mnt/singularity/cache";
     settings.docker_registries := fun _ => [];
     settings.autoscale_get_formula := fun p =>
       settings.formula (settings.autoscale p);
     settings.singularity_image_name_on_disk := fun x => x;
     settings.shipyard_version := "3.0.0";
     settings.blobxfer_version := "1.1.0" |}.

Definition node (i : string) : batchmodels.ComputeNode :=
  {| batchmodels.node_id := i; batchmodels.ip_address := "10.0.0." ++ i |}.

Definition vm (u f : Z) : VirtualMachine :=
  {| vm_name := "vm"; platform_update_domain := Some u;
     platform_fault_domain := Some f |}.

(** A world in which the user answers [confirm], the pool exists or not,
    the coordination task completes at poll [completes_at], the pool has
    [nodes], the success file is present on the nodes [present] accepts,
    and the storage cluster's machines are [vms] with addresses [ips]. *)
Definition world (confirm exists_ : bool) (completes_at : nat)
  (nodes : list batchmodels.ComputeNode) (present : string -> bool)
  (vms : string -> VirtualMachine) (prefix : string) : World :=
  {| confirm_action := fun _ _ => confirm;
     uuid4 := "0000";
     pool_exists := fun _ => exists_;
     pool_get := fun pid =>
       {| batchmodels.pool_id := pid;
          batchmodels.current_dedicated_nodes :=
            Z.of_nat (List.length nodes);
          batchmodels.current_low_priority_nodes := 0;
          batchmodels.pool_target_dedicated_nodes :=
            Z.of_nat (List.length nodes);
          batchmodels.pool_target_low_priority_nodes := 0;
          batchmodels.pool_enable_inter_node_communication := true;
          batchmodels.pool_metadata := None |};
     task_get := fun n _ tid =>
       {| batchmodels.task_id := tid;
          batchmodels.state :=
            if (completes_at <=? n)%nat then batchmodels.completed
            else batchmodels.running;
          batchmodels.execution_info :=
            Some {| batchmodels.exit_code := Some 0 |} |};
     compute_node_list := fun _ => nodes;
     file_on_node := fun _ nid _ => present nid;
     batch_account_id :=
       "/subscriptions/sub0/resourceGroups/rg0/providers/" ++
       "Microsoft.Batch/batchAccounts/acct";
     create_pool := fun _ => Some nodes;
     add_rdp_user := inr tt;
     add_ssh_user := inr tt;
     remote_login_settings := None;
     generate_docker_login_settings := fun _ _ => ([], []);
     upload_resource_files :=
       map (fun name => (name, "https://blob/" ++ name));
     process_input_data := fun _ => None;
     encryption_pfx_sha1 := fun _ => "abcdef";
     encrypt_string := fun _ x => x;
     storage_env := "account:endpoint:key";
     subnets_get := fun _ _ name =>
       {| subnet_id := "subnet-id"; subnet_name := name;
          address_prefix := prefix |};
     create_virtual_network_and_subnet := fun _ _ vn =>
       {| subnet_id := "subnet-id";
          subnet_name := settings.subnet_name vn;
          address_prefix := prefix |};
     virtual_machines_get := fun _ name => vms name;
     get_nic_from_virtual_machine := fun _ v =>
       {| private_ip_addresses := [Some ("ip-" ++ vm_name v)] |};
     setup_azureblob_mounts := inr "/tmp/azureblob-mount.sh";
     setup_azurefile_mounts := fun _ => inr "/tmp/azurefile-mount.sh";
     setup_nvidia_driver_package := fun _ => inr "nvidia-driver.run";
     pick_node_agent_for_vm := fun p =>
       inr ({| batchmodels.ir_publisher :=
                 settings.publisher (settings.vm_configuration p);
               batchmodels.ir_offer :=
                 settings.offer (settings.vm_configuration p);
               batchmodels.ir_sku :=
                 settings.sku (settings.vm_configuration p);
               batchmodels.ir_version :=
                 settings.version (settings.vm_configuration p);
               batchmodels.virtual_machine_image_id := None |},
            "batch.node.ubuntu 16.04");
     update_container_images_over_ssh := fun _ _ => inr tt;
     wrap_commands_in_shell := fun cmds _ _ =>
       "/bin/bash -c '" ++ Py.join "; " cmds ++ "'" |}.

Definition no_vnet : settings.VirtualNetworkSettings :=
  {| settings.arm_subnet_id := None; settings.vnet_name := None;
     settings.vnet_resource_group := None;
     settings.address_space := "10.0.0.0/16";
     settings.subnet_name := "default";
     settings.subnet_address_prefix := "10.0.0.0/28" |}.

(** An existing subnet, given by its ARM id. *)
Definition vnet_subnet : settings.VirtualNetworkSettings :=
  {| settings.arm_subnet_id :=
       Some ("/subscriptions/sub0/resourceGroups/rg0/providers/" ++
             "Microsoft.Network/virtualNetworks/vnet0/subnets/default");
     settings.vnet_name := None;
     settings.vnet_resource_group := None;
     settings.address_space := "10.0.0.0/16";
     settings.subnet_name := "default";
     settings.subnet_address_prefix := "10.0.0.0/28" |}.

(** A pool of [d] dedicated and [lp] low-priority nodes of Ubuntu 16.04
    in the virtual network [vn], with the autoscale formula [f] and the
    resize timeout [rt]. *)
Definition pool_in (vn : settings.VirtualNetworkSettings) (d lp : Z)
  (f : option string) (rt : option timedelta) (inc : bool)
  : settings.PoolSettings :=
  {| settings.id := "mypool";
     settings.vm_size := "STANDARD_D2_V2";
     settings.vm_count :=
       {| settings.dedicated := d; settings.low_priority := lp |};
     settings.resize_timeout := rt;
     settings.max_tasks_per_node := 1;
     settings.inter_node_communication_enabled := inc;
     settings.vm_configuration :=
       {| settings.publisher := Some "Canonical";
          settings.offer := Some "UbuntuServer";
          settings.sku := Some "16.04-LTS";
          settings.version := Some "latest";
          settings.arm_image_id := None;
          settings.node_agent := None |};
     settings.autoscale :=
       {| settings.evaluation_interval := Some 900;
          settings.formula := f;
          settings.scenario := None |};
     settings.node_fill_type := None;
     settings.ssh :=
       {| settings.username := Some "shipyard";
          settings.hpn_server_swap := false |};
     settings.gpu_driver := None;
     settings.additional_node_prep_commands := [];
     settings.virtual_network := vn;
     settings.block_until_all_global_resources_loaded := true;
     settings.transfer_files_on_pool_creation := false;
     settings.attempt_recovery_on_unusable := false;
     settings.resource_files := [] |}.

(** The same pool without a virtual network. *)
Definition pool : Z -> Z -> option string -> option timedelta -> bool ->
                  settings.PoolSettings :=
  pool_in no_vnet.

Definition cfg (p : settings.PoolSettings)
  (sdv : option settings.SharedDataVolumes) (p2p : bool)
  : settings.Config :=
  {| settings.pool_specification := p;
     settings.pool_publisher_raw := Some "Canonical";
     settings.pool_offer_raw := Some "UbuntuServer";
     settings.pool_sku_raw := Some "16.04-LTS";
     settings.pool_custom_image_node_agent := None;
     settings.batch_shipyard :=
       {| settings.use_shipyard_docker_image := true;
          settings.store_timing_metrics := false;
          settings.storage_entity_prefix := "shipyard" |};
     settings.data_replication :=
       Some {| settings.peer_to_peer :=
                 {| settings.enabled := p2p;
                    settings.compression := true;
                    settings.direct_download_seed_bias := 3 |};
               settings.concurrent_source_downloads := 10 |};
     settings.docker_images := ["alpine"];
     settings.singularity_images := [];
     settings.shared_data_volumes := sdv;
     settings.encryption_enabled := false;
     settings.batch_credentials :=
       {| settings.aad := {| settings.directory_id := Some "tenant" |};
          settings.bc_resource_group := "rg0";
          settings.location := "westus" |};
     settings.is_verbose := false;
     settings.remotefs := [] |}.

Definition gluster_volume : settings.SharedDataVolume :=
  {| settings.volume_driver := settings.glusterfs_on_compute;
     settings.volume_type := Some "replica";
     settings.volume_options := None;
     settings.mount_options := [] |}.

Definition subnet (prefix : string) : Subnet :=
  {| subnet_id := "subnet-id"; subnet_name := "default";
     address_prefix := prefix |}.

Definition vms3 (name : string) : VirtualMachine :=
  if String.eqb name "sc-vm0" then
    {| vm_name := name; platform_update_domain := Some 0;
       platform_fault_domain := Some 0 |}
  else if String.eqb name "sc-vm1" then
    {| vm_name := name; platform_update_domain := Some 1;
       platform_fault_domain := Some 0 |}
  else
    {| vm_name := name; platform_update_domain := Some 0;
       platform_fault_domain := Some 1 |}.

Definition cluster (n : Z) : settings.StorageClusterSettings :=
  {| settings.sc_id := "sc";
     settings.sc_resource_group := "rg0";
     settings.sc_virtual_network_name := "vnet0";
     settings.sc_virtual_network_resource_group := "rg0";
     settings.sc_vm_count := n;
     settings.file_server :=
       {| settings.fs_type := "glusterfs";
          settings.mountpoint := "/data" |} |}.

(** A pool of three nodes on which the coordination task completes at
    the third poll and node [1] lacks the success file. *)
Definition world_marker_missing : World :=
  world false false 2 [node "1"; node "2"; node "3"]
    (fun nid => negb (String.eqb nid "1")) vms3 "10.0.0.0/28".

(** The same pool, the success file on every node. *)
Definition world_markers_present : World :=
  world false false 2 [node "1"; node "2"; node "3"]
    (fun _ => true) vms3 "10.0.0.0/28".

(** A world in which the pool already exists. *)
Definition world_pool_exists : World :=
  world false true 0 [node "1"; node "2"; node "3"]
    (fun _ => true) vms3 "10.0.0.0/28".

(** A world whose subnets are /28 (11 allowable addresses) and whose
    user refuses every confirmation. *)
Definition world_28 : World :=
  world false false 0 [] (fun _ => true) vms3 "10.0.0.0/28".

Definition config_28 (nodes : Z) : settings.Config :=
  cfg (pool nodes 0 None None true) None false.

(** [nodes] dedicated nodes in the existing subnet [vnet_subnet]. *)
Definition config_subnet (nodes : Z) : settings.Config :=
  cfg (pool_in vnet_subnet nodes 0 None None true) None false.

(** A configuration that declares one on-compute replicated volume, on
    a pool of [d] dedicated and [lp] low-priority nodes. *)
Definition config_gluster (d lp : Z) : settings.Config :=
  cfg (pool d lp None None true) (Some [("gv", gluster_volume)]) false.

(** A configuration with autoscale enabled and explicit target counts:
    2 dedicated and 1 low-priority nodes, and a resize timeout. *)
Definition config_autoscale : settings.Config :=
  cfg (pool 2 1 (Some "$TargetDedicatedNodes=2") (Some 600) false)
    None false.

(** A configuration with peer-to-peer image distribution enabled. *)
Definition config_p2p : settings.Config :=
  cfg (pool 3 0 None None true) None true.

(** The world [w], the network interface of each machine being [nics]. *)
Definition with_nics (w : World)
  (nics : VirtualMachine -> NetworkInterface) : World :=
  {| confirm_action := @confirm_action w;
     uuid4 := @uuid4 w;
     pool_exists := @pool_exists w;
     pool_get := @pool_get w;
     task_get := @task_get w;
     compute_node_list := @compute_node_list w;
     file_on_node := @file_on_node w;
     batch_account_id := @batch_account_id w;
     create_pool := @create_pool w;
     add_rdp_user := @add_rdp_user w;
     add_ssh_user := @add_ssh_user w;
     remote_login_settings := @remote_login_settings w;
     generate_docker_login_settings := @generate_docker_login_settings w;
     upload_resource_files := @upload_resource_files w;
     process_input_data := @process_input_data w;
     encryption_pfx_sha1 := @encryption_pfx_sha1 w;
     encrypt_string := @encrypt_string w;
     storage_env := @storage_env w;
     subnets_get := @subnets_get w;
     create_virtual_network_and_subnet :=
       @create_virtual_network_and_subnet w;
     virtual_machines_get := @virtual_machines_get w;
     get_nic_from_virtual_machine := fun _ v => nics v;
     setup_azureblob_mounts := @setup_azureblob_mounts w;
     setup_azurefile_mounts := @setup_azurefile_mounts w;
     setup_nvidia_driver_package := @setup_nvidia_driver_package w;
     pick_node_agent_for_vm := @pick_node_agent_for_vm w;
     update_container_images_over_ssh :=
       @update_container_images_over_ssh w;
     wrap_commands_in_shell := @wrap_commands_in_shell w |}.

(** The machines of [vms3], the first of which, [sc-vm0], has no
    private address ([private_ip_address] is [None]). *)
Definition world_first_without_ip : World :=
  with_nics world_28
    (fun v => {| private_ip_addresses :=
                   [if String.eqb (vm_name v) "sc-vm0" then None
                    else Some ("ip-" ++ vm_name v)] |}).

(** The machines of [vms3], none of which has a private address. *)
Definition world_without_ips : World :=
  with_nics world_28 (fun _ => {| private_ip_addresses := [None] |}).

Definition cluster_volume : settings.SharedDataVolume :=
  {| settings.volume_driver := settings.storage_cluster;
     settings.volume_type := None;
     settings.volume_options := None;
     settings.mount_options := [] |}.

(** A pool in the subnet [vnet_subnet] that mounts the GlusterFS storage
    cluster [sc] of [n] machines. *)
Definition config_cluster (n : Z) : settings.Config :=
  let c := cfg (pool_in vnet_subnet 3 0 None None true)
             (Some [("sc", cluster_volume)]) false in
  {| settings.pool_specification := settings.pool_specification c;
     settings.pool_publisher_raw := settings.pool_publisher_raw c;
     settings.pool_offer_raw := settings.pool_offer_raw c;
     settings.pool_sku_raw := settings.pool_sku_raw c;
     settings.pool_custom_image_node_agent :=
       settings.pool_custom_image_node_agent c;
     settings.batch_shipyard := settings.batch_shipyard c;
     settings.data_replication := settings.data_replication c;
     settings.docker_images := settings.docker_images c;
     settings.singularity_images := settings.singularity_images c;
     settings.shared_data_volumes := settings.shared_data_volumes c;
     settings.encryption_enabled := settings.encryption_enabled c;
     settings.batch_credentials := settings.batch_credentials c;
     settings.is_verbose := settings.is_verbose c;
     settings.remotefs := [("sc", cluster n)] |}.

End Example.

(** ** Vocabulary of the properties *)

(** The node has a private IP address. *)
Definition with_ip (n : node_info) : bool := negb (is_None (remote_ip n)).

(** No primary address yet, and nothing recorded for the backup. *)
Definition unset (sel : selection) : Prop :=
  primary_ip sel = None /\ backup_ip sel = None /\
  backup_ud sel = None /\ backup_fd sel = None.

(** The primary is [p], and there is no backup address yet. *)
Definition pending (p : node_info) (sel : selection) : Prop :=
  primary_ip sel = remote_ip p /\ primary_ud sel = ud p /\
  primary_fd sel = fd p /\ backup_ip sel = None.

(** Started in a state that satisfies [P], the computation does not
    diverge, and if it returns [a] in state [s'] then [Q a s']. *)
Definition triple {A} (P : state -> Prop) (c : M A)
  (Q : A -> state -> Prop) : Prop :=
  forall s, P s ->
    match c s with
    | (Returned a, s') => Q a s'
    | (Raised _, _) => True
    | (Diverged, _) => False
    end.

(** Started in a state that satisfies [P], the computation raises. *)
Definition raises {A} (P : state -> Prop) (c : M A) : Prop :=
  forall s, P s -> exists e s', c s = (Raised e, s').

(** If the computation returns [a], then [Q a]. *)
Definition returns_only {A} (c : M A) (Q : A -> Prop) : Prop :=
  forall s, match fst (c s) with Returned a => Q a | _ => True end.

Definition is_KeyError (e : exn) : bool :=
  match e with KeyError _ => true | _ => false end.

(** The number of on-compute replicated volumes a configuration
    declares. *)
Definition count_gluster (sdv : settings.SharedDataVolumes) : Z :=
  Z.of_nat
    (List.length
       (filter (fun kv => settings.is_shared_data_volume_gluster_on_compute
                            (snd kv)) sdv)).

(** The fields of the pool specification that the shared-data-volume
    checks read are those of [p0]. *)
Definition same_pool_limits (p0 p : settings.PoolSettings) : Prop :=
  settings.vm_count p = settings.vm_count p0 /\
  settings.max_tasks_per_node p = settings.max_tasks_per_node p0 /\
  settings.autoscale p = settings.autoscale p0 /\
  settings.inter_node_communication_enabled p =
  settings.inter_node_communication_enabled p0.

Definition agrees (c0 c : settings.Config) : Prop :=
  same_pool_limits (settings.pool_specification c0)
    (settings.pool_specification c) /\
  settings.shared_data_volumes c = settings.shared_data_volumes c0.

(** One of the pool limits that an on-compute replicated volume is checked
    against is exceeded. *)
Definition gluster_conflict {api : settings.Api} (is_windows : bool)
  (pool : settings.PoolSettings) : bool :=
  is_windows ||
  settings.is_pool_autoscale_enabled (settings.autoscale pool) ||
  negb (settings.inter_node_communication_enabled pool) ||
  (settings.low_priority (settings.vm_count pool) >? 0) ||
  (settings.dedicated (settings.vm_count pool) <=? 1) ||
  (settings.max_tasks_per_node pool >? 1).

(** The autoscale part of the request that [autoscale_settings] computes
    for the pool settings [ps]. *)
Definition autoscale_request_of {api : settings.Api}
  (ps : settings.PoolSettings) : autoscale_request :=
  if settings.is_pool_autoscale_enabled (settings.autoscale ps) then
    {| asenable := true;
       asformula := settings.autoscale_get_formula ps;
       asei := settings.evaluation_interval (settings.autoscale ps) |}
  else {| asenable := false; asformula := None; asei := None |}.

(** The result [(pool_settings, gluster_on_compute, pool)] is built from
    the pool settings of [cfg]: the request carries either the autoscale
    triple or the explicit target counts and resize timeout. *)
Definition built_from {api : settings.Api} (cfg : settings.Config)
  (r : settings.PoolSettings * bool * batchmodels.PoolAddParameter) : Prop :=
  let '(ps, _, pool) := r in
  let a := autoscale_request_of ps in
  ps = settings.pool_settings cfg /\
  batchmodels.enable_auto_scale pool = asenable a /\
  batchmodels.auto_scale_formula pool = asformula a /\
  batchmodels.auto_scale_evaluation_interval pool = asei a /\
  batchmodels.target_dedicated_nodes pool =
    (if asenable a then None
     else Some (settings.dedicated (settings.vm_count ps))) /\
  batchmodels.target_low_priority_nodes pool =
    (if asenable a then None
     else Some (settings.low_priority (settings.vm_count ps))) /\
  batchmodels.resize_timeout pool =
    (if asenable a then None else settings.resize_timeout ps).

(** The node ids of the file probes among the calls, in order. *)
Fixpoint probed_nodes (calls : list event) : list string :=
  match calls with
  | [] => []
  | FileGetPropertiesFromComputeNode _ nid _ :: rest =>
      nid :: probed_nodes rest
  | _ :: rest => probed_nodes rest
  end.

(** The calls of one verification pass over [nodes]: a probe per node up
    to the first node that lacks the file, and the error logged for that
    node. *)
Definition verification_calls `{World} (pool_id path absent : string)
  (nodes : list batchmodels.ComputeNode) : list event :=
  let present nid := file_on_node pool_id nid path in
  (map (fun node => FileGetPropertiesFromComputeNode pool_id
                      (batchmodels.node_id node) path)
     (probed present nodes) ++
   match first_absent present nodes with
   | Some node => [Log ERROR (absent ++ batchmodels.node_id node)]
   | None => []
   end)%list.

(** The marker files of the two coordination runs. *)
Definition glusterfs_success_file (job_id : string) : string :=
  "workitems/" ++ job_id ++ "/job-1/gluster-setup/wd/.glusterfs_success".

Definition update_images_success_file (is_windows : bool)
  (job_id task_id : string) : string :=
  Py.join (if is_windows then "\" else "/")
    ["workitems"; job_id; "job-1"; task_id; "wd"; ".update_images_success"].

(** Among the calls made after [before_run], the job [job_id] is deleted,
    and when the outcome is an exception the deletion is the last call:
    the exception is raised after it. *)
Definition deleted_before_raise {A} (job_id : string)
  (before_run : list event) (r : outcome A * state) : Prop :=
  exists before after,
    trace (snd r) = (before_run ++ before ++ JobDelete job_id :: after)%list /\
    (is_Raised (fst r) = true -> after = []).

(* ================================================================== *)
(** * Part II: properties *)
(* ================================================================== *)

Local Open Scope list_scope.

(** ** Running computations: basic equations *)

Lemma bind_Returned {A B} (c : M A) (k : A -> M B) s a s' :
  c s = (Returned a, s') -> bind c k s = k a s'.
Proof. intros H. unfold bind. rewrite H. reflexivity. Qed.

Lemma bind_Raised {A B} (c : M A) (k : A -> M B) s e s' :
  c s = (Raised e, s') -> bind c k s = (Raised e, s').
Proof. intros H. unfold bind. rewrite H. reflexivity. Qed.

Lemma bind_Diverged {A B} (c : M A) (k : A -> M B) s s' :
  c s = (Diverged, s') -> bind c k s = (Diverged, s').
Proof. intros H. unfold bind. rewrite H. reflexivity. Qed.

Lemma bind_assoc {A B C} (c : M A) (k : A -> M B) (h : B -> M C) s :
  bind (bind c k) h s = bind c (fun a => bind (k a) h) s.
Proof. unfold bind. destruct (c s) as [[a | e |] s1]; reflexivity. Qed.

Lemma emit_trace e s :
  emit e s = (Returned tt,
              {| config := config s; trace := trace s ++ [e];
                 task_polls := task_polls s |}).
Proof. reflexivity. Qed.

Lemma bind_ret {A B} (a : A) (k : A -> M B) s : bind (ret a) k s = k a s.
Proof. reflexivity. Qed.

Lemma bind_raise {A B} e (k : A -> M B) s :
  bind (raise e) k s = (Raised e, s).
Proof. reflexivity. Qed.

Lemma bind_diverge {A B} (k : A -> M B) s :
  bind diverge k s = (Diverged, s).
Proof. reflexivity. Qed.

Lemma bind_emit {B} e (k : unit -> M B) s :
  bind (emit e) k s =
  k tt {| config := config s; trace := trace s ++ [e];
          task_polls := task_polls s |}.
Proof. reflexivity. Qed.

Lemma bind_logger {B} l m (k : unit -> M B) s :
  bind (logger l m) k s =
  k tt {| config := config s; trace := trace s ++ [Log l m];
          task_polls := task_polls s |}.
Proof. reflexivity. Qed.

Lemma bind_get_config {B} (k : settings.Config -> M B) s :
  bind get_config k s = k (config s) s.
Proof. reflexivity. Qed.

Lemma bind_set_config {B} c (k : unit -> M B) s :
  bind (set_config c) k s =
  k tt {| config := c; trace := trace s; task_polls := task_polls s |}.
Proof. reflexivity. Qed.

Lemma bind_lift_inr {A B} (a : A) (k : A -> M B) s :
  bind (lift (inr a)) k s = k a s.
Proof. reflexivity. Qed.

Lemma bind_lift_inl {A B} e (k : A -> M B) s :
  bind (lift (inl e)) k s = (Raised e, s).
Proof. reflexivity. Qed.

Lemma run_ret {A} (a : A) s : ret a s = (Returned a, s).
Proof. reflexivity. Qed.

Lemma run_raise {A} e s : @raise A e s = (Raised e, s).
Proof. reflexivity. Qed.

Lemma run_logger l m s :
  logger l m s =
  (Returned tt, {| config := config s; trace := trace s ++ [Log l m];
                   task_polls := task_polls s |}).
Proof. reflexivity. Qed.

Create Rewrite HintDb mrun.
#[local] Hint Rewrite @bind_assoc @bind_ret @bind_raise @bind_diverge
  @bind_emit @bind_logger @bind_get_config @bind_set_config
  @bind_lift_inr @bind_lift_inl @run_ret @run_raise run_logger emit_trace
  : mrun.

(** Follow a computation through its deterministic steps. *)
Ltac mrun :=
  repeat (autorewrite with mrun; cbn [config trace task_polls fst snd]).

(** ** SubnetPlanner *)

Section SubnetFacts.
Context {world : World}.

Lemma allowable_addresses_eq (m : Z) :
  m <= 32 -> allowable_addresses m = inr (2 ^ (32 - m) - 5).
Proof.
  intros Hm. unfold allowable_addresses, Py.shl1.
  destruct (32 - m <? 0) eqn:E; [lia |].
  rewrite Z.shiftl_1_l. reflexivity.
Qed.

(** On every IPv4 mask, the double-precision product truncates to the
    integer quotient of [9 * allowable] by [10]. *)
Lemma tolerance_on_masks :
  forallb
    (fun m =>
       match tolerance (2 ^ (32 - m) - 5) with
       | inr t => t =? Z.quot (9 * (2 ^ (32 - m) - 5)) 10
       | inl _ => false
       end)
    (map Z.of_nat (seq 0 33)) = true.
Proof. vm_compute. reflexivity. Qed.

Lemma tolerance_eq (m : Z) :
  0 <= m <= 32 ->
  tolerance (2 ^ (32 - m) - 5) = inr (Z.quot (9 * (2 ^ (32 - m) - 5)) 10).
Proof.
  intros Hm.
  pose proof tolerance_on_masks as H.
  rewrite forallb_forall in H.
  specialize (H m).
  assert (Hin : In m (map Z.of_nat (seq 0 33))).
  { apply in_map_iff. exists (Z.to_nat m). split; [lia |].
    apply in_seq. lia. }
  specialize (H Hin).
  destruct (tolerance (2 ^ (32 - m) - 5)) as [e | t]; [discriminate |].
  apply Z.eqb_eq in H. now subst.
Qed.

(** The check, once the prefix is split and its mask read. *)
Lemma address_space_check_unfold ps sid sn m s :
  (1 < List.length (Py.split "/" (address_prefix sn)))%nat ->
  Py.int_of_str (List.last (Py.split "/" (address_prefix sn)) "") = Some m ->
  m <= 32 ->
  let allowable := 2 ^ (32 - m) - 5 in
  let total := settings.dedicated (settings.vm_count ps) +
               settings.low_priority (settings.vm_count ps) in
  address_space_check ps sid sn s =
  ((logger DEBUG
      ("subnet " ++ subnet_name sn ++ " mask is " ++ Py.str m ++
       " and allows " ++ Py.str allowable ++ " addresses")%string ;;
    (if allowable <? total then
       raise (RuntimeError (address_space_msg sn m allowable total))
     else
       tol <- lift (tolerance allowable) ;;
       if tol <=? total then
         ok <- util_confirm_action
                 (address_space_msg sn m allowable total ++
                  ", proceed?")%string ;;
         if negb ok then
           raise (RuntimeError "Pool deployment rejected by user")
         else ret tt
       else ret tt) ;;
    logger INFO ("using virtual network subnet id: " ++ sid)%string ;;
    ret (Some sid))%monad) s.
Proof.
  intros Hlen Hint Hm allowable total.
  unfold address_space_check.
  destruct (Z.of_nat (List.length (Py.split "/" (address_prefix sn))) <=? 1)
    eqn:E; [apply Z.leb_le in E; lia |].
  rewrite Hint, bind_ret, (allowable_addresses_eq m Hm), bind_lift_inr.
  reflexivity.
Qed.

(** How [_pool_virtual_network_subnet_address_space_check] reaches the
    check: on the subnet the network client returns for the given ARM
    subnet id ... *)
Lemma subnet_check_on_existing_subnet
  (c : client) (ps : settings.PoolSettings)
  (bc : settings.BatchCredentialsSettings)
  (arm subid rg provider vnet subnet : string) (s : state) :
  settings.arm_subnet_id (settings.virtual_network ps) = Some arm ->
  arm <> ""%string ->
  util.is_none_or_empty (settings.directory_id (settings.aad bc)) = false ->
  _explode_arm_subnet_id arm s =
    (Returned (subid, rg, provider, vnet, subnet), s) ->
  _pool_virtual_network_subnet_address_space_check (Some c) ps bc s =
  (logger DEBUG
     ("arm subnet id breakdown: subid=" ++ subid ++ " rg=" ++ rg ++
      " provider=" ++ provider ++ " vnet=" ++ vnet ++
      " subnet=" ++ subnet)%string ;;
   emit (SubnetsGet rg vnet subnet) ;;
   address_space_check ps arm (subnets_get rg vnet subnet))%monad s.
Proof.
  intros Harm Hne Haad Hexp.
  unfold _pool_virtual_network_subnet_address_space_check.
  rewrite Harm, Haad. cbn [util.is_none_or_empty].
  apply String.eqb_neq in Hne. rewrite Hne. cbn [andb].
  rewrite (bind_Returned _ _ _ _ _ Hexp). reflexivity.
Qed.

(** ... and on the subnet that is created when only a virtual network
    name is given. *)
Lemma subnet_check_on_created_subnet
  (nc : option client) (ps : settings.PoolSettings)
  (bc : settings.BatchCredentialsSettings) (s : state) :
  settings.arm_subnet_id (settings.virtual_network ps) = None ->
  util.is_none_or_empty (settings.vnet_name (settings.virtual_network ps))
    = false ->
  util.is_none_or_empty (settings.directory_id (settings.aad bc)) = false ->
  let vn := settings.virtual_network ps in
  let rg := match settings.vnet_resource_group vn with
            | Some rg => if String.eqb rg "" then settings.bc_resource_group bc
                         else rg
            | None => settings.bc_resource_group bc
            end in
  let sn := create_virtual_network_and_subnet rg (settings.location bc) vn in
  _pool_virtual_network_subnet_address_space_check nc ps bc s =
  (emit (ResourceCreateVirtualNetworkAndSubnet rg (settings.location bc)) ;;
   address_space_check ps (subnet_id sn) sn)%monad s.
Proof.
  intros Harm Hname Haad vn rg sn.
  unfold _pool_virtual_network_subnet_address_space_check.
  rewrite Harm, Hname, Haad. reflexivity.
Qed.

End SubnetFacts.

Section SubnetTheorems.
Context {world : World}.

(** C4: for every subnet mask [m] in [0,30] the allowable address count
    the check computes is [2^(32-m) - 5], and the check raises whenever
    that count is strictly less than the pool's total node count
    (dedicated plus low-priority). *)
Theorem allowable_addresses_and_rejection
  (ps : settings.PoolSettings) (sid : string) (sn : Subnet) (m : Z)
  (s : state) :
  0 <= m <= 30 ->
  (1 < List.length (Py.split "/" (address_prefix sn)))%nat ->
  Py.int_of_str (List.last (Py.split "/" (address_prefix sn)) "") = Some m ->
  let total := settings.dedicated (settings.vm_count ps) +
               settings.low_priority (settings.vm_count ps) in
  allowable_addresses m = inr (2 ^ (32 - m) - 5) /\
  (2 ^ (32 - m) - 5 < total ->
   fst (address_space_check ps sid sn s) =
   Raised (RuntimeError
             (address_space_msg sn m (2 ^ (32 - m) - 5) total))).
Proof.
  intros Hm Hlen Hint total. split.
  - apply allowable_addresses_eq. lia.
  - intros Hlt.
    rewrite (address_space_check_unfold ps sid sn m s Hlen Hint) by lia.
    fold total.
    destruct (2 ^ (32 - m) - 5 <? total) eqn:E;
      [| apply Z.ltb_ge in E; lia].
    reflexivity.
Qed.

(** C2 (amended): for every subnet whose allowable address count is at
    least the pool's total node count, the check asks for the user's
    confirmation exactly when the total node count is at least
    [int(0.9 * allowable)], the double-precision product truncated to
    an integer - on the masks 0 to 32 the integer quotient of
    [9 * allowable] by [10]; it then raises exactly when the
    confirmation is refused, and otherwise returns the subnet id without
    having asked.  (A product that no double can hold makes the check
    raise instead.) *)
Theorem confirmation_at_truncated_tolerance
  (ps : settings.PoolSettings) (sid : string) (sn : Subnet) (m : Z)
  (s : state) :
  m <= 32 ->
  (1 < List.length (Py.split "/" (address_prefix sn)))%nat ->
  Py.int_of_str (List.last (Py.split "/" (address_prefix sn)) "") = Some m ->
  let allowable := 2 ^ (32 - m) - 5 in
  let total := settings.dedicated (settings.vm_count ps) +
               settings.low_priority (settings.vm_count ps) in
  total <= allowable ->
  let question :=
    (address_space_msg sn m allowable total ++ ", proceed?")%string in
  let r := address_space_check ps sid sn s in
  match tolerance allowable with
  | inl e => fst r = Raised e
  | inr threshold =>
      (0 <= m -> threshold = Z.quot (9 * allowable) 10) /\
      let asks := threshold <=? total in
      (exists calls, trace (snd r) = trace s ++ calls /\
                     existsb is_ConfirmAction calls = asks /\
                     (asks = true -> In (ConfirmAction question) calls)) /\
      fst r = if asks && negb (confirm_action (config s) question)
              then Raised (RuntimeError "Pool deployment rejected by user")
              else Returned (Some sid)
  end.
Proof.
  intros Hm Hlen Hint allowable total Hle question r.
  subst r.
  rewrite (address_space_check_unfold ps sid sn m s Hlen Hint) by lia.
  fold allowable total.
  destruct (allowable <? total) eqn:E; [apply Z.ltb_lt in E; lia |].
  destruct (tolerance allowable) as [e | threshold] eqn:Htol.
  { mrun. reflexivity. }
  split.
  { intros H0. pose proof (tolerance_eq m (conj H0 Hm)) as Heq.
    fold allowable in Heq. congruence. }
  intros asks. mrun. fold asks.
  destruct asks.
  - unfold util_confirm_action. mrun. fold question.
    destruct (confirm_action (config s) question); cbn [negb andb]; mrun.
    + split; [| reflexivity].
      eexists. split; [rewrite <- !app_assoc; reflexivity |].
      cbn. split; [reflexivity | intros _; auto].
    + split; [| reflexivity].
      eexists. split; [rewrite <- !app_assoc; reflexivity |].
      cbn. split; [reflexivity | intros _; auto].
  - mrun. split; [| reflexivity].
    eexists. split; [rewrite <- !app_assoc; reflexivity |].
    cbn. split; [reflexivity | discriminate].
Qed.

End SubnetTheorems.

Lemma allowable_addresses_and_rejection_witness :
  0 <= 28 <= 30 /\
  @allowable_addresses 28 = inr 11 /\
  fst (@address_space_check Example.world_28 (Example.pool 12 0 None None true)
         "subnet-id" (Example.subnet "10.0.0.0/28")
         (initial (Example.config_28 12))) =
  Raised (RuntimeError
            ("subnet default mask is 28 and allows 11 addresses " ++
             "but desired pool vm_count is 12")).
Proof.
  split; [lia |].
  destruct (@allowable_addresses_and_rejection Example.world_28
              (Example.pool 12 0 None None true) "subnet-id"
              (Example.subnet "10.0.0.0/28") 28 (initial (Example.config_28 12)))
    as [H1 H2].
  - lia.
  - vm_compute. lia.
  - reflexivity.
  - split; [exact H1 |].
    rewrite H2; [reflexivity | vm_compute; reflexivity].
Defined.

Lemma confirmation_at_truncated_tolerance_witness :
  28 <= 32 /\ 9 <= 11 /\
  fst (@address_space_check Example.world_28 (Example.pool 9 0 None None true)
         "subnet-id" (Example.subnet "10.0.0.0/28")
         (initial (Example.config_28 9))) =
  Raised (RuntimeError "Pool deployment rejected by user").
Proof.
  split; [lia |]. split; [lia |].
  assert (Hlen : (1 < List.length (Py.split "/" "10.0.0.0/28"))%nat)
    by (vm_compute; lia).
  assert (Hle : 9 + 0 <= 2 ^ (32 - 28) - 5) by (vm_compute; discriminate).
  pose proof (@confirmation_at_truncated_tolerance Example.world_28
                (Example.pool 9 0 None None true) "subnet-id"
                (Example.subnet "10.0.0.0/28") 28
                (initial (Example.config_28 9))
                ltac:(lia) Hlen eq_refl Hle) as H.
  vm_compute in H. exact (proj2 (proj2 H)).
Defined.

(** C2, as first stated, fails on an existing /28 subnet (11 allowable
    addresses) with a pool of 9 nodes: 9 is below nine tenths of 11, yet
    the subnet check asks for confirmation and, the confirmation refused,
    raises. *)
Lemma confirmation_below_nine_tenths :
  let cfg := Example.config_subnet 9 in
  let r := run (@_pool_virtual_network_subnet_address_space_check
                  Example.world_28 (Some Client)
                  (settings.pool_settings cfg)
                  (settings.batch_credentials cfg)) cfg in
  address_prefix (@subnets_get Example.world_28 "rg0" "vnet0" "default") =
    "10.0.0.0/28"%string /\
  @allowable_addresses 28 = inr 11 /\
  9 <= 11 /\
  ~ (10 * 9 >= 9 * 11) /\
  existsb is_ConfirmAction (trace (snd r)) = true /\
  fst r = Raised (RuntimeError "Pool deployment rejected by user").
Proof.
  cbv zeta. repeat split; try reflexivity; lia.
Qed.

(** ** MountPlanner: primary and backup of a GlusterFS cluster *)

Lemma option_eqb_Z_refl (x : option Z) : option_eqb Z.eqb x x = true.
Proof. destruct x as [z |]; [apply Z.eqb_refl | reflexivity]. Qed.

(** Once a backup is chosen the first pass changes nothing. *)
Lemma first_pass_step_chosen (sel : selection) (n : node_info) :
  is_None (primary_ip sel) = false -> is_None (backup_ip sel) = false ->
  first_pass_step sel n = sel.
Proof.
  intros Hp Hb. unfold first_pass_step. now rewrite Hp, Hb.
Qed.

Lemma first_pass_fold_chosen (ns : list node_info) (sel : selection) :
  is_None (primary_ip sel) = false -> is_None (backup_ip sel) = false ->
  fold_left first_pass_step ns sel = sel.
Proof.
  induction ns as [| n ns IH]; intros Hp Hb; [reflexivity |].
  cbn [fold_left]. rewrite first_pass_step_chosen by assumption.
  now apply IH.
Qed.

Lemma other_ud_and_fd_self (p : node_info) : other_ud_and_fd p p = false.
Proof. unfold other_ud_and_fd. now rewrite option_eqb_Z_refl. Qed.

Lemma with_ip_Some (n : node_info) :
  with_ip n = true -> exists ip, remote_ip n = Some ip.
Proof.
  unfold with_ip. destruct (remote_ip n) as [ip |]; [eauto | discriminate].
Qed.

Lemma with_ip_None (n : node_info) : with_ip n = false -> remote_ip n = None.
Proof.
  unfold with_ip. now destruct (remote_ip n).
Qed.

(** While no node with an address has been seen, a node without one
    leaves the primary address and the backup unset. *)
Lemma first_pass_step_unset (sel : selection) (n : node_info) :
  unset sel -> with_ip n = false -> unset (first_pass_step sel n).
Proof.
  intros (Hp & Hb & Hbu & Hbf) Hn. apply with_ip_None in Hn.
  unfold first_pass_step. rewrite Hp. cbn. rewrite Hb, Hn. cbn.
  repeat split; assumption.
Qed.

(** The first node that has an address becomes the primary. *)
Lemma first_pass_step_first_ip (sel : selection) (n : node_info) :
  unset sel -> with_ip n = true ->
  first_pass_step sel n = set_primary no_selection n.
Proof.
  intros (Hp & Hb & Hbu & Hbf) Hn. apply with_ip_Some in Hn as [ip Hip].
  unfold first_pass_step. rewrite Hp. cbn. rewrite Hb, Hip. cbn.
  rewrite option_eqb_Z_refl. cbn.
  unfold set_primary, no_selection. cbn. now rewrite Hb, Hbu, Hbf, Hip.
Qed.

(** With the primary [p] chosen and no backup address yet, one step
    either takes the node as backup, when it has an address and is in
    another update domain and another fault domain, or leaves the backup
    address unset. *)
Lemma first_pass_step_pending (p : node_info) (sel : selection)
  (n : node_info) :
  with_ip p = true -> pending p sel ->
  if with_ip n && other_ud_and_fd p n
  then first_pass_step sel n = primary_and_backup p n
  else pending p (first_pass_step sel n).
Proof.
  intros Hp (Hip & Hud & Hfd & Hb).
  destruct sel as [pi pu pf bi bu bf]. cbn in Hip, Hud, Hfd, Hb. subst.
  apply with_ip_Some in Hp as [ip Hp].
  unfold first_pass_step, other_ud_and_fd, with_ip, pending,
    primary_and_backup, set_backup, set_primary, no_selection.
  cbn. rewrite Hp. cbn.
  destruct (option_eqb Z.eqb (ud p) (ud n));
    destruct (option_eqb Z.eqb (fd p) (fd n));
    destruct (remote_ip n) as [ipn |]; cbn; rewrite ?Hp; repeat split.
Qed.

Lemma first_pass_fold_pending (p : node_info) (ns : list node_info) :
  with_ip p = true ->
  forall sel, pending p sel ->
  match find (fun n => with_ip n && other_ud_and_fd p n) ns with
  | Some b => fold_left first_pass_step ns sel = primary_and_backup p b
  | None => pending p (fold_left first_pass_step ns sel)
  end.
Proof.
  intros Hp. induction ns as [| n ns IH]; intros sel Hsel; [exact Hsel |].
  cbn [fold_left find].
  pose proof (first_pass_step_pending p sel n Hp Hsel) as Hstep.
  destruct (with_ip n && other_ud_and_fd p n) eqn:Hn.
  - rewrite Hstep. apply andb_prop in Hn as [Hn _].
    apply with_ip_Some in Hn as [ipn Hn].
    apply with_ip_Some in Hp as [ip Hp].
    apply first_pass_fold_chosen; cbn; [now rewrite Hp | now rewrite Hn].
  - now apply IH.
Qed.

(** The first pass: the primary is the first node that has an address,
    and the backup the first node that has an address and is in another
    update domain and another fault domain than the primary. *)
Lemma first_pass_fold (ns : list node_info) :
  forall sel, unset sel ->
  match find with_ip ns with
  | None => unset (fold_left first_pass_step ns sel)
  | Some p =>
      match find (fun n => with_ip n && other_ud_and_fd p n) ns with
      | Some b => fold_left first_pass_step ns sel = primary_and_backup p b
      | None => pending p (fold_left first_pass_step ns sel)
      end
  end.
Proof.
  induction ns as [| n ns IH]; intros sel Hsel; [exact Hsel |].
  cbn [fold_left find].
  destruct (with_ip n) eqn:Hn.
  - rewrite other_ud_and_fd_self. cbn [andb].
    rewrite (first_pass_step_first_ip sel n Hsel Hn).
    apply first_pass_fold_pending; [assumption |].
    repeat split.
  - specialize (IH _ (first_pass_step_unset sel n Hsel Hn)).
    destruct (find with_ip ns) as [p |]; [| exact IH].
    cbn [andb]. exact IH.
Qed.

Lemma second_pass_find (sel : selection) (p : node_info)
  (nodes : list node_info) :
  primary_ud sel = ud p ->
  second_pass sel nodes =
  match find (other_ud p) nodes with
  | Some b => set_backup sel b
  | None => sel
  end.
Proof.
  intros Hud. induction nodes as [| n ns IH]; [reflexivity |].
  cbn [second_pass find]. unfold other_ud at 1. rewrite Hud.
  destruct (negb (option_eqb Z.eqb (ud p) (ud n))); [reflexivity | exact IH].
Qed.

(** The second pass does not touch the primary, and finds no backup
    address among nodes that have none. *)
Lemma second_pass_unset (nodes : list node_info) (sel : selection) :
  unset sel -> find with_ip nodes = None ->
  primary_ip (second_pass sel nodes) = None /\
  backup_ip (second_pass sel nodes) = None.
Proof.
  intros (Hp & Hb & _). induction nodes as [| n ns IH]; intros Hfind.
  - now split.
  - cbn [find] in Hfind. destruct (with_ip n) eqn:Hn; [discriminate |].
    apply with_ip_None in Hn. cbn [second_pass].
    destruct (negb (option_eqb Z.eqb (primary_ud sel) (ud n))).
    + cbn. now split.
    + now apply IH.
Qed.

Lemma set_backup_pending (p b : node_info) (sel : selection) :
  pending p sel -> set_backup sel b = primary_and_backup p b.
Proof.
  intros (Hip & Hud & Hfd & _).
  unfold primary_and_backup, set_backup, set_primary, no_selection. cbn.
  now rewrite Hip, Hud, Hfd.
Qed.

(** When every node has an address, the first node is the first that has
    one, and having an address adds nothing to the search for a backup. *)
Lemma find_with_ip_all (nodes : list node_info) (f : node_info -> bool) :
  forallb with_ip nodes = true ->
  find with_ip nodes = hd_error nodes /\
  find (fun n => with_ip n && f n) nodes = find f nodes.
Proof.
  intros Hall. split.
  - destruct nodes as [| p ns]; [reflexivity |].
    cbn in Hall |- *. apply andb_prop in Hall as [Hp _]. now rewrite Hp.
  - induction nodes as [| n ns IH]; [reflexivity |].
    cbn in Hall |- *. apply andb_prop in Hall as [Hn Hns].
    rewrite Hn. cbn [andb]. now rewrite (IH Hns).
Qed.

Section MountFacts.
Context {api : settings.Api} {world : World}.

(** The first pass over the service's answers is the fold of its body
    over the nodes. *)
Lemma first_pass_run (sc : settings.StorageClusterSettings) (idx : list Z) :
  forall (ns : list node_info) (sel : selection) (vms : list node_info)
         (s : state),
    map (cluster_node sc) idx = map inr ns ->
    fst (first_pass sc idx sel vms s) =
    Returned (fold_left first_pass_step ns sel, vms ++ ns).
Proof.
  induction idx as [| i idx IH]; intros ns sel vms s Hmap.
  - destruct ns; [| discriminate]. cbn. now rewrite app_nil_r.
  - destruct ns as [| n ns]; [discriminate |].
    cbn [map] in Hmap. injection Hmap as Hn Hrest.
    cbn [first_pass]. unfold query_node. mrun.
    unfold cluster_node in Hn. rewrite Hn. mrun.
    rewrite (IH ns) by assumption.
    cbn [fold_left]. now rewrite <- app_assoc.
Qed.

End MountFacts.

Section MountTheorems.
Context {api : settings.Api} {world : World}.

(** C5 (amended): for a GlusterFS storage-cluster mount, given the ordered
    list of cluster nodes, each with its IP (which may be absent) and its
    fault and update domains, the primary is the first node that has an
    IP; the backup is the first node that has an IP and whose update
    domain and fault domain both differ from the primary's when there is
    one, otherwise the first node whose update domain differs from the
    primary's, provided that node has an IP; and when no node has an IP,
    or no backup can be chosen in this way, the construction raises. *)
Theorem glusterfs_primary_and_backup
  (sc : settings.StorageClusterSettings) (nodes : list node_info)
  (s : state) :
  map (cluster_node sc) (range (settings.sc_vm_count sc)) = map inr nodes ->
  fst (glusterfs_select sc s) =
  match find with_ip nodes with
  | None =>
      Raised (RuntimeError
                ("Could not find either a primary ip None or backup " ++
                 "ip None for glusterfs client mount"))
  | Some p =>
      match find (fun n => with_ip n && other_ud_and_fd p n) nodes with
      | Some b => Returned (primary_and_backup p b)
      | None =>
          match find (other_ud p) nodes with
          | Some b =>
              if with_ip b then Returned (primary_and_backup p b)
              else
                Raised (RuntimeError
                          ("Could not find either a primary ip " ++
                           str_opt (remote_ip p) ++
                           " or backup ip None for glusterfs client mount"))
          | None =>
              Raised (RuntimeError
                        ("Could not find either a primary ip " ++
                         str_opt (remote_ip p) ++
                         " or backup ip None for glusterfs client mount"))
          end
      end
  end.
Proof.
  intros Hmap.
  unfold glusterfs_select.
  pose proof (first_pass_run sc _ nodes no_selection [] s Hmap) as Hrun.
  rewrite app_nil_l in Hrun.
  unfold bind at 1.
  destruct (first_pass sc (range (settings.sc_vm_count sc)) no_selection []
              s) as [o s1].
  cbn [fst] in Hrun. subst o.
  assert (H0 : unset no_selection) by (repeat split).
  pose proof (first_pass_fold nodes no_selection H0) as Hfold.
  set (sel := fold_left first_pass_step nodes no_selection) in *.
  destruct (find with_ip nodes) as [p |] eqn:Hprimary.
  - apply find_some in Hprimary as [_ Hp].
    apply with_ip_Some in Hp as [ip Hp].
    destruct (find (fun n => with_ip n && other_ud_and_fd p n) nodes)
      as [b |] eqn:Hboth.
    + apply find_some in Hboth as [_ Hb]. apply andb_prop in Hb as [Hb _].
      apply with_ip_Some in Hb as [ipb Hb].
      rewrite Hfold.
      unfold primary_and_backup, set_backup, set_primary, no_selection.
      cbn. rewrite Hp, Hb. cbn. reflexivity.
    + pose proof Hfold as (Hip & Hud & Hfd & Hbk).
      rewrite Hbk. cbn [is_None].
      rewrite (second_pass_find sel p nodes Hud).
      destruct (find (other_ud p) nodes) as [b |] eqn:Hother.
      * rewrite (set_backup_pending p b sel Hfold).
        unfold with_ip.
        unfold primary_and_backup, set_backup, set_primary, no_selection.
        cbn. rewrite Hp.
        destruct (remote_ip b) as [ipb |]; cbn; reflexivity.
      * rewrite Hip, Hbk, Hp. cbn. reflexivity.
  - destruct Hfold as (Hip & Hbk & Hbu & Hbf).
    rewrite Hbk. cbn [is_None].
    destruct (second_pass_unset nodes sel (conj Hip (conj Hbk (conj Hbu Hbf)))
                Hprimary) as [Hp2 Hb2].
    rewrite Hp2, Hb2. cbn. reflexivity.
Qed.

End MountTheorems.

Lemma glusterfs_primary_and_backup_witness :
  let sc := Example.cluster 3 in
  let s := initial (Example.config_cluster 3) in
  let n0 := {| remote_ip := Some "ip-sc-vm0"; ud := Some 0; fd := Some 0 |} in
  let m0 := {| remote_ip := None; ud := Some 0; fd := Some 0 |} in
  let n1 := {| remote_ip := Some "ip-sc-vm1"; ud := Some 1; fd := Some 0 |} in
  let n2 := {| remote_ip := Some "ip-sc-vm2"; ud := Some 0; fd := Some 1 |} in
  (map (@cluster_node Example.api Example.world_28 sc)
     (range (settings.sc_vm_count sc)) = map inr [n0; n1; n2] /\
   fst (@glusterfs_select Example.api Example.world_28 sc s) =
   Returned (primary_and_backup n0 n1)) /\
  (map (@cluster_node Example.api Example.world_first_without_ip sc)
     (range (settings.sc_vm_count sc)) = map inr [m0; n1; n2] /\
   fst (@glusterfs_select Example.api Example.world_first_without_ip sc s) =
   Returned (primary_and_backup n1 n2)).
Proof.
  intros sc s n0 m0 n1 n2. split; (split; [reflexivity |]).
  - rewrite (@glusterfs_primary_and_backup Example.api Example.world_28 sc
               [n0; n1; n2] s eq_refl).
    reflexivity.
  - rewrite (@glusterfs_primary_and_backup Example.api
               Example.world_first_without_ip sc [m0; n1; n2] s eq_refl).
    reflexivity.
Defined.

(** C5, as first stated, fails on a cluster of three machines whose first
    machine has no IP: the claim makes that machine the primary and the
    second machine, the first in another update domain, the backup; the
    code takes the second machine as primary and the third as backup. *)
Lemma first_node_without_ip_is_not_primary :
  let sc := Example.cluster 3 in
  let cfg := Example.config_cluster 3 in
  let n0 := {| remote_ip := None; ud := Some 0; fd := Some 0 |} in
  let n1 := {| remote_ip := Some "ip-sc-vm1"; ud := Some 1; fd := Some 0 |} in
  let n2 := {| remote_ip := Some "ip-sc-vm2"; ud := Some 0; fd := Some 1 |} in
  map (@cluster_node Example.api Example.world_first_without_ip sc)
    (range (settings.sc_vm_count sc)) = map inr [n0; n1; n2] /\
  find (other_ud_and_fd n0) [n0; n1; n2] = None /\
  find (other_ud n0) [n0; n1; n2] = Some n1 /\
  fst (@glusterfs_select Example.api Example.world_first_without_ip sc
         (initial cfg)) =
  Returned (primary_and_backup n1 n2) /\
  primary_and_backup n1 n2 <> primary_and_backup n0 n1 /\
  fst (run (@_create_storage_cluster_mount_args Example.api
              Example.world_first_without_ip "sc"
              (settings.batch_credentials cfg)
              (settings.arm_subnet_id
                 (settings.virtual_network (settings.pool_settings cfg))))
         cfg) =
  Returned
    (("ip-sc-vm1:/gv0 /mnt/batch/tasks/mounts/sc glusterfs " ++
      "_netdev,auto,transport=tcp,backupvolfile-server=ip-sc-vm2 0 2")%string,
     "glusterfs:sc"%string).
Proof.
  cbv zeta. repeat split; try reflexivity. discriminate.
Qed.

(** On a cluster of three machines none of which has an IP no primary is
    found, and the construction of the mount arguments raises. *)
Lemma no_node_with_ip_raises :
  let cfg := Example.config_cluster 3 in
  fst (run (@_create_storage_cluster_mount_args Example.api
              Example.world_without_ips "sc"
              (settings.batch_credentials cfg)
              (settings.arm_subnet_id
                 (settings.virtual_network (settings.pool_settings cfg))))
         cfg) =
  Raised (RuntimeError
            ("Could not find either a primary ip None or backup ip None " ++
             "for glusterfs client mount")).
Proof. reflexivity. Qed.

(** ** Reasoning rules for computations that raise *)

Lemma raises_bind {A B} (P : state -> Prop) (c : M A)
  (Q : A -> state -> Prop) (k : A -> M B) :
  triple P c Q -> (forall a, raises (Q a) (k a)) -> raises P (bind c k).
Proof.
  intros Hc Hk s Hs. specialize (Hc s Hs). unfold bind.
  destruct (c s) as [[a | e |] s1].
  - exact (Hk a s1 Hc).
  - exists e, s1. reflexivity.
  - contradiction.
Qed.

Lemma raises_bind_l {A B} (P : state -> Prop) (c : M A) (k : A -> M B) :
  raises P c -> raises P (bind c k).
Proof.
  intros Hc s Hs. destruct (Hc s Hs) as (e & s' & H).
  exists e, s'. now apply bind_Raised.
Qed.

Lemma raises_raise {A} (P : state -> Prop) (e : exn) : raises P (@raise A e).
Proof. intros s _. exists e, s. reflexivity. Qed.

Lemma raises_if_raise {A} (P : state -> Prop) (b : bool) (e : exn)
  (c : M A) :
  (b = false -> raises P c) -> raises P (if b then raise e else c).
Proof.
  intros H. destruct b; [apply raises_raise | now apply H].
Qed.

Lemma raises_bind_lift {A B} (P : state -> Prop) (r : exn + A)
  (k : A -> M B) :
  (forall a, r = inr a -> raises P (k a)) -> raises P (bind (lift r) k).
Proof.
  intros H. destruct r as [e | a].
  - intros s _. exists e, s. reflexivity.
  - intros s Hs. rewrite bind_lift_inr. now apply (H a).
Qed.

Lemma raises_get_eq {B} (c0 : settings.Config) (k : settings.Config -> M B) :
  raises (fun s => config s = c0) (k c0) ->
  raises (fun s => config s = c0) (bind get_config k).
Proof.
  intros H s Hs. rewrite bind_get_config, Hs. now apply H.
Qed.

(** Case analysis on the scrutinee of the innermost [match] of the goal. *)
Ltac destruct_scrutinee :=
  match goal with
  | |- context [match ?x with _ => _ end] =>
      lazymatch x with
      | context [match _ with _ => _ end] => fail
      | _ => destruct x eqn:?
      end
  end.

(** ** ConfigValidator: the on-compute replicated volume *)

Lemma count_gluster_cons kv sdv :
  count_gluster (kv :: sdv) =
  (if settings.is_shared_data_volume_gluster_on_compute (snd kv)
   then 1 else 0) + count_gluster sdv.
Proof.
  unfold count_gluster. cbn [filter].
  destruct (settings.is_shared_data_volume_gluster_on_compute (snd kv));
    cbn [List.length]; lia.
Qed.

Lemma count_gluster_nonneg sdv : 0 <= count_gluster sdv.
Proof. unfold count_gluster. lia. Qed.

Section VolumeChecks.
Context {api : settings.Api}.
Variables (is_windows native : bool) (pool : settings.PoolSettings)
  (publisher offer sku : option string).

(** One volume: the check leaves the state alone, counts an on-compute
    volume only when no pool limit is exceeded, and raises no
    [KeyError]. *)
Lemma check_volume_outcome n vol s :
  match check_shared_data_volume is_windows native pool publisher offer sku
          n vol s with
  | (Returned m, s') =>
      s' = s /\
      if settings.is_shared_data_volume_gluster_on_compute vol
      then m = n + 1 /\ gluster_conflict is_windows pool = false
      else m = n
  | (Raised e, _) => is_KeyError e = false
  | (Diverged, _) => False
  end.
Proof.
  unfold check_shared_data_volume, gluster_conflict, try_except_KeyError,
    bind, lift, raise, ret, startswith_opt, lt_str.
  repeat (destruct_scrutinee; cbn in *; subst; try discriminate;
          try tauto; auto).
Qed.

Lemma check_volumes_outcome sdv : forall n s,
  match check_shared_data_volumes is_windows native pool publisher offer
          sku n sdv s with
  | (Returned m, s') =>
      s' = s /\ m = n + count_gluster sdv /\
      (0 < count_gluster sdv -> gluster_conflict is_windows pool = false)
  | (Raised e, _) => is_KeyError e = false
  | (Diverged, _) => False
  end.
Proof.
  induction sdv as [| [key vol] sdv IH]; intros n s.
  - cbn. split; [reflexivity |].
    unfold count_gluster. cbn. split; lia.
  - cbn [check_shared_data_volumes]. unfold bind at 1.
    pose proof (check_volume_outcome n vol s) as Hv.
    destruct (check_shared_data_volume is_windows native pool publisher
                offer sku n vol s) as [[m | e |] s1]; try assumption.
    destruct Hv as [-> Hv].
    specialize (IH m s).
    destruct (check_shared_data_volumes is_windows native pool publisher
                offer sku m sdv s) as [[m' | e |] s2]; try assumption.
    destruct IH as (-> & -> & IH).
    rewrite count_gluster_cons. cbn [snd].
    pose proof (count_gluster_nonneg sdv).
    destruct (settings.is_shared_data_volume_gluster_on_compute vol).
    + destruct Hv as [-> Hc]. split; [reflexivity | split; [lia | auto]].
    + subst m. split; [reflexivity | split; [lia |]].
      intros H0. apply IH. lia.
Qed.

(** The guarded walk over the volumes raises when an on-compute volume
    is declared against one of the pool limits, or twice. *)
Lemma volumes_block_raises cfg sdv s :
  settings.shared_data_volumes cfg = Some sdv ->
  0 < count_gluster sdv ->
  gluster_conflict is_windows pool = true \/ 1 < count_gluster sdv ->
  exists e s',
    try_except_KeyError
      (sdv <- lift (settings.global_resources_shared_data_volumes cfg) ;;
       num_gluster <- check_shared_data_volumes is_windows native pool
                        publisher offer sku 0 sdv ;;
       if num_gluster >? 1 then
         raise (ValueError
                  ("cannot create more than one GlusterFS on compute " ++
                   "volume per pool")%string)
       else ret tt)
      (ret tt) s = (Raised e, s').
Proof.
  intros Hsdv Hpos Hcase.
  unfold try_except_KeyError, settings.global_resources_shared_data_volumes.
  rewrite Hsdv. rewrite bind_lift_inr. unfold bind at 1.
  pose proof (check_volumes_outcome sdv 0 s) as Hl.
  destruct (check_shared_data_volumes is_windows native pool publisher
              offer sku 0 sdv s) as [[m | e |] s1].
  - destruct Hl as (-> & -> & Hc).
    destruct Hcase as [Hconf | Htwo].
    + rewrite (Hc Hpos) in Hconf. discriminate.
    + destruct (0 + count_gluster sdv >? 1) eqn:E.
      * cbn. eauto.
      * rewrite Z.gtb_ltb in E. apply Z.ltb_ge in E. lia.
  - destruct e; try discriminate; eauto.
  - contradiction.
Qed.

End VolumeChecks.

Section Adjust.
Context {api : settings.Api}.
Variable cfg0 : settings.Config.

(** The adjustments leave the pool limits and the declared volumes as
    they are in [cfg0]. *)
Let Inv (s : state) : Prop := agrees cfg0 (config s).

Lemma raises_get_inv {B} (k : settings.Config -> M B) :
  (forall c, agrees cfg0 c -> raises Inv (k c)) ->
  raises Inv (bind get_config k).
Proof.
  intros H s Hs. rewrite bind_get_config. now apply (H (config s)).
Qed.

Lemma platform_image_allowed_pure publisher offer sku s :
  match platform_image_allowed publisher offer sku s with
  | (Diverged, _) => False
  | (_, s') => s' = s
  end.
Proof.
  unfold platform_image_allowed, bind, lift, ret, startswith_opt, ge_str.
  repeat (destruct_scrutinee; cbn; try reflexivity).
Qed.

(** One step of the function keeps the invariant. *)
Ltac preserve :=
  let s := fresh "s" in
  let Hs := fresh "Hs" in
  intros s Hs; unfold when;
  repeat (destruct_scrutinee; try exact I);
  unfold bind, logger, emit, set_config, get_config, ret, raise, lift in *;
  cbn in *;
  repeat match goal with
         | H : (_, _) = (_, _) |- _ => inversion H; clear H; subst
         end;
  try discriminate; try exact I;
  unfold Inv, agrees, same_pool_limits, settings.pool_settings in *;
  cbn in *;
  try (subst; intuition congruence).

Lemma adjust_settings_raises sdv :
  settings.shared_data_volumes cfg0 = Some sdv ->
  0 < count_gluster sdv ->
  gluster_conflict (settings.is_windows_pool cfg0)
    (settings.pool_specification cfg0) = true \/ 1 < count_gluster sdv ->
  raises (fun s => config s = cfg0) _adjust_settings_for_pool_creation.
Proof.
  intros Hsdv Hpos Hcase.
  unfold _adjust_settings_for_pool_creation. cbv zeta.
  apply raises_get_eq.
  apply raises_if_raise; intros _.
  eapply raises_bind with (Q := fun _ s => config s = cfg0).
  { intros s Hs.
    pose proof (platform_image_allowed_pure (settings.pool_publisher cfg0)
                  (settings.pool_offer cfg0) (settings.pool_sku cfg0) s) as H.
    destruct (platform_image_allowed _ _ _ s) as [[a | e |] s1];
      [now subst | exact I | exact H]. }
  intros [allowed required].
  apply raises_if_raise; intros _.
  apply raises_if_raise; intros _.
  eapply raises_bind with (Q := fun _ => Inv).
  { preserve. }
  intros _.
  apply raises_get_inv; intros config1 H1.
  apply raises_bind_lift; intros dr Hdr.
  apply raises_if_raise; intros _.
  eapply raises_bind with (Q := fun _ => Inv).
  { preserve. }
  intros _.
  eapply raises_bind with (Q := fun _ => Inv).
  { preserve. }
  intros _.
  eapply raises_bind with (Q := fun _ => Inv).
  { preserve. }
  intros _.
  apply raises_get_inv; intros config2 H2.
  apply raises_if_raise; intros _.
  apply raises_bind_l.
  intros s _.
  destruct H2 as [(Hvm & Hmt & Has & Hinc) Hvol].
  apply volumes_block_raises with (sdv := sdv).
  - now rewrite Hvol.
  - exact Hpos.
  - destruct Hcase as [Hc | Hc]; [left | now right].
    unfold gluster_conflict in *. unfold settings.pool_settings.
    now rewrite Hvm, Hmt, Has, Hinc.
Qed.

End Adjust.

Section ValidatorTheorems.
Context {api : settings.Api}.

(** C6: for every fleet specification that declares an on-compute
    replicated (glusterfs-on-compute) volume, pool-creation validation
    raises whenever the target is Windows, autoscale is enabled,
    inter-node communication is disabled, the low-priority node count is
    greater than 0, the dedicated node count is at most 1,
    max-tasks-per-node exceeds 1, or more than one such volume is
    declared. *)
Theorem glusterfs_on_compute_validation
  (sdv : settings.SharedDataVolumes) (s : state) :
  let cfg := config s in
  let pool := settings.pool_specification cfg in
  settings.shared_data_volumes cfg = Some sdv ->
  0 < count_gluster sdv ->
  (settings.is_windows_pool cfg = true \/
   settings.is_pool_autoscale_enabled (settings.autoscale pool) = true \/
   settings.inter_node_communication_enabled pool = false \/
   settings.low_priority (settings.vm_count pool) > 0 \/
   settings.dedicated (settings.vm_count pool) <= 1 \/
   settings.max_tasks_per_node pool > 1 \/
   count_gluster sdv > 1) ->
  exists e s', _adjust_settings_for_pool_creation s = (Raised e, s').
Proof.
  intros cfg pool Hsdv Hpos Hcase.
  apply (adjust_settings_raises cfg sdv Hsdv Hpos); [| reflexivity].
  unfold gluster_conflict. fold pool.
  destruct Hcase as [H | [H | [H | [H | [H | [H | H]]]]]].
  - left. now rewrite H.
  - left. rewrite H. now rewrite orb_true_r.
  - left. rewrite H. cbn. now rewrite orb_true_r.
  - left. assert (E : (settings.low_priority (settings.vm_count pool) >? 0)
                      = true) by (apply Z.gtb_lt; lia).
    rewrite E. now rewrite orb_true_r.
  - left. assert (E : (settings.dedicated (settings.vm_count pool) <=? 1)
                      = true) by (apply Z.leb_le; lia).
    rewrite E. now rewrite orb_true_r.
  - left. assert (E : (settings.max_tasks_per_node pool >? 1) = true)
      by (apply Z.gtb_lt; lia).
    rewrite E. now rewrite orb_true_r.
  - right. lia.
Qed.

End ValidatorTheorems.

Lemma glusterfs_on_compute_validation_witness :
  settings.shared_data_volumes (Example.config_gluster 1 0) =
  Some [("gv"%string, Example.gluster_volume)] /\
  0 < count_gluster [("gv"%string, Example.gluster_volume)] /\
  settings.dedicated
    (settings.vm_count
       (settings.pool_specification (Example.config_gluster 1 0))) <= 1 /\
  exists e s',
    @_adjust_settings_for_pool_creation Example.api
      (initial (Example.config_gluster 1 0)) = (Raised e, s').
Proof.
  split; [reflexivity |]. split; [reflexivity |]. split; [cbn; lia |].
  apply (@glusterfs_on_compute_validation Example.api
           [("gv"%string, Example.gluster_volume)]
           (initial (Example.config_gluster 1 0))).
  - reflexivity.
  - reflexivity.
  - right. right. right. right. left. cbn. lia.
Defined.

(** The validation is not one that always raises: three dedicated nodes
    with inter-node communication and one replicated volume pass, and a
    single dedicated node is turned down by the on-compute check. *)
Example validation_accepts_replicated_volume :
  result (@_adjust_settings_for_pool_creation Example.api)
    (Example.config_gluster 3 0) = Returned tt /\
  result (@_adjust_settings_for_pool_creation Example.api)
    (Example.config_gluster 1 0) =
  Raised (ValueError
            "vm_count dedicated should exceed 1 for glusterfs on compute").
Proof. split; reflexivity. Qed.

(** ** PoolRequestBuilder: autoscale and the explicit target counts *)

Lemma returns_only_bind {A B} (c : M A) (k : A -> M B) (P : A -> Prop)
  (Q : B -> Prop) :
  returns_only c P -> (forall a, P a -> returns_only (k a) Q) ->
  returns_only (bind c k) Q.
Proof.
  intros Hc Hk s. specialize (Hc s). unfold bind.
  destruct (c s) as [[a | e |] s1]; cbn in *; try exact I.
  exact (Hk a Hc s1).
Qed.

Lemma returns_only_bind_any {A B} (c : M A) (k : A -> M B) (Q : B -> Prop) :
  (forall a, returns_only (k a) Q) -> returns_only (bind c k) Q.
Proof.
  intros Hk. apply returns_only_bind with (P := fun _ => True).
  - intros s. destruct (fst (c s)); exact I.
  - intros a _. apply Hk.
Qed.

Lemma returns_only_ret {A} (a : A) (Q : A -> Prop) :
  Q a -> returns_only (ret a) Q.
Proof. intros H s. exact H. Qed.

Lemma returns_only_raise {A} (e : exn) (Q : A -> Prop) :
  returns_only (raise e) Q.
Proof. intros s. exact I. Qed.

Lemma returns_get_config {B} (k : settings.Config -> M B)
  (Q : settings.Config -> B -> Prop) :
  (forall cfg, returns_only (k cfg) (Q cfg)) ->
  forall s, match fst (bind get_config k s) with
            | Returned r => Q (config s) r
            | _ => True
            end.
Proof. intros H s. rewrite bind_get_config. apply H. Qed.

(** Step over a part of the computation whose result does not matter. *)
Ltac skip_step :=
  first
    [ apply returns_only_bind_any; intros ?
    | match goal with
      | |- returns_only (match ?x with _ => _ end) _ => destruct x
      | |- returns_only (if ?x then _ else _) _ => destruct x
      | |- returns_only (raise _) _ => apply returns_only_raise
      end ].

Section PoolRequestFacts.
Context {api : settings.Api} {world : World}.

(** The autoscale step returns, whatever the target counts are. *)
Lemma autoscale_settings_run ps s :
  exists s', autoscale_settings ps s =
             (Returned (autoscale_request_of ps), s').
Proof.
  unfold autoscale_settings, autoscale_request_of, when.
  destruct (settings.is_pool_autoscale_enabled (settings.autoscale ps));
    [destruct (negb (is_None (settings.resize_timeout ps))) |];
    eexists; reflexivity.
Qed.

Lemma autoscale_settings_returns ps :
  returns_only (autoscale_settings ps)
    (fun r => r = autoscale_request_of ps).
Proof.
  intros s. destruct (autoscale_settings_run ps s) as [s' H].
  now rewrite H.
Qed.

Lemma construct_pool_object_built nc : forall s,
  match fst (_construct_pool_object nc s) with
  | Returned r => built_from (config s) r
  | _ => True
  end.
Proof.
  unfold _construct_pool_object.
  apply returns_get_config with (Q := built_from). intros cfg.
  apply returns_only_bind_any; intros f.
  eapply returns_only_bind; [apply autoscale_settings_returns |].
  intros autoscale ->.
  repeat skip_step.
  apply returns_only_ret.
  unfold built_from, amend_pool, pool_add_parameter. cbn.
  destruct (asenable (autoscale_request_of (settings.pool_settings cfg)));
    repeat split; reflexivity.
Qed.

End PoolRequestFacts.

Section PoolRequestTheorems.
Context {api : settings.Api} {world : World}.

(** C7: in the constructed pool-creation request, whenever autoscale is
    enabled the target dedicated node count, the target low-priority
    node count and the resize timeout are all omitted ([None]) and the
    request carries the autoscale formula and evaluation interval with
    auto-scale enabled; whenever autoscale is disabled the request
    carries the explicit target counts and resize timeout and no
    autoscale formula or interval. *)
Theorem autoscale_or_explicit_counts
  (nc : option client) (s : state) (ps : settings.PoolSettings)
  (g : bool) (pool : batchmodels.PoolAddParameter) :
  fst (_construct_pool_object nc s) = Returned (ps, g, pool) ->
  ps = settings.pool_settings (config s) /\
  (settings.is_pool_autoscale_enabled (settings.autoscale ps) = true ->
   batchmodels.target_dedicated_nodes pool = None /\
   batchmodels.target_low_priority_nodes pool = None /\
   batchmodels.resize_timeout pool = None /\
   batchmodels.enable_auto_scale pool = true /\
   batchmodels.auto_scale_formula pool =
     settings.autoscale_get_formula ps /\
   batchmodels.auto_scale_evaluation_interval pool =
     settings.evaluation_interval (settings.autoscale ps)) /\
  (settings.is_pool_autoscale_enabled (settings.autoscale ps) = false ->
   batchmodels.target_dedicated_nodes pool =
     Some (settings.dedicated (settings.vm_count ps)) /\
   batchmodels.target_low_priority_nodes pool =
     Some (settings.low_priority (settings.vm_count ps)) /\
   batchmodels.resize_timeout pool = settings.resize_timeout ps /\
   batchmodels.enable_auto_scale pool = false /\
   batchmodels.auto_scale_formula pool = None /\
   batchmodels.auto_scale_evaluation_interval pool = None).
Proof.
  intros Hrun.
  pose proof (construct_pool_object_built nc s) as H.
  rewrite Hrun in H. unfold built_from, autoscale_request_of in H.
  destruct H as (Hps & Hen & Hf & Hi & Hd & Hl & Hr).
  split; [exact Hps |].
  destruct (settings.is_pool_autoscale_enabled (settings.autoscale ps));
    cbn in *; split; intros E; try discriminate; repeat split; assumption.
Qed.

(** C3 (amended): for every fleet specification with autoscale enabled
    and explicit dedicated/low-priority target node counts set, the
    autoscale step of the request construction returns rather than
    raises, and every request that gets built has auto-scale enabled and
    both explicit target counts omitted: the counts are left out of the
    request, the specification is not rejected for them. *)
Theorem autoscale_drops_explicit_counts
  (nc : option client) (s : state) :
  let ps := settings.pool_settings (config s) in
  settings.is_pool_autoscale_enabled (settings.autoscale ps) = true ->
  (exists r s', autoscale_settings ps s = (Returned r, s') /\
                asenable r = true) /\
  (forall ps' g pool,
     fst (_construct_pool_object nc s) = Returned (ps', g, pool) ->
     batchmodels.enable_auto_scale pool = true /\
     batchmodels.target_dedicated_nodes pool = None /\
     batchmodels.target_low_priority_nodes pool = None).
Proof.
  intros ps Hen. split.
  - destruct (autoscale_settings_run ps s) as [s' H].
    exists (autoscale_request_of ps), s'. split; [exact H |].
    unfold autoscale_request_of. now rewrite Hen.
  - intros ps' g pool Hrun.
    pose proof (construct_pool_object_built nc s) as H.
    rewrite Hrun in H. unfold built_from, autoscale_request_of in H.
    destruct H as (Hps & He & _ & _ & Hd & Hl & _).
    subst ps'. fold ps in He, Hd, Hl. rewrite Hen in He, Hd, Hl.
    cbn in He, Hd, Hl. auto.
Qed.

End PoolRequestTheorems.

Lemma autoscale_or_explicit_counts_witness :
  exists ps g pool,
    fst (@_construct_pool_object Example.api Example.world_28 None
           (initial Example.config_autoscale)) = Returned (ps, g, pool) /\
    batchmodels.target_dedicated_nodes pool = None /\
    batchmodels.resize_timeout pool = None /\
    batchmodels.auto_scale_formula pool = Some "$TargetDedicatedNodes=2"%string.
Proof.
  assert (E : { r | fst (@_construct_pool_object Example.api Example.world_28
                           None (initial Example.config_autoscale))
                    = Returned r })
    by (eexists; vm_compute; reflexivity).
  destruct E as [[[ps g] pool] E].
  exists ps, g, pool. split; [exact E |].
  destruct (@autoscale_or_explicit_counts Example.api Example.world_28 None
              (initial Example.config_autoscale) ps g pool E)
    as (Hps & Hon & _).
  subst ps.
  destruct (Hon eq_refl) as (Hd & _ & Hr & _ & Hf & _).
  repeat split; assumption.
Defined.

Lemma autoscale_drops_explicit_counts_witness :
  @settings.is_pool_autoscale_enabled Example.api
    (settings.autoscale (settings.pool_settings Example.config_autoscale))
  = true /\
  exists r s',
    @autoscale_settings Example.api
      (settings.pool_settings Example.config_autoscale)
      (initial Example.config_autoscale) = (Returned r, s') /\
    asenable r = true.
Proof.
  split; [reflexivity |].
  apply (@autoscale_drops_explicit_counts Example.api Example.world_28 None
           (initial Example.config_autoscale) eq_refl).
Defined.

(** C3, as first stated, fails: with autoscale enabled and explicit target
    counts of 2 dedicated and 1 low-priority nodes, the validation returns
    and the request is built, with the counts left out. *)
Lemma autoscale_with_explicit_counts_accepted :
  let cfg := Example.config_autoscale in
  let ps := settings.pool_settings cfg in
  @settings.is_pool_autoscale_enabled Example.api (settings.autoscale ps)
  = true /\
  settings.dedicated (settings.vm_count ps) = 2 /\
  settings.low_priority (settings.vm_count ps) = 1 /\
  result (@_adjust_settings_for_pool_creation Example.api) cfg
  = Returned tt /\
  match result (@_construct_pool_object Example.api Example.world_28 None)
          cfg with
  | Returned (_, _, pool) =>
      batchmodels.enable_auto_scale pool = true /\
      batchmodels.target_dedicated_nodes pool = None /\
      batchmodels.target_low_priority_nodes pool = None
  | _ => False
  end.
Proof.
  cbv zeta. repeat split; reflexivity.
Qed.

(** ** DistributedBootstrapCoordinator *)

Section CoordinatorFacts.
Context {api : settings.Api} {world : World}.

(** The polling loop returns once the task is seen completed: enough
    fuel gives the completed task. *)
Lemma wait_for_task_completes (job_id task_id : string) (n : nat) :
  forall (fuel : nat) (s : state),
    (forall k, batchmodels.task_id (task_get k job_id task_id) = task_id) ->
    (forall k, (k < n)%nat ->
       batchmodels.state (task_get (task_polls s + k) job_id task_id)
       <> batchmodels.completed) ->
    batchmodels.state (task_get (task_polls s + n) job_id task_id)
    = batchmodels.completed ->
    (n < fuel)%nat ->
    fst (wait_for_task fuel job_id task_id s) =
    Returned (task_get (task_polls s + n) job_id task_id).
Proof.
  induction n as [| n IH]; intros fuel s Hid Hbefore Hat Hfuel.
  - destruct fuel as [| fuel]; [lia |].
    cbn [wait_for_task]. unfold bind at 1, batch_client_task_get.
    rewrite Nat.add_0_r in Hat. rewrite Hat. cbn.
    now rewrite Nat.add_0_r.
  - destruct fuel as [| fuel]; [lia |].
    cbn [wait_for_task]. unfold bind at 1, batch_client_task_get.
    assert (H0 : batchmodels.state (task_get (task_polls s) job_id task_id)
                 <> batchmodels.completed).
    { specialize (Hbefore 0%nat). rewrite Nat.add_0_r in Hbefore.
      apply Hbefore. lia. }
    destruct (batchmodels.state (task_get (task_polls s) job_id task_id))
      eqn:E; try contradiction; cbn [batchmodels.TaskState_eqb];
      rewrite bind_emit, Hid;
      (rewrite IH;
       [ cbn [task_polls]; f_equal; f_equal; lia
       | assumption
       | intros k Hk; cbn [task_polls];
         replace (S (task_polls s) + k)%nat
           with (task_polls s + S k)%nat by lia;
         apply Hbefore; lia
       | cbn [task_polls];
         replace (S (task_polls s) + n)%nat
           with (task_polls s + S n)%nat by lia;
         assumption
       | lia ]).
Qed.

Lemma bind_task_get {B} job_id task_id
  (k : batchmodels.CloudTask -> M B) s :
  bind (batch_client_task_get job_id task_id) k s =
  k (task_get (task_polls s) job_id task_id)
    {| config := config s;
       trace := trace s ++ [TaskGet job_id task_id];
       task_polls := S (task_polls s) |}.
Proof. reflexivity. Qed.

(** One verification pass: its calls and its verdict. *)
Lemma check_success_file_run (pool_id path absent : string)
  (nodes : list batchmodels.ComputeNode) :
  forall s,
    check_success_file pool_id path absent nodes s =
    (Returned
       (all_present (fun nid => file_on_node pool_id nid path) nodes),
     {| config := config s;
        trace := trace s ++
                 verification_calls pool_id path absent nodes;
        task_polls := task_polls s |}).
Proof.
  unfold verification_calls.
  induction nodes as [| node rest IH]; intros s.
  - cbn. rewrite app_nil_r. now destruct s.
  - cbn [check_success_file probed first_absent find all_present forallb].
    rewrite bind_emit.
    destruct (file_on_node pool_id (batchmodels.node_id node) path) eqn:E.
    + rewrite IH. cbn [config trace task_polls negb andb map].
      unfold all_present, first_absent.
      now rewrite <- app_assoc.
    + rewrite bind_logger. cbn [config trace task_polls negb andb map].
      unfold ret. now rewrite <- !app_assoc.
Qed.

Lemma probed_nodes_app (l1 l2 : list event) :
  probed_nodes (l1 ++ l2) = probed_nodes l1 ++ probed_nodes l2.
Proof.
  induction l1 as [| e l1 IH]; [reflexivity |].
  destruct e; cbn; now rewrite ?IH.
Qed.

Lemma probed_nodes_verification (pool_id path absent : string)
  (nodes : list batchmodels.ComputeNode) :
  probed_nodes (verification_calls pool_id path absent nodes) =
  map batchmodels.node_id
    (probed (fun nid => file_on_node pool_id nid path) nodes).
Proof.
  unfold verification_calls. rewrite probed_nodes_app.
  destruct (first_absent _ nodes); cbn; rewrite app_nil_r;
    induction (probed _ nodes) as [| n l IH]; cbn; now rewrite ?IH.
Qed.

Lemma all_present_false (present : string -> bool)
  (nodes : list batchmodels.ComputeNode) :
  all_present present nodes = false <->
  exists node, In node nodes /\ present (batchmodels.node_id node) = false.
Proof.
  unfold all_present. split.
  - intros H. induction nodes as [| n l IH]; [discriminate |].
    cbn in H. destruct (present (batchmodels.node_id n)) eqn:E.
    + destruct (IH H) as (m & Hin & Hm). exists m. split; [now right | easy].
    + exists n. split; [now left | easy].
  - intros (m & Hin & Hm).
    destruct (forallb _ nodes) eqn:E; [| reflexivity].
    rewrite forallb_forall in E. specialize (E m Hin). congruence.
Qed.

(** The first node that lacks the file is the last one probed, and the
    one reported. *)
Lemma first_absent_probed (present : string -> bool)
  (nodes : list batchmodels.ComputeNode) :
  match first_absent present nodes with
  | Some node =>
      all_present present nodes = false /\
      exists before after,
        nodes = before ++ node :: after /\
        probed present nodes = before ++ [node] /\
        all_present present before = true /\
        present (batchmodels.node_id node) = false
  | None => all_present present nodes = true /\ probed present nodes = nodes
  end.
Proof.
  unfold first_absent, all_present.
  induction nodes as [| n l IH]; [now cbn |].
  cbn. destruct (present (batchmodels.node_id n)) eqn:E; cbn.
  - destruct (find _ l) as [m |].
    + destruct IH as (Hall & before & after & -> & Hp & Hb & Hm).
      split; [exact Hall |].
      exists (n :: before), after. cbn. rewrite E, Hp, Hb. auto.
    + destruct IH as [Hall Hp]. now rewrite Hp.
  - split; [reflexivity |]. exists [], l. auto.
Qed.

(** The two verification stages, as one step each. *)
Lemma glusterfs_verify_and_delete_run (pool_id job_id : string)
  (batchtask : batchmodels.CloudTask)
  (nodes : option (list batchmodels.ComputeNode)) (s : state) :
  let targets := match nodes with
                 | Some l => l
                 | None => compute_node_list pool_id
                 end in
  let path := glusterfs_success_file job_id in
  let verified :=
    all_present (fun nid => file_on_node pool_id nid path) targets in
  glusterfs_verify_and_delete pool_id job_id batchtask nodes s =
  (if verified then Returned tt
   else Raised (RuntimeError "glusterfs setup failed"),
   {| config := config s;
      trace :=
        trace s ++
        match nodes with
        | Some _ => []
        | None => [ComputeNodeList pool_id]
        end ++
        verification_calls pool_id path
          "gluster success file absent on node " targets ++
        [JobDelete job_id] ++
        (if verified then
           [Log INFO ("glusterfs setup task " ++
                      batchmodels.task_id batchtask ++ " in job " ++
                      job_id ++ " completed")%string]
         else []);
      task_polls := task_polls s |}).
Proof.
  intros targets path verified.
  unfold glusterfs_verify_and_delete.
  fold (glusterfs_success_file job_id). fold path.
  destruct nodes as [l |]; mrun; rewrite bind_Returned
    with (1 := check_success_file_run _ _ _ _ _);
    mrun; fold targets; fold verified;
    destruct verified; cbn [negb]; mrun;
    rewrite <- ?app_assoc; cbn [app]; rewrite ?app_nil_r; reflexivity.
Qed.

Lemma update_images_verify_and_delete_multi (r : update_run) (s : state) :
  ur_dedicated r > 1 ->
  let pool_id := ur_pool_id r in
  let targets := compute_node_list pool_id in
  let path := update_images_success_file (ur_is_windows r) (ur_job_id r)
                (batchmodels.task_id (ur_batchtask r)) in
  let verified :=
    all_present (fun nid => file_on_node pool_id nid path) targets in
  update_images_verify_and_delete r s =
  (if verified then Returned tt
   else Raised (RuntimeError "update container images job failed"),
   {| config := config s;
      trace :=
        trace s ++
        [ComputeNodeList pool_id] ++
        verification_calls pool_id path
          "update images success file absent on node " targets ++
        [JobDelete (ur_job_id r)] ++
        (if verified then
           [Log INFO ("update container images task " ++
                      batchmodels.task_id (ur_batchtask r) ++ " in job " ++
                      ur_job_id r ++ " completed")%string]
         else []);
      task_polls := task_polls s |}).
Proof.
  intros Hmulti pool_id targets path verified.
  unfold update_images_verify_and_delete.
  assert (E : (ur_dedicated r >? 1) = true) by (apply Z.gtb_lt; lia).
  rewrite E. cbv zeta.
  fold (update_images_success_file (ur_is_windows r) (ur_job_id r)
          (batchmodels.task_id (ur_batchtask r))).
  fold pool_id path. mrun.
  rewrite bind_Returned with (1 := check_success_file_run _ _ _ _ _).
  mrun. fold targets. fold verified.
  destruct verified; cbn [negb]; mrun;
    rewrite <- ?app_assoc; cbn [app]; rewrite ?app_nil_r; reflexivity.
Qed.

(** Whatever the verification finds, the job is deleted, and nothing is
    called after the deletion when the stage raises. *)
Lemma glusterfs_verify_and_delete_deletes pool_id job_id batchtask nodes s :
  let r := glusterfs_verify_and_delete pool_id job_id batchtask nodes s in
  deleted_before_raise job_id (trace s) r /\
  (fst r = Returned tt \/
   fst r = Raised (RuntimeError "glusterfs setup failed")).
Proof.
  cbv zeta. rewrite glusterfs_verify_and_delete_run.
  cbn [fst snd trace].
  match goal with
  | |- context [if ?b then Returned tt else _] => destruct b
  end.
  - split; [| now left].
    eexists _, _. split.
    + rewrite app_assoc with (n := [JobDelete job_id] ++ _).
      cbn [app]. reflexivity.
    + discriminate.
  - split; [| now right].
    eexists _, _. split.
    + rewrite app_assoc with (n := [JobDelete job_id] ++ _).
      cbn [app]. reflexivity.
    + reflexivity.
Qed.

Lemma update_images_verify_and_delete_deletes (r : update_run) (s : state) :
  let o := update_images_verify_and_delete r s in
  deleted_before_raise (ur_job_id r) (trace s) o /\
  (fst o = Returned tt \/
   fst o = Raised (RuntimeError "update container images job failed")).
Proof.
  cbv zeta.
  destruct (ur_dedicated r >? 1) eqn:E.
  - apply Z.gtb_lt in E.
    rewrite update_images_verify_and_delete_multi by lia.
    unfold deleted_before_raise. cbn [fst snd trace].
    set (calls := verification_calls _ _ _ _).
    match goal with
    | |- context [if ?b then Returned tt else _] => destruct b
    end.
    + split; [| now left].
      eexists ([ComputeNodeList (ur_pool_id r)] ++ calls), _. split.
      * rewrite <- !app_assoc. cbn [app]. reflexivity.
      * discriminate.
    + split; [| now right].
      exists ([ComputeNodeList (ur_pool_id r)] ++ calls), []. split.
      * rewrite <- !app_assoc. cbn [app]. reflexivity.
      * reflexivity.
  - unfold update_images_verify_and_delete. rewrite E. cbv zeta.
    rewrite bind_assoc, bind_task_get.
    unfold deleted_before_raise.
    match goal with
    | |- context [match batchmodels.execution_info ?t with _ => _ end] =>
        destruct (match batchmodels.execution_info t with
                  | Some info =>
                      negb (option_eqb Z.eqb (batchmodels.exit_code info)
                              (Some 0))
                  | None => true
                  end)
    end; mrun; cbn [negb]; mrun.
    + split; [| now right].
      exists [TaskGet (ur_job_id r) (batchmodels.task_id (ur_batchtask r));
              BatchStreamFileAndWaitForTask
                (batchmodels.task_id (ur_batchtask r) ++ "," ++
                 ur_job_id r ++ ",stderr.txt")%string], [].
      split; [now rewrite <- !app_assoc | reflexivity].
    + split; [| now left].
      eexists [TaskGet (ur_job_id r)
                 (batchmodels.task_id (ur_batchtask r))], _.
      split; [rewrite <- !app_assoc; reflexivity | discriminate].
Qed.

End CoordinatorFacts.

Section CoordinatorTheorems.
Context {api : settings.Api} {world : World}.

(** C1 (amended): during coordination verification (glusterfs setup and
    multi-instance image update), for every set of target nodes, the
    per-node marker file is checked node by node, in order, up to and
    including the first node that lacks it - the nodes after that one
    are not checked; the run resolves to Failed exactly when at least
    one node lacks the marker (the identifier of the first lacking node
    being reported) and to Verified exactly when all nodes have it. *)
Theorem verification_stops_at_first_missing_marker
  (fuel : nat) (s : state) :
  (forall nodes shell_script cmdline pool_id job_id batchtask s1,
     glusterfs_submit_and_wait fuel shell_script cmdline s =
     (Returned (pool_id, job_id, batchtask), s1) ->
     let targets := match nodes with
                    | Some l => l
                    | None => compute_node_list pool_id
                    end in
     let present nid :=
       file_on_node pool_id nid (glusterfs_success_file job_id) in
     let r := _setup_glusterfs fuel nodes shell_script cmdline s in
     (exists calls,
        trace (snd r) = trace s1 ++ calls /\
        probed_nodes calls =
        map batchmodels.node_id (probed present targets) /\
        (forall node,
           first_absent present targets = Some node ->
           In (Log ERROR ("gluster success file absent on node " ++
                          batchmodels.node_id node)%string) calls)) /\
     (fst r = Raised (RuntimeError "glusterfs setup failed") <->
      exists node, In node targets /\
                   present (batchmodels.node_id node) = false) /\
     (fst r = Returned tt <->
      forall node, In node targets ->
                   present (batchmodels.node_id node) = true)) /\
  (forall docker_image digest singularity_image force_ssh run s1,
     update_images_submit_and_wait fuel docker_image digest
       singularity_image force_ssh s = (Returned (Some run), s1) ->
     ur_dedicated run > 1 ->
     let pool_id := ur_pool_id run in
     let targets := compute_node_list pool_id in
     let present nid :=
       file_on_node pool_id nid
         (update_images_success_file (ur_is_windows run) (ur_job_id run)
            (batchmodels.task_id (ur_batchtask run))) in
     let r := _update_container_images fuel docker_image digest
                singularity_image force_ssh s in
     (exists calls,
        trace (snd r) = trace s1 ++ calls /\
        probed_nodes calls =
        map batchmodels.node_id (probed present targets) /\
        (forall node,
           first_absent present targets = Some node ->
           In (Log ERROR ("update images success file absent on node " ++
                          batchmodels.node_id node)%string) calls)) /\
     (fst r = Raised (RuntimeError "update container images job failed")
      <-> exists node, In node targets /\
                       present (batchmodels.node_id node) = false) /\
     (fst r = Returned tt <->
      forall node, In node targets ->
                   present (batchmodels.node_id node) = true)).
Proof.
  assert (Hverdict :
    forall (present : string -> bool) targets (o : outcome unit) e,
      o = (if all_present present targets then Returned tt else Raised e) ->
      (o = Raised e <->
       exists node, In node targets /\
                    present (batchmodels.node_id node) = false) /\
      (o = Returned tt <->
       forall node, In node targets ->
                    present (batchmodels.node_id node) = true)).
  { intros present targets o e ->.
    pose proof (all_present_false present targets) as Hf.
    destruct (all_present present targets) eqn:E.
    - split; split; try discriminate.
      + intros H. apply Hf in H. discriminate.
      + intros _ node Hin. unfold all_present in E.
        rewrite forallb_forall in E. now apply E.
      + reflexivity.
    - split; split; try discriminate.
      + intros _. now apply Hf.
      + reflexivity.
      + intros H. destruct (proj1 Hf eq_refl) as (node & Hin & Hn).
        rewrite (H node Hin) in Hn. discriminate. }
  assert (Hcalls :
    forall pool_id path absent targets pre post,
      let present nid := file_on_node pool_id nid path in
      let calls := pre ++ verification_calls pool_id path absent targets
                       ++ post in
      probed_nodes pre = [] -> probed_nodes post = [] ->
      probed_nodes calls =
      map batchmodels.node_id (probed present targets) /\
      (forall node,
         first_absent present targets = Some node ->
         In (Log ERROR (absent ++ batchmodels.node_id node)%string) calls)).
  { intros pool_id path absent targets pre post present calls Hpre Hpost.
    subst calls. split.
    - rewrite !probed_nodes_app, Hpre, Hpost, app_nil_r.
      apply probed_nodes_verification.
    - intros node Hnode. apply in_or_app. right. apply in_or_app. left.
      unfold verification_calls. fold present. rewrite Hnode.
      apply in_or_app. right. now left. }
  split.
  - intros nodes shell_script cmdline pool_id job_id batchtask s1 Hsubmit
      targets present r.
    subst r. unfold _setup_glusterfs.
    rewrite bind_Returned with (1 := Hsubmit).
    rewrite glusterfs_verify_and_delete_run.
    fold targets. cbn [fst snd trace]. split.
    + eexists. split; [reflexivity |].
      apply Hcalls.
      * now destruct nodes.
      * now destruct (all_present _ targets).
    + now apply Hverdict.
  - intros docker_image digest singularity_image force_ssh run s1 Hsubmit
      Hmulti pool_id targets present r.
    subst r. unfold _update_container_images.
    rewrite bind_Returned with (1 := Hsubmit).
    rewrite update_images_verify_and_delete_multi by exact Hmulti.
    fold pool_id targets. cbn [fst snd trace]. split.
    + eexists. split; [reflexivity |].
      apply Hcalls.
      * reflexivity.
      * now destruct (all_present _ targets).
    + now apply Hverdict.
Qed.

(** C8: for every coordination run that reaches the verification stage
    (glusterfs setup or image update), the ephemeral coordination job is
    deleted whether the verification succeeded or failed, and on failure
    the error is raised to the caller only after the job deletion. *)
Theorem coordination_job_deleted_before_raise
  (fuel : nat) (s : state) :
  (forall nodes shell_script cmdline pool_id job_id batchtask s1,
     glusterfs_submit_and_wait fuel shell_script cmdline s =
     (Returned (pool_id, job_id, batchtask), s1) ->
     let r := _setup_glusterfs fuel nodes shell_script cmdline s in
     deleted_before_raise job_id (trace s1) r /\
     (fst r = Returned tt \/
      fst r = Raised (RuntimeError "glusterfs setup failed"))) /\
  (forall docker_image digest singularity_image force_ssh run s1,
     update_images_submit_and_wait fuel docker_image digest
       singularity_image force_ssh s = (Returned (Some run), s1) ->
     let r := _update_container_images fuel docker_image digest
                singularity_image force_ssh s in
     deleted_before_raise (ur_job_id run) (trace s1) r /\
     (fst r = Returned tt \/
      fst r = Raised (RuntimeError "update container images job failed"))).
Proof.
  split.
  - intros nodes shell_script cmdline pool_id job_id batchtask s1 Hsubmit r.
    subst r. unfold _setup_glusterfs.
    rewrite bind_Returned with (1 := Hsubmit).
    apply glusterfs_verify_and_delete_deletes.
  - intros docker_image digest singularity_image force_ssh run s1 Hsubmit r.
    subst r. unfold _update_container_images.
    rewrite bind_Returned with (1 := Hsubmit).
    apply update_images_verify_and_delete_deletes.
Qed.

End CoordinatorTheorems.

Lemma verification_stops_at_first_missing_marker_witness :
  exists pool_id job_id batchtask s1,
    @glusterfs_submit_and_wait Example.api Example.world_marker_missing 10
      _GLUSTERPREP_FILE None (initial (Example.config_gluster 3 0)) =
    (Returned (pool_id, job_id, batchtask), s1) /\
    (fst (@_setup_glusterfs Example.api Example.world_marker_missing 10 None
            _GLUSTERPREP_FILE None (initial (Example.config_gluster 3 0))) =
     Raised (RuntimeError "glusterfs setup failed") <->
     exists node,
       In node (@compute_node_list Example.world_marker_missing pool_id) /\
       @file_on_node Example.world_marker_missing pool_id
         (batchmodels.node_id node) (glusterfs_success_file job_id) = false).
Proof.
  eexists _, _, _, _. split; [vm_compute; reflexivity |].
  destruct (@verification_stops_at_first_missing_marker Example.api
              Example.world_marker_missing 10
              (initial (Example.config_gluster 3 0))) as [H _].
  refine (proj1 (proj2 (H None _GLUSTERPREP_FILE None _ _ _ _ _))).
  vm_compute. reflexivity.
Defined.

(** C1, as first stated, fails: on a pool of nodes 1, 2 and 3 where node 1
    lacks the marker, the run is declared failed after node 1 alone has
    been checked; nodes 2 and 3 are never looked at. *)
Lemma later_nodes_not_checked :
  let r := run (@_setup_glusterfs Example.api Example.world_marker_missing
                  10 None _GLUSTERPREP_FILE None)
               (Example.config_gluster 3 0) in
  map batchmodels.node_id
    (@compute_node_list Example.world_marker_missing "mypool") =
  ["1"; "2"; "3"]%string /\
  probed_nodes (trace (snd r)) = ["1"%string] /\
  fst r = Raised (RuntimeError "glusterfs setup failed").
Proof.
  cbv zeta. repeat split; reflexivity.
Qed.

Lemma coordination_job_deleted_before_raise_witness :
  exists pool_id job_id batchtask s1,
    @glusterfs_submit_and_wait Example.api Example.world_marker_missing 10
      _GLUSTERPREP_FILE None (initial (Example.config_gluster 3 0)) =
    (Returned (pool_id, job_id, batchtask), s1) /\
    deleted_before_raise job_id (trace s1)
      (@_setup_glusterfs Example.api Example.world_marker_missing 10 None
         _GLUSTERPREP_FILE None (initial (Example.config_gluster 3 0))).
Proof.
  eexists _, _, _, _. split; [vm_compute; reflexivity |].
  destruct (@coordination_job_deleted_before_raise Example.api
              Example.world_marker_missing 10
              (initial (Example.config_gluster 3 0))) as [H _].
  refine (proj1 (H None _GLUSTERPREP_FILE None _ _ _ _ _)).
  vm_compute. reflexivity.
Defined.

(** The runs of the example fleet: with every marker present the setup
    returns, with one missing it raises, and in both the last service call
    is the deletion of the job. *)
Example coordination_runs :
  let ok := run (@_setup_glusterfs Example.api Example.world_markers_present
                   10 None _GLUSTERPREP_FILE None)
                (Example.config_gluster 3 0) in
  let ko := run (@_setup_glusterfs Example.api Example.world_marker_missing
                   10 None _GLUSTERPREP_FILE None)
                (Example.config_gluster 3 0) in
  fst ok = Returned tt /\
  probed_nodes (trace (snd ok)) = ["1"; "2"; "3"]%string /\
  fst ko = Raised (RuntimeError "glusterfs setup failed") /\
  List.last (trace (snd ko)) Uuid4 = JobDelete "shipyard-glusterfs-0000" /\
  result (@_setup_glusterfs Example.api Example.world_marker_missing
            2 None _GLUSTERPREP_FILE None) (Example.config_gluster 3 0)
  = Diverged.
Proof.
  cbv zeta. repeat split; reflexivity.
Qed.

(** ** Pool add and image update: what is checked first *)

Section ActionTheorems.
Context {api : settings.Api} {world : World}.

(** C9: for every configuration whose pool id names an already-existing
    pool, the pool-add action raises before creating or clearing any
    storage container or uploading any resource: the only call it has
    made is the existence check, and the configuration is unchanged. *)
Theorem pool_add_refuses_existing_pool
  (fuel : nat) (batch_client network_client : option client) (s : state) :
  pool_exists (settings.pool_id (config s)) = true ->
  let r := action_pool_add fuel batch_client network_client s in
  exists e calls,
    fst r = Raised e /\
    config (snd r) = config s /\
    trace (snd r) = trace s ++ calls /\
    Forall (fun call => call = PoolExists (settings.pool_id (config s)))
      calls /\
    existsb is_storage_call calls = false.
Proof.
  intros Hexists r. subst r. unfold action_pool_add, _check_batch_client.
  destruct batch_client as [c |].
  - mrun. rewrite Hexists. mrun.
    eexists _, [PoolExists (settings.pool_id (config s))].
    repeat split; auto.
  - mrun. eexists _, []. rewrite app_nil_r. repeat split; auto.
Qed.

(** "first check that peer-to-peer is disabled for pool". *)
Lemma peer_to_peer_guard (cfg : settings.Config) (s : state) :
  try_except_KeyError
    (dr <- lift (settings.data_replication_settings cfg) ;;
     if settings.enabled (settings.peer_to_peer dr) then
       raise (RuntimeError
                ("cannot update container images for a pool with " ++
                 "peer-to-peer image distribution")%string)
     else ret tt)
    (ret tt) s =
  match settings.data_replication cfg with
  | Some dr =>
      if settings.enabled (settings.peer_to_peer dr) then
        (Raised (RuntimeError
                   ("cannot update container images for a pool with " ++
                    "peer-to-peer image distribution")%string), s)
      else (Returned tt, s)
  | None => (Returned tt, s)
  end.
Proof.
  unfold try_except_KeyError, settings.data_replication_settings.
  destruct (settings.data_replication cfg) as [dr |]; [| reflexivity].
  rewrite bind_lift_inr.
  destruct (settings.enabled (settings.peer_to_peer dr)); reflexivity.
Qed.

(** C10: for every configuration with peer-to-peer image distribution
    enabled, and for every native-container pool, the container-image
    update raises before submitting any job or contacting any node:
    these preconditions are checked before any other work, and the
    state, trace of calls included, is left as it was. *)
Theorem update_images_preconditions_first
  (fuel : nat)
  (docker_image docker_image_digest singularity_image : option string)
  (force_ssh : bool) (s : state) :
  (exists dr, settings.data_replication (config s) = Some dr /\
              settings.enabled (settings.peer_to_peer dr) = true) \/
  settings.is_native_docker_pool (config s) = true ->
  exists msg,
    _update_container_images fuel docker_image docker_image_digest
      singularity_image force_ssh s = (Raised (RuntimeError msg), s).
Proof.
  intros H.
  unfold _update_container_images, update_images_submit_and_wait.
  rewrite bind_assoc, bind_get_config. cbv zeta.
  rewrite bind_assoc. unfold bind at 1. rewrite peer_to_peer_guard.
  destruct (settings.data_replication (config s)) as [dr |] eqn:Edr.
  - destruct (settings.enabled (settings.peer_to_peer dr)) eqn:Ep2p.
    + eexists. reflexivity.
    + destruct H as [(dr' & Hdr & Hen) | Hnative].
      * injection Hdr as <-. congruence.
      * rewrite Hnative. eexists. reflexivity.
  - destruct H as [(dr' & Hdr & _) | Hnative]; [discriminate |].
    rewrite Hnative. eexists. reflexivity.
Qed.

End ActionTheorems.

Lemma pool_add_refuses_existing_pool_witness :
  @pool_exists Example.world_pool_exists
    (settings.pool_id (Example.config_gluster 3 0)) = true /\
  exists e calls,
    fst (@action_pool_add Example.api Example.world_pool_exists 10
           (Some Client) None (initial (Example.config_gluster 3 0)))
    = Raised e /\
    config (snd (@action_pool_add Example.api Example.world_pool_exists 10
                   (Some Client) None
                   (initial (Example.config_gluster 3 0))))
    = Example.config_gluster 3 0 /\
    trace (snd (@action_pool_add Example.api Example.world_pool_exists 10
                  (Some Client) None
                  (initial (Example.config_gluster 3 0))))
    = [] ++ calls /\
    Forall (fun call => call = PoolExists "mypool") calls /\
    existsb is_storage_call calls = false.
Proof.
  split; [reflexivity |].
  apply (@pool_add_refuses_existing_pool Example.api
           Example.world_pool_exists 10 (Some Client) None
           (initial (Example.config_gluster 3 0))).
  reflexivity.
Defined.

(** When the pool does not exist yet, the same action does go on to the
    storage containers and the uploads. *)
Example pool_add_reaches_storage :
  let calls := calls (@action_pool_add Example.api
                        Example.world_markers_present 10 (Some Client) None)
                 (Example.config_gluster 3 0) in
  existsb is_storage_call calls = true /\
  firstn 4 calls =
  [PoolExists "mypool"; StorageCreateStorageContainers;
   StorageClearStorageContainers; StoragePopulateGlobalResourceBlobs] /\
  result (@action_pool_add Example.api Example.world_markers_present 10
            (Some Client) None) (Example.config_gluster 3 0) = Returned tt.
Proof.
  cbv zeta. repeat split; reflexivity.
Qed.

Lemma update_images_preconditions_first_witness :
  (exists dr,
     settings.data_replication Example.config_p2p = Some dr /\
     settings.enabled (settings.peer_to_peer dr) = true) /\
  exists msg,
    @_update_container_images Example.api Example.world_markers_present 10
      None None None false (initial Example.config_p2p) =
    (Raised (RuntimeError msg), initial Example.config_p2p).
Proof.
  assert (H : exists dr,
             settings.data_replication Example.config_p2p = Some dr /\
             settings.enabled (settings.peer_to_peer dr) = true)
    by (eexists; split; reflexivity).
  split; [exact H |].
  apply (@update_images_preconditions_first Example.api
           Example.world_markers_present 10 None None None false
           (initial Example.config_p2p)).
  left. exact H.
Defined.

(** With peer-to-peer disabled on a pool that is not native, the update
    does submit a job and poll it. *)
Example update_images_runs :
  let r := run (@_update_container_images Example.api
                  Example.world_markers_present 10 None None None false)
               (Example.config_gluster 3 0) in
  fst r = Returned tt /\
  probed_nodes (trace (snd r)) = ["1"; "2"; "3"]%string /\
  In (JobDelete "shipyard-updateimages-0000") (trace (snd r)).
Proof.
  cbv zeta. split; [reflexivity |]. split; [reflexivity |].
  vm_compute. repeat (first [left; reflexivity | right]).
Qed.
